(** * QPP4SIP: retrieval evaluation for conversational search

    A shallow embedding of the evaluation core of the repository:

    - [RetrievalEvaluator] (module/retrieval_evaluator.py): precision@k,
      recall@k, nDCG@k and the batch entry point [calculate_all_metrics];
      [ZeroDivision] is the same three metric functions with the
      [ZeroDivisionError] of their divisions;
    - [ConversationRetrievalProcessor]
      (module/conversation_retrieval_processor.py): the query normalizer
      [_preprocess_query], the turn processor, the dataset driver and the
      aggregation of the overall metrics.

    Conventions of the embedding.

    - A Python [float] is idealised as a real number ([R]); [np.log2] is the
      real binary logarithm.  Rounding is not modelled.
    - A Python [int] is a [Z]; [Optional[int]] is [option Z].
    - A Python [str] is a [string]; a character is a code point below 256.
    - A Python [dict] with string keys is an insertion-ordered association
      list with unique keys ([PyDict]); a dict whose keys are values read
      from the data is one with [hashable] keys ([PyMap]); a Python [set]
      is a finite set of [hashable] values ([listset hashable]).
    - A Python call that raises is a computation whose result is [None]. *)

From Stdlib Require Import Reals Lra Lia ZArith List String Ascii.
From stdpp Require Import base strings pretty fin_sets listset list.
Import ListNotations.

Local Open Scope string_scope.
Local Open Scope list_scope.

(** ** Python dictionaries: insertion-ordered association lists *)

Module PyDict.

Section dict.
Context {V : Type}.

(** [d[key]] and [d.get(key)]. *)
Fixpoint get (key : string) (d : list (string * V)) : option V :=
  match d with
  | [] => None
  | (k, v) :: d' => if String.eqb k key then Some v else get key d'
  end.

(** [key in d]. *)
Definition contains (key : string) (d : list (string * V)) : bool :=
  match get key d with Some _ => true | None => false end.

(** [d[key] = v]: an existing key keeps its position, a new key is
    appended. *)
Fixpoint set (key : string) (v : V) (d : list (string * V))
  : list (string * V) :=
  match d with
  | [] => [(key, v)]
  | (k, w) :: d' =>
      if String.eqb k key then (k, v) :: d' else (k, w) :: set key v d'
  end.

(** [d.keys()], in insertion order. *)
Definition keys (d : list (string * V)) : list string := map fst d.

End dict.

End PyDict.

(** ** Hashable values: the elements of a set and the keys of a dict

    The values that JSON data can put into a Python [set] or use as a key
    of a [dict]: [None], a number, a string.  Python compares and hashes
    numbers by value, so that [1], [1.0] and [True] are one key: a bool
    is the number 0 or 1.  A list or an object is not hashable. *)

Inductive hashable : Type :=
| HNone
| HNum (x : R)
| HStr (s : string).

(** Equality of hashable values is decided by the equality of numbers
    and of strings. *)
#[global] Instance hashable_eq_dec : EqDecision hashable.
Proof.
  intros [|x|s] [|y|t]; try (right; discriminate); [by left| |].
  - destruct (Req_dec_T x y) as [->|Hne]; [by left|right; congruence].
  - destruct (string_dec s t) as [->|Hne]; [by left|right; congruence].
Defined.

(** A Python dict whose keys are hashable values: an insertion-ordered
    association list, as [PyDict]. *)
Module PyMap.

Section map.
Context {V : Type}.

(** [d[key]] and [d.get(key)]. *)
Fixpoint get (key : hashable) (d : list (hashable * V)) : option V :=
  match d with
  | [] => None
  | (k, v) :: d' => if decide (k = key) then Some v else get key d'
  end.

(** [key in d]. *)
Definition contains (key : hashable) (d : list (hashable * V)) : bool :=
  match get key d with Some _ => true | None => false end.

(** [d[key] = v]: an existing key keeps its position, a new key is
    appended. *)
Fixpoint set (key : hashable) (v : V) (d : list (hashable * V))
  : list (hashable * V) :=
  match d with
  | [] => [(key, v)]
  | (k, w) :: d' =>
      if decide (k = key) then (k, v) :: d' else (k, w) :: set key v d'
  end.

(** [d.keys()], in insertion order. *)
Definition keys (d : list (hashable * V)) : list hashable := map fst d.

End map.

End PyMap.

(** ** Python list slicing and enumeration *)

(** [l[:k]] for any integer [k]: a negative [k] counts from the end. *)
Definition slice_to {A : Type} (l : list A) (k : Z) : list A :=
  if (0 <=? k)%Z then take (Z.to_nat k) l
  else take (length l - Z.to_nat (- k)) l.

(** [enumerate(l)]. *)
Definition enumerate {A : Type} (l : list A) : list (nat * A) :=
  combine (seq 0 (length l)) l.

(** [range(n)] for any integer [n]: empty when [n <= 0]. *)
Definition range (n : Z) : list nat := seq 0 (Z.to_nat n).

(** ** The ranking metric engine (module/retrieval_evaluator.py) *)

(** A retrieved document, as [LuceneRetriever.search] builds it. *)
Record doc : Type := Doc {
  passage_id : string;
  passage_text : string;
  passage_titles : list string;
  score : R
}.

(** An item of a gold-evidence list: an object (with or without a
    [passage_id] field, whose value is then hashable), a bare string, or
    anything else. *)
Inductive evidence : Type :=
| EvDict (pid : option hashable)
| EvStr (s : string)
| EvOther.

Module RetrievalEvaluator.

Definition _get_gold_ids (gold_evidence : list evidence) : listset hashable :=
  fold_left
    (fun (gold_ids : listset hashable) (ev : evidence) =>
       match ev with
       | EvDict (Some pid) => gold_ids ∪ {[ pid ]}
       | EvDict None => gold_ids
       | EvStr s => gold_ids ∪ {[ HStr s ]}
       | EvOther => gold_ids
       end)
    gold_evidence ∅.

(** The counting loop shared by precision and recall:
    [for doc in retrieved_evidence[:k]: if doc['passage_id'] in gold_ids:
    relevant_count += 1]. *)
Definition count_relevant (gold_ids : listset hashable) (docs : list doc) : nat :=
  fold_left
    (fun relevant_count d =>
       if bool_decide (HStr (passage_id d) ∈ gold_ids)
       then S relevant_count else relevant_count)
    docs 0%nat.

(** [k = len(retrieved_evidence)] when [k is None]. *)
Definition effective_k (retrieved_evidence : list doc) (k : option Z) : Z :=
  match k with
  | None => Z.of_nat (length retrieved_evidence)
  | Some k => k
  end.

Definition calculate_precision_at_k
  (retrieved_evidence : list doc) (gold_evidence : list evidence)
  (k : option Z) : R :=
  let k := effective_k retrieved_evidence k in
  let gold_ids := _get_gold_ids gold_evidence in
  let relevant_count := count_relevant gold_ids (slice_to retrieved_evidence k) in
  if (0 <? k)%Z then (INR relevant_count / IZR k)%R else 0%R.

Definition calculate_recall_at_k
  (retrieved_evidence : list doc) (gold_evidence : list evidence)
  (k : option Z) : R :=
  let k := effective_k retrieved_evidence k in
  let gold_ids := _get_gold_ids gold_evidence in
  if Nat.eqb (size gold_ids) 0 then 0%R
  else
    let relevant_count :=
      count_relevant gold_ids (slice_to retrieved_evidence k) in
    (INR relevant_count / INR (size gold_ids))%R.

(** [np.log2]. *)
Definition log2 (x : R) : R := (ln x / ln 2)%R.

Definition calculate_ndcg
  (retrieved_evidence : list doc) (gold_evidence : list evidence)
  (k : option Z) : R :=
  let k := effective_k retrieved_evidence k in
  let gold_ids := _get_gold_ids gold_evidence in
  let dcg :=
    fold_left
      (fun (dcg : R) '(i, d) =>
         let relevance :=
           if bool_decide (HStr (passage_id d) ∈ gold_ids) then 1%R else 0%R in
         (dcg + relevance / log2 (INR (i + 2)))%R)
      (enumerate (slice_to retrieved_evidence k)) 0%R in
  let num_gold := Z.min (Z.of_nat (size gold_ids)) k in
  let idcg :=
    fold_left
      (fun (idcg : R) (i : nat) => (idcg + 1 / log2 (INR (i + 2)))%R)
      (range num_gold) 0%R in
  if Req_dec_T idcg 0 then 0%R else (dcg / idcg)%R.

(** The three loops of [calculate_all_metrics], each writing
    [results[f'{metric}@{k}']] for every [k] in turn. *)
Definition metric_key (metric : string) (k : Z) : string :=
  metric +:+ "@" +:+ pretty k.

Definition store_metric (metric : string) (f : Z -> R)
  (k_values : list Z) (results : list (string * R)) : list (string * R) :=
  fold_left (fun results k => PyDict.set (metric_key metric k) (f k) results)
    k_values results.

Definition calculate_all_metrics
  (retrieved_evidence : list doc) (gold_evidence : list evidence)
  (k_values : list Z) : list (string * R) :=
  let results := [] in
  let results :=
    store_metric "ndcg"
      (fun k => calculate_ndcg retrieved_evidence gold_evidence (Some k))
      k_values results in
  let results :=
    store_metric "precision"
      (fun k => calculate_precision_at_k retrieved_evidence gold_evidence (Some k))
      k_values results in
  let results :=
    store_metric "recall"
      (fun k => calculate_recall_at_k retrieved_evidence gold_evidence (Some k))
      k_values results in
  results.

(** [calculate_ndcg_multiple_k], kept by the source for backward
    compatibility. *)
Definition calculate_ndcg_multiple_k
  (retrieved_evidence : list doc) (gold_evidence : list evidence)
  (k_values : list Z) : list (string * R) :=
  store_metric "ndcg"
    (fun k => calculate_ndcg retrieved_evidence gold_evidence (Some k))
    k_values [].

End RetrievalEvaluator.

(** ** The metric functions with the errors of the division

    In Python [x / y] raises [ZeroDivisionError] when [y] is zero.  The
    functions of [RetrievalEvaluator] give the value that a call returns;
    the functions below are the same code with the outcome of every
    division, [None] being the error.  A zero divisor counts as an error
    also where the operands are numpy floats, for which the division
    gives [inf] or [nan] with a warning. *)

Module ZeroDivision.

Import RetrievalEvaluator.

(** [x / y]. *)
Definition truediv (x y : R) : option R :=
  if Req_dec_T y 0 then None else Some (x / y)%R.

Definition calculate_precision_at_k
  (retrieved_evidence : list doc) (gold_evidence : list evidence)
  (k : option Z) : option R :=
  let k := effective_k retrieved_evidence k in
  let gold_ids := _get_gold_ids gold_evidence in
  let relevant_count := count_relevant gold_ids (slice_to retrieved_evidence k) in
  if (0 <? k)%Z then truediv (INR relevant_count) (IZR k) else Some 0%R.

Definition calculate_recall_at_k
  (retrieved_evidence : list doc) (gold_evidence : list evidence)
  (k : option Z) : option R :=
  let k := effective_k retrieved_evidence k in
  let gold_ids := _get_gold_ids gold_evidence in
  if Nat.eqb (size gold_ids) 0 then Some 0%R
  else
    let relevant_count :=
      count_relevant gold_ids (slice_to retrieved_evidence k) in
    truediv (INR relevant_count) (INR (size gold_ids)).

Definition calculate_ndcg
  (retrieved_evidence : list doc) (gold_evidence : list evidence)
  (k : option Z) : option R :=
  let k := effective_k retrieved_evidence k in
  let gold_ids := _get_gold_ids gold_evidence in
  dcg ←
    fold_left
      (fun (dcg : option R) '(i, d) =>
         dcg ← dcg;
         let relevance :=
           if bool_decide (HStr (passage_id d) ∈ gold_ids) then 1%R else 0%R in
         gain ← truediv relevance (log2 (INR (i + 2)));
         Some (dcg + gain)%R)
      (enumerate (slice_to retrieved_evidence k)) (Some 0%R);
  let num_gold := Z.min (Z.of_nat (size gold_ids)) k in
  idcg ←
    fold_left
      (fun (idcg : option R) (i : nat) =>
         idcg ← idcg;
         gain ← truediv 1 (log2 (INR (i + 2)));
         Some (idcg + gain)%R)
      (range num_gold) (Some 0%R);
  if Req_dec_T idcg 0 then Some 0%R else truediv dcg idcg.

End ZeroDivision.

(** ** Python strings *)

Module PyStr.

(** [c.isspace()] for a code point below 256: the characters that
    [str.strip()] removes and [str.split()] splits on. *)
Definition is_space (c : ascii) : bool :=
  let n := nat_of_ascii c in
  (((9 <=? n) && (n <=? 13)) || ((28 <=? n) && (n <=? 32))
   || (n =? 133) || (n =? 160))%nat.

(** [c.lower()] for a code point below 256. *)
Definition lower_char (c : ascii) : ascii :=
  let n := nat_of_ascii c in
  if (((65 <=? n) && (n <=? 90))
      || ((192 <=? n) && (n <=? 222) && negb (n =? 215)))%nat
  then ascii_of_nat (n + 32) else c.

(** [s.lower()]. *)
Definition lower (s : list ascii) : list ascii := map lower_char s.

(** [s.lstrip(chars)], [s.rstrip(chars)], [s.strip(chars)] with the set of
    characters given as a predicate. *)
Fixpoint lstrip_by (p : ascii -> bool) (s : list ascii) : list ascii :=
  match s with
  | [] => []
  | c :: s' => if p c then lstrip_by p s' else s
  end.

Definition rstrip_by (p : ascii -> bool) (s : list ascii) : list ascii :=
  rev (lstrip_by p (rev s)).

Definition strip_by (p : ascii -> bool) (s : list ascii) : list ascii :=
  rstrip_by p (lstrip_by p s).

(** [s.strip()]. *)
Definition strip (s : list ascii) : list ascii := strip_by is_space s.

(** [c in chars]. *)
Definition char_in (chars : string) (c : ascii) : bool :=
  bool_decide (c ∈ list_ascii_of_string chars).

(** [s.strip(chars)] and [s.rstrip(chars)]. *)
Definition strip_chars (chars : string) (s : list ascii) : list ascii :=
  strip_by (char_in chars) s.

Definition rstrip_chars (chars : string) (s : list ascii) : list ascii :=
  rstrip_by (char_in chars) s.

(** [s.split()]: the maximal runs of characters that are not white space. *)
Fixpoint split (s : list ascii) : list (list ascii) :=
  match s with
  | [] => []
  | c :: s' =>
      if is_space c then split s'
      else
        match s' with
        | c' :: _ =>
            if is_space c' then [c] :: split s'
            else
              match split s' with
              | w :: ws => (c :: w) :: ws
              | [] => [[c]]
              end
        | [] => [[c]]
        end
  end.

(** [sep.join(words)]. *)
Fixpoint join (sep : list ascii) (words : list (list ascii)) : list ascii :=
  match words with
  | [] => []
  | [w] => w
  | w :: ws => w ++ sep ++ join sep ws
  end.

(** [needle in s] for strings. *)
Definition is_substring (needle s : string) : bool :=
  match String.index 0 needle s with Some _ => true | None => false end.

End PyStr.

(** ** Values loaded from JSON *)

#[local] Set Warnings "-register-all".

Inductive value : Type :=
| VNone
| VBool (b : bool)
| VInt (n : Z)
| VFloat (x : R)
| VStr (s : string)
| VList (l : list value)
| VDict (d : list (string * value)).

(** [[x == VStr key]] on values that come from JSON. *)
Definition is_str (key : string) (v : value) : bool :=
  match v with VStr s => String.eqb s key | _ => false end.

(** [key in v]: [None] is the [TypeError] of a value that is not a
    container. *)
Definition py_contains (key : string) (v : value) : option bool :=
  match v with
  | VDict d => Some (PyDict.contains key d)
  | VList l => Some (existsb (is_str key) l)
  | VStr s => Some (PyStr.is_substring key s)
  | _ => None
  end.

(** [v[key]] with a string key: [None] is the [KeyError] of a missing key
    or the [TypeError] of a value that is not a dict. *)
Definition py_getitem (v : value) (key : string) : option value :=
  match v with
  | VDict d => PyDict.get key d
  | _ => None
  end.

(** [v[key] = x] with a string key. *)
Definition py_setitem (v : value) (key : string) (x : value) : option value :=
  match v with
  | VDict d => Some (VDict (PyDict.set key x d))
  | _ => None
  end.

(** [v.get(key, default)]: only a dict has the method. *)
Definition py_get (v : value) (key : string) (default : value) : option value :=
  match v with
  | VDict d =>
      Some (match PyDict.get key d with Some x => x | None => default end)
  | _ => None
  end.

(** The items that [for x in v] visits. *)
Definition py_iter (v : value) : option (list value) :=
  match v with
  | VList l => Some l
  | VDict d => Some (map VStr (PyDict.keys d))
  | VStr s => Some (map (fun c => VStr (String c "")) (list_ascii_of_string s))
  | _ => None
  end.

(** ** Computations that call the retrieval backend and may raise

    A computation yields the list of backend calls it made, in order, and
    its result, [None] when it raised. *)

Definition backend_call : Type := string * Z.

Definition M (A : Type) : Type := list backend_call * option A.

Definition ret {A : Type} (a : A) : M A := ([], Some a).

Definition raise {A : Type} : M A := ([], None).

Definition bind {A B : Type} (m : M A) (f : A -> M B) : M B :=
  match m with
  | (calls, Some a) => let '(calls', r) := f a in (calls ++ calls', r)
  | (calls, None) => (calls, None)
  end.

(** A Python operation that makes no backend call. *)
Definition lift {A : Type} (o : option A) : M A := ([], o).

Notation "'let*' x ':=' c1 'in' c2" := (bind c1 (fun x => c2))
  (at level 10, x name, c1 at level 100, c2 at level 200).

(** A [for] loop that rebuilds each item of a list in turn. *)
Fixpoint for_each {A B : Type} (f : A -> M B) (l : list A) : M (list B) :=
  match l with
  | [] => ret []
  | a :: l' =>
      let* b := f a in
      let* bs := for_each f l' in
      ret (b :: bs)
  end.

(** The calls made and the result of a computation. *)
Definition calls_of {A : Type} (m : M A) : list backend_call := fst m.
Definition result_of {A : Type} (m : M A) : option A := snd m.

(** ** The conversation retrieval processor
       (module/conversation_retrieval_processor.py) *)

(** A retrieved document as the dict that [LuceneRetriever.search] returns. *)
Definition doc_to_value (d : doc) : value :=
  VDict [("passage_id", VStr (passage_id d));
         ("passage_text", VStr (passage_text d));
         ("passage_titles", VList (map VStr (passage_titles d)));
         ("score", VFloat (score d))].

(** A value as an element of a set or a key of a dict: [None] is the
    [TypeError] of a list or an object, which are not hashable. *)
Definition hashable_of_value (v : value) : option hashable :=
  match v with
  | VNone => Some HNone
  | VBool b => Some (HNum (if b then 1 else 0))
  | VInt n => Some (HNum (IZR n))
  | VFloat x => Some (HNum x)
  | VStr s => Some (HStr s)
  | VList _ | VDict _ => None
  end.

(** An item of [label['evidence']] as the evaluator reads it: the
    [passage_id] of an object goes into the gold set whatever hashable
    value it is; one that is a list or an object makes [set.add] raise. *)
Definition evidence_of_value (v : value) : option evidence :=
  match v with
  | VDict d =>
      match PyDict.get "passage_id" d with
      | None => Some (EvDict None)
      | Some pid => pid ← hashable_of_value pid; Some (EvDict (Some pid))
      end
  | VStr s => Some (EvStr s)
  | _ => Some EvOther
  end.

(** [label['evidence']] as the list that [_get_gold_ids] iterates. *)
Definition gold_of_value (v : value) : option (list evidence) :=
  items ← py_iter v; mapM evidence_of_value items.

Module ConversationRetrievalProcessor.

Definition question_words : list string :=
  ["what"; "when"; "where"; "who"; "why"; "how"; "which"; "can"; "could";
   "would"; "will"; "do"; "does"; "did"; "is"; "are"; "was"; "were"].

(** The loop body of [_preprocess_query]. *)
Definition filter_word (filtered_words : list (list ascii)) (word : list ascii)
  : list (list ascii) :=
  if bool_decide (string_of_list_ascii word ∈ question_words)
  then filtered_words
  else if (length word <=? 2)%nat then filtered_words
  else
    let word := PyStr.strip_chars ".,!?;:" word in
    match word with
    | [] => filtered_words
    | _ => filtered_words ++ [word]
    end.

Definition _preprocess_query (query : string) : string :=
  let processed_query := PyStr.strip (list_ascii_of_string query) in
  let words := PyStr.split (PyStr.lower processed_query) in
  let filtered_words := fold_left filter_word words [] in
  let keyword_query := PyStr.join [" "%char] filtered_words in
  if (length filtered_words <? 2)%nat
  then string_of_list_ascii processed_query
  else string_of_list_ascii keyword_query.

Section processor.

(** [self.retriever.search(query, top_k)]: the retrieval backend, [None]
    when the call raises. *)
Variable search : string -> Z -> option (list doc).

Definition retriever_search (query : string) (top_k : Z) : M (list doc) :=
  ([(query, top_k)], search query top_k).

Definition _create_new_turn_structure
  (turn : value) (search_results : list doc) (query_key : string) : M value :=
  let new_turn := VDict [] in
  let* has_query := lift (py_contains "query" turn) in
  let* new_turn :=
    if has_query : bool then
      let* q := lift (py_getitem turn "query") in
      lift (py_setitem new_turn "query" q)
    else ret new_turn in
  let* has_key := lift (py_contains query_key turn) in
  let* new_turn :=
    if has_key : bool then
      let* q := lift (py_getitem turn query_key) in
      lift (py_setitem new_turn "resolvedQuery" q)
    else ret new_turn in
  let* new_turn :=
    lift (py_setitem new_turn "retrieved_evidence"
            (VList (map doc_to_value search_results))) in
  let* has_labels := lift (py_contains "labels" turn) in
  if has_labels : bool then
    let* labels := lift (py_getitem turn "labels") in
    lift (py_setitem new_turn "labels" labels)
  else ret new_turn.

(** The body of the loop of [_calculate_metrics_for_labels]: the label
    with its metric fields added.  With no k value the evaluator never
    reads the evidence. *)
Definition score_label
  (search_results : list doc) (k_values : list Z) (label : value) : M value :=
  let* has_evidence := lift (py_contains "evidence" label) in
  if negb has_evidence then ret label
  else
    let* gold_evidence := lift (py_getitem label "evidence") in
    let* metrics :=
      match k_values with
      | [] => ret []
      | _ =>
          let* gold := lift (gold_of_value gold_evidence) in
          ret (RetrievalEvaluator.calculate_all_metrics
                 search_results gold k_values)
      end in
    fold_left
      (fun (label : M value) '(metric_name, score) =>
         let* label := label in
         lift (py_setitem label metric_name (VFloat score)))
      metrics (ret label).

(** [_calculate_metrics_for_labels] updates the labels in place; the
    embedding returns the updated [labels].  Only the items of a list are
    objects that can be updated: the items of a dict or of a string are
    strings. *)
Definition _calculate_metrics_for_labels
  (labels : value) (search_results : list doc) (k_values : list Z) : M value :=
  let* items := lift (py_iter labels) in
  let* items := for_each (score_label search_results k_values) items in
  match labels with
  | VList _ => ret (VList items)
  | _ => ret labels
  end.

Definition _process_single_turn
  (turn : value) (query_key : string) (k_values : list Z)
  (calculate_ndcg : bool) : M value :=
  let* has_key := lift (py_contains query_key turn) in
  if negb has_key then ret turn
  else
    let* query := lift (py_get turn query_key (VStr "")) in
    let* processed_query :=
      match query with
      | VStr q => ret (_preprocess_query q)
      | _ => raise
      end in
    let* search_results := retriever_search processed_query 10 in
    let* new_turn :=
      _create_new_turn_structure turn search_results query_key in
    let* score_labels :=
      if calculate_ndcg then lift (py_contains "labels" new_turn)
      else ret false in
    if score_labels : bool then
      let* labels := lift (py_getitem new_turn "labels") in
      let* labels :=
        _calculate_metrics_for_labels labels search_results k_values in
      lift (py_setitem new_turn "labels" labels)
    else ret new_turn.

(** [_process_turns] replaces the turns of [target_data] in place; the
    embedding returns the updated [target_data].  A [turns] field that is
    not a list either has nothing to iterate or makes the loop raise. *)
Definition _process_turns
  (target_data : value) (k_values : list Z) (calculate_ndcg : bool) : M value :=
  let* has_turns := lift (py_contains "turns" target_data) in
  if negb has_turns then ret target_data
  else
    let query_key := "resolvedQuery" in
    let* turns := lift (py_getitem target_data "turns") in
    match turns with
    | VList l =>
        let* l :=
          for_each
            (fun turn => _process_single_turn turn query_key k_values calculate_ndcg)
            l in
        lift (py_setitem target_data "turns" (VList l))
    | VDict [] | VStr "" => ret target_data
    | _ => raise
    end.

(** [process_json_file] between [json.load] and [json.dump]: [data] is the
    loaded input, the result is the data written to the output file. *)
Definition process_json_file
  (data : value) (calculate_ndcg : bool) (k_values : list Z) : M value :=
  match data with
  | VDict d =>
      let* d :=
        for_each
          (fun '(top_key, target_data) =>
             let* target_data :=
               _process_turns target_data k_values calculate_ndcg in
             ret (top_key, target_data))
          d in
      ret (VDict d)
  | _ => raise
  end.

End processor.

(** *** Aggregation of the overall metrics *)

(** A loop in the option monad: the state after the last item, [None]
    when an iteration raises. *)
Fixpoint fold_opt {S A : Type} (f : S -> A -> option S) (l : list A) (s : S)
  : option S :=
  match l with
  | [] => Some s
  | a :: l' => s' ← f s a; fold_opt f l' s'
  end.

Definition metric_types : list string := ["ndcg"; "precision"; "recall"].

(** [metrics_by_type[metric_name].append(x)]. *)
Definition append_score (metric_name : string) (x : value)
  (metrics_by_type : list (string * list value))
  : option (list (string * list value)) :=
  scores ← PyDict.get metric_name metrics_by_type;
  Some (PyDict.set metric_name (scores ++ [x]) metrics_by_type).

Definition collect_label (metrics_by_type : list (string * list value))
  (label : value) : option (list (string * list value)) :=
  fold_opt
    (fun acc metric_name =>
       has ← py_contains metric_name label;
       if has : bool then
         x ← py_getitem label metric_name; append_score metric_name x acc
       else Some acc)
    (PyDict.keys metrics_by_type) metrics_by_type.

Definition collect_turn (metrics_by_type : list (string * list value))
  (turn : value) : option (list (string * list value)) :=
  has ← py_contains "labels" turn;
  if negb has then Some metrics_by_type
  else
    labels ← py_getitem turn "labels";
    labels ← py_iter labels;
    fold_opt collect_label labels metrics_by_type.

Definition collect_dialogue (metrics_by_type : list (string * list value))
  (target_data : value) : option (list (string * list value)) :=
  has ← py_contains "turns" target_data;
  if negb has then Some metrics_by_type
  else
    turns ← py_getitem target_data "turns";
    turns ← py_iter turns;
    fold_opt collect_turn turns metrics_by_type.

Definition _collect_metrics_scores (json_data : value) (k_values : list Z)
  : option (list (string * list value)) :=
  let metrics_by_type :=
    fold_left
      (fun acc metric_type =>
         fold_left
           (fun acc k =>
              PyDict.set (RetrievalEvaluator.metric_key metric_type k) [] acc)
           k_values acc)
      metric_types [] in
  match json_data with
  | VDict d => fold_opt collect_dialogue (map snd d) metrics_by_type
  | _ => None
  end.

(** A score as numpy reads it; scores that are not numbers are outside
    the model. *)
Definition as_float (v : value) : option R :=
  match v with
  | VFloat x => Some x
  | VInt n => Some (IZR n)
  | VBool b => Some (if b then 1%R else 0%R)
  | _ => None
  end.

(** [np.mean] and [np.max] of a list of scores that is not empty. *)
Definition np_mean (scores : list value) : option R :=
  xs ← mapM as_float scores;
  Some (fold_right Rplus 0%R xs / INR (length xs))%R.

Definition np_max (scores : list value) : option R :=
  xs ← mapM as_float scores;
  match xs with
  | [] => None
  | x :: xs => Some (fold_left Rmax xs x)
  end.

Definition calculate_overall_metrics (json_data : value) (k_values : list Z)
  : option (list (string * value)) :=
  match json_data with
  | VDict _ =>
      metrics_scores_by_type ← _collect_metrics_scores json_data k_values;
      overall_metrics ←
        fold_opt
          (fun overall_metrics metric_name =>
             scores ← PyDict.get metric_name metrics_scores_by_type;
             match scores with
             | [] =>
                 Some (PyDict.set ("max_" +:+ metric_name) (VFloat 0)
                         (PyDict.set ("avg_" +:+ metric_name) (VFloat 0)
                            overall_metrics))
             | _ =>
                 avg ← np_mean scores;
                 max ← np_max scores;
                 Some (PyDict.set ("max_" +:+ metric_name) (VFloat max)
                         (PyDict.set ("avg_" +:+ metric_name) (VFloat avg)
                            overall_metrics))
             end)
          (PyDict.keys metrics_scores_by_type) [];
      let total_queries :=
        fold_left (fun total '(_, scores) => (total + Z.of_nat (length scores))%Z)
          metrics_scores_by_type 0%Z in
      Some (PyDict.set "num_queries" (VInt total_queries) overall_metrics)
  | _ => None
  end.

(** *** The nDCG-only variants, kept by the source for backward
        compatibility *)

(** The body of the loop of [_calculate_ndcg_for_labels]. *)
Definition score_label_ndcg
  (search_results : list doc) (k_values : list Z) (label : value) : M value :=
  let* has_evidence := lift (py_contains "evidence" label) in
  if negb has_evidence then ret label
  else
    let* gold_evidence := lift (py_getitem label "evidence") in
    let* ndcg_scores :=
      match k_values with
      | [] => ret []
      | _ =>
          let* gold := lift (gold_of_value gold_evidence) in
          ret (RetrievalEvaluator.calculate_ndcg_multiple_k
                 search_results gold k_values)
      end in
    fold_left
      (fun (label : M value) '(k, score) =>
         let* label := label in
         lift (py_setitem label k (VFloat score)))
      ndcg_scores (ret label).

Definition _calculate_ndcg_for_labels
  (labels : value) (search_results : list doc) (k_values : list Z) : M value :=
  let* items := lift (py_iter labels) in
  let* items := for_each (score_label_ndcg search_results k_values) items in
  match labels with
  | VList _ => ret (VList items)
  | _ => ret labels
  end.

(** The traversal shared by the collectors: every label of every turn of
    every dialogue, in order, with [collect] applied to each. *)
Definition collect_turn_by {S : Type} (collect : S -> value -> option S)
  (acc : S) (turn : value) : option S :=
  has ← py_contains "labels" turn;
  if negb has then Some acc
  else
    labels ← py_getitem turn "labels";
    labels ← py_iter labels;
    fold_opt collect labels acc.

Definition collect_dialogue_by {S : Type} (collect : S -> value -> option S)
  (acc : S) (target_data : value) : option S :=
  has ← py_contains "turns" target_data;
  if negb has then Some acc
  else
    turns ← py_getitem target_data "turns";
    turns ← py_iter turns;
    fold_opt (collect_turn_by collect) turns acc.

(** The innermost loop of [_collect_ndcg_scores]: over [k_values], not
    over the keys of the dict. *)
Definition collect_label_ndcg (k_values : list Z)
  (ndcg_scores_by_k : list (string * list value)) (label : value)
  : option (list (string * list value)) :=
  fold_opt
    (fun acc k =>
       let k_key := RetrievalEvaluator.metric_key "ndcg" k in
       has ← py_contains k_key label;
       if has : bool then
         x ← py_getitem label k_key; append_score k_key x acc
       else Some acc)
    k_values ndcg_scores_by_k.

Definition _collect_ndcg_scores (json_data : value) (k_values : list Z)
  : option (list (string * list value)) :=
  let ndcg_scores_by_k :=
    fold_left
      (fun acc k => PyDict.set (RetrievalEvaluator.metric_key "ndcg" k) [] acc)
      k_values [] in
  match json_data with
  | VDict d =>
      fold_opt (collect_dialogue_by (collect_label_ndcg k_values)) (map snd d)
        ndcg_scores_by_k
  | _ => None
  end.

(** *** Aggregation by response type *)

(** [label.get('responseType', 'unknown')] as a key of the dict of
    categories: any hashable value is a key; a list or an object is not
    hashable and makes Python raise. *)
Definition response_type_of (label : value) : option hashable :=
  response_type ← py_get label "responseType" (VStr "unknown");
  hashable_of_value response_type.

(** The dict of empty score lists of a new response type. *)
Definition empty_metrics (k_values : list Z) : list (string * list value) :=
  fold_left
    (fun acc metric_type =>
       fold_left
         (fun acc k =>
            PyDict.set (RetrievalEvaluator.metric_key metric_type k) [] acc)
         k_values acc)
    metric_types [].

(** The body of the innermost loop of [_collect_metrics_by_response_type]
    for one label. *)
Definition collect_label_by_type (k_values : list Z)
  (metrics_by_response_type : list (hashable * list (string * list value)))
  (label : value) : option (list (hashable * list (string * list value))) :=
  response_type ← response_type_of label;
  let metrics_by_response_type :=
    if PyMap.contains response_type metrics_by_response_type
    then metrics_by_response_type
    else PyMap.set response_type (empty_metrics k_values)
           metrics_by_response_type in
  fold_opt
    (fun acc metric_type =>
       fold_opt
         (fun acc k =>
            let metric_name := RetrievalEvaluator.metric_key metric_type k in
            has ← py_contains metric_name label;
            if has : bool then
              x ← py_getitem label metric_name;
              metrics ← PyMap.get response_type acc;
              metrics ← append_score metric_name x metrics;
              Some (PyMap.set response_type metrics acc)
            else Some acc)
         k_values acc)
    metric_types metrics_by_response_type.

Definition _collect_metrics_by_response_type
  (json_data : value) (k_values : list Z)
  : option (list (hashable * list (string * list value))) :=
  match json_data with
  | VDict d =>
      fold_opt (collect_dialogue_by (collect_label_by_type k_values))
        (map snd d) []
  | _ => None
  end.

(** [np.min] and [np.std] of a list of scores that is not empty; the
    standard deviation is that of the population. *)
Definition np_min (scores : list value) : option R :=
  xs ← mapM as_float scores;
  match xs with
  | [] => None
  | x :: xs => Some (fold_left Rmin xs x)
  end.

Definition np_std (scores : list value) : option R :=
  xs ← mapM as_float scores;
  let n := INR (length xs) in
  let mean := (fold_right Rplus 0%R xs / n)%R in
  Some (sqrt (fold_right Rplus 0%R
                (map (fun x => ((x - mean) * (x - mean))%R) xs) / n)).

(** The statistics of one metric of one response type. *)
Definition metric_statistics (metric_name : string) (scores : list value)
  (stats : list (string * value)) : option (list (string * value)) :=
  match scores with
  | [] =>
      Some (PyDict.set ("count_" +:+ metric_name) (VInt 0)
              (PyDict.set ("std_" +:+ metric_name) (VFloat 0)
                 (PyDict.set ("min_" +:+ metric_name) (VFloat 0)
                    (PyDict.set ("max_" +:+ metric_name) (VFloat 0)
                       (PyDict.set ("avg_" +:+ metric_name) (VFloat 0)
                          stats)))))
  | _ =>
      avg ← np_mean scores;
      max ← np_max scores;
      min ← np_min scores;
      std ← np_std scores;
      Some (PyDict.set ("count_" +:+ metric_name)
              (VInt (Z.of_nat (length scores)))
              (PyDict.set ("std_" +:+ metric_name) (VFloat std)
                 (PyDict.set ("min_" +:+ metric_name) (VFloat min)
                    (PyDict.set ("max_" +:+ metric_name) (VFloat max)
                       (PyDict.set ("avg_" +:+ metric_name) (VFloat avg)
                          stats)))))
  end.

Definition calculate_metrics_by_response_type
  (json_data : value) (k_values : list Z)
  : option (list (hashable * list (string * value))) :=
  match json_data with
  | VDict _ =>
      metrics_by_response_type ←
        _collect_metrics_by_response_type json_data k_values;
      fold_opt
        (fun results '(response_type, metrics) =>
           stats ←
             fold_opt
               (fun stats '(metric_name, scores) =>
                  metric_statistics metric_name scores stats)
               metrics [];
           Some (PyMap.set response_type stats results))
        metrics_by_response_type []
  | _ => None
  end.

End ConversationRetrievalProcessor.

(** ** The formulas of the specification

    These definitions follow the words of the specification, not the code;
    the theorems below compare the code with them. *)

Module Spec.

(** Σ over a list of terms. *)
Definition big_sum (terms : list R) : R := fold_right Rplus 0%R terms.

(** Binary relevance of the document at 0-indexed rank [i]: 1.0 if its id
    is in the gold set, else 0.0; nothing is retrieved beyond the end of
    the list. *)
Definition relevance (retrieved : list doc) (gold : listset hashable) (i : nat) : R :=
  match retrieved !! i with
  | Some d => if bool_decide (HStr (passage_id d) ∈ gold) then 1%R else 0%R
  | None => 0%R
  end.

(** DCG = Σ_{i=0}^{k-1} relevance(i) / log2(i+2). *)
Definition dcg (retrieved : list doc) (gold : listset hashable) (k : Z) : R :=
  big_sum
    (map (fun i => (relevance retrieved gold i
                    / RetrievalEvaluator.log2 (INR (i + 2)))%R)
       (seq 0 (Z.to_nat k))).

(** IDCG = Σ_{i=0}^{m-1} 1 / log2(i+2) where m = min(|gold set|, k). *)
Definition idcg (gold : listset hashable) (k : Z) : R :=
  big_sum
    (map (fun i => (1 / RetrievalEvaluator.log2 (INR (i + 2)))%R)
       (seq 0 (Z.to_nat (Z.min (Z.of_nat (size gold)) k)))).

(** nDCG = DCG / IDCG, defined as 0.0 when IDCG = 0. *)
Definition ndcg (retrieved : list doc) (gold : listset hashable) (k : Z) : R :=
  if Req_dec_T (idcg gold k) 0 then 0%R
  else (dcg retrieved gold k / idcg gold k)%R.

(** The query normalizer as the specification words it: a token is
    dropped when it is a stop word, or when its length is at most 2 after
    its trailing punctuation is stripped. *)
Definition normalize (query : string) : string :=
  let trimmed := PyStr.strip (list_ascii_of_string query) in
  let tokens := PyStr.split (PyStr.lower trimmed) in
  let surviving :=
    omap
      (fun token =>
         if bool_decide
              (string_of_list_ascii token
                 ∈ ConversationRetrievalProcessor.question_words)
         then None
         else
           let stripped := PyStr.rstrip_chars ".,!?;:" token in
           if (length stripped <=? 2)%nat then None else Some stripped)
      tokens in
  if (length surviving <? 2)%nat then string_of_list_ascii trimmed
  else string_of_list_ascii (PyStr.join [" "%char] surviving).

(** The query normalizer by stages, in the order of the code: stop words
    and tokens of length at most 2 are dropped first, as they stand; then
    the punctuation is stripped at both ends of each remaining token, and a
    token that becomes empty is dropped. *)
Definition keep_token (token : list ascii) : bool :=
  negb (bool_decide
          (string_of_list_ascii token
             ∈ ConversationRetrievalProcessor.question_words))
  && negb (length token <=? 2)%nat.

Definition nonempty (token : list ascii) : bool :=
  match token with [] => false | _ => true end.

Definition normalize_by_stages (query : string) : string :=
  let trimmed := PyStr.strip (list_ascii_of_string query) in
  let tokens := PyStr.split (PyStr.lower trimmed) in
  let surviving :=
    List.filter nonempty
      (map (PyStr.strip_chars ".,!?;:") (List.filter keep_token tokens)) in
  if (length surviving <? 2)%nat then string_of_list_ascii trimmed
  else string_of_list_ascii (PyStr.join [" "%char] surviving).

(** A token carries no punctuation at its ends. *)
Definition clean_token (token : list ascii) : Prop :=
  PyStr.strip_chars ".,!?;:" token = token.

Definition clean_query (query : string) : Prop :=
  Forall clean_token
    (PyStr.split (PyStr.lower (PyStr.strip (list_ascii_of_string query)))).

End Spec.

(** ** Auxiliary notions of the proofs *)

(** The discount of rank [i] in the DCG. *)
Definition discount (i : nat) : R :=
  (1 / RetrievalEvaluator.log2 (INR (i + 2)))%R.

(** The gain of a ranked document at rank [i]. *)
Definition gain (gold_ids : listset hashable) (x : nat * doc) : R :=
  ((if bool_decide (HStr (passage_id (snd x)) ∈ gold_ids) then 1 else 0)
   / RetrievalEvaluator.log2 (INR (fst x + 2)))%R.

(** A string that does not start with a character of the stripped set. *)
Definition no_lead (p : ascii -> bool) (s : list ascii) : Prop :=
  match s with [] => True | c :: _ => p c = false end.

(** A word: not empty and free of white space. *)
Definition word (w : list ascii) : Prop :=
  w <> [] /\ Forall (fun c => PyStr.is_space c = false) w.

(** The words that survive the filter of a query. *)
Definition surviving (query : list ascii) : list (list ascii) :=
  fold_left ConversationRetrievalProcessor.filter_word
    (PyStr.split (PyStr.lower (PyStr.strip query))) [].

(** The fields of the turn that [_create_new_turn_structure] builds from
    the fields [d] of a turn whose query is [q]. *)
Definition new_turn_fields
  (d : list (string * value)) (search_results : list doc) (q : value)
  : list (string * value) :=
  match PyDict.get "query" d with Some x => [("query", x)] | None => [] end
  ++ [("resolvedQuery", q);
      ("retrieved_evidence", VList (map doc_to_value search_results))]
  ++ match PyDict.get "labels" d with Some l => [("labels", l)] | None => [] end.

(** A computation that returns. *)
Definition succeeds {A : Type} (m : M A) : Prop := is_Some (result_of m).

(** The body of the loop of [process_json_file] on one dialogue. *)
Definition dialogue_step (search : string -> Z -> option (list doc))
  (k_values : list Z) (calculate_ndcg : bool) (item : string * value)
  : M (string * value) :=
  let '(top_key, target_data) := item in
  let* target_data :=
    ConversationRetrievalProcessor._process_turns
      search target_data k_values calculate_ndcg in
  ret (top_key, target_data).

(** The fields of a label after the metrics of [metrics] are written into
    it, in the order of [metrics.items()]. *)
Definition add_metrics (metrics : list (string * R)) (d : list (string * value))
  : list (string * value) :=
  fold_left (fun d '(metric_name, score) => PyDict.set metric_name (VFloat score) d)
    metrics d.

(** A dialogue none of whose turns has a resolved query: an object
    without [turns], or whose [turns] is a list of turns without the
    [resolvedQuery] key. *)
Definition turns_without_query (target_data : value) : Prop :=
  exists d,
    target_data = VDict d
    /\ match PyDict.get "turns" d with
       | None => True
       | Some turns =>
           exists l,
             turns = VList l
             /\ Forall (fun turn => py_contains "resolvedQuery" turn = Some false) l
       end.

(** The labels that the collectors visit, in order: those of every turn
    (none when the turn has no [labels]) of every dialogue (none when the
    dialogue has no [turns]); [None] when the traversal raises. *)
Definition turn_labels (turn : value) : option (list value) :=
  has ← py_contains "labels" turn;
  if negb has then Some []
  else labels ← py_getitem turn "labels"; py_iter labels.

Definition dialogue_labels (target_data : value) : option (list value) :=
  has ← py_contains "turns" target_data;
  if negb has then Some []
  else
    turns ← py_getitem target_data "turns";
    turns ← py_iter turns;
    lss ← mapM turn_labels turns; Some (concat lss).

Definition dataset_labels (json_data : value) : option (list value) :=
  match json_data with
  | VDict d => lss ← mapM dialogue_labels (map snd d); Some (concat lss)
  | _ => None
  end.

(** The score lists after the metric fields of the label [d] are
    appended: a list grows by the value under its key, when the label has
    one. *)
Definition append_scores (d : list (string * value))
  (metrics_by_type : list (string * list value)) : list (string * list value) :=
  map (fun '(metric_name, scores) =>
         (metric_name, scores ++ option_list (PyDict.get metric_name d)))
    metrics_by_type.

(** The keys "{metric}@{k}" in the order of the loops that create them. *)
Definition all_metric_keys (k_values : list Z) : list string :=
  concat
    (map (fun metric_type =>
            map (RetrievalEvaluator.metric_key metric_type) k_values)
       ConversationRetrievalProcessor.metric_types).

(** The sum and the largest of a list of reals, as [np.mean] and [np.max]
    compute them. *)
Definition mean (xs : list R) : R :=
  (fold_right Rplus 0%R xs / INR (length xs))%R.

Definition largest (x : R) (xs : list R) : R := fold_left Rmax xs x.

(** The average and the maximum that [calculate_overall_metrics] reports
    for a list of scores: 0.0 for an empty list. *)
Definition avg_of (scores : list value) : R :=
  match scores with
  | [] => 0%R
  | _ => match mapM ConversationRetrievalProcessor.as_float scores with
         | Some xs => mean xs
         | None => 0%R
         end
  end.

Definition max_of (scores : list value) : R :=
  match mapM ConversationRetrievalProcessor.as_float scores with
  | Some (x :: xs) => largest x xs
  | _ => 0%R
  end.

(** Writing a list of entries into a dict, in order. *)
Definition write_all {V : Type} (entries : list (string * V))
  (d : list (string * V)) : list (string * V) :=
  fold_left (fun d '(key, v) => PyDict.set key v d) entries d.

(** The entries that [calculate_overall_metrics] writes for the metrics
    [names], in order. *)
Definition overall_entries (scores : list (string * list value))
  (names : list string) : list (string * value) :=
  concat
    (map (fun name =>
            let l := default [] (PyDict.get name scores) in
            [("avg_" +:+ name, VFloat (avg_of l));
             ("max_" +:+ name, VFloat (max_of l))])
       names).

(** The keys "ndcg@{k}" of [k_values], in order and with repetitions. *)
Definition ndcg_keys (k_values : list Z) : list string :=
  map (RetrievalEvaluator.metric_key "ndcg") k_values.

(** The values that a loop over the metric names [names] appends to the
    list of [key] for the label [d]: the value that the label has under
    [key], once for every occurrence of [key] in [names]. *)
Definition repeated_scores (names : list string) (d : list (string * value))
  (key : string) : list value :=
  match PyDict.get key d with
  | Some x => replicate (count_occ string_dec names key) x
  | None => []
  end.

(** [m'] is [m] with the list of every key extended by [ext]. *)
Definition extended_by (ext : string -> list value)
  (m m' : list (string * list value)) : Prop :=
  PyDict.keys m' = PyDict.keys m
  /\ forall key, PyDict.get key m' = (fun l => l ++ ext key) <$> PyDict.get key m.

(** The labels of response type [t], in order. *)
Definition labels_of_type (t : hashable) (dicts : list (list (string * value)))
  : list (list (string * value)) :=
  filter
    (fun d => ConversationRetrievalProcessor.response_type_of (VDict d) = Some t)
    dicts.

(** The body of the innermost loop of [_collect_metrics_by_response_type]
    for the metric [metric_name] of a label of type [response_type]. *)
Definition collect_metric_by_type (response_type : hashable) (label : value)
  (acc : list (hashable * list (string * list value))) (metric_name : string)
  : option (list (hashable * list (string * list value))) :=
  has ← py_contains metric_name label;
  if has : bool then
    x ← py_getitem label metric_name;
    metrics ← PyMap.get response_type acc;
    metrics ← ConversationRetrievalProcessor.append_score metric_name x metrics;
    Some (PyMap.set response_type metrics acc)
  else Some acc.

(** The score lists of every response type have the metric keys. *)
Definition scores_by_type_ok (k_values : list Z)
  (acc : list (hashable * list (string * list value))) : Prop :=
  forall t m, PyMap.get t acc = Some m ->
    forall name, name ∈ all_metric_keys k_values -> name ∈ PyDict.keys m.

(** The values collected under [key] for the labels [dicts] by the loops
    over the metric types and [k_values]. *)
Definition collected (k_values : list Z) (dicts : list (list (string * value)))
  (key : string) : list value :=
  concat (map (fun d => repeated_scores (all_metric_keys k_values) d key) dicts).

(** The dicts that [PyDict.set] builds: no key twice, at both levels. *)
Definition well_keyed (acc : list (hashable * list (string * list value))) : Prop :=
  NoDup (PyMap.keys acc)
  /\ forall t m, PyMap.get t acc = Some m -> NoDup (PyDict.keys m).

(** The smallest of a list of reals, as [np.min] computes it, and the
    minimum and the standard deviation that
    [calculate_metrics_by_response_type] reports for a list of scores: 0.0
    for an empty list. *)
Definition smallest (x : R) (xs : list R) : R := fold_left Rmin xs x.

Definition min_of (scores : list value) : R :=
  match mapM ConversationRetrievalProcessor.as_float scores with
  | Some (x :: xs) => smallest x xs
  | _ => 0%R
  end.

Definition deviation (xs : list R) : R :=
  sqrt (fold_right Rplus 0%R
          (map (fun x => ((x - mean xs) * (x - mean xs))%R) xs)
        / INR (length xs)).

Definition std_of (scores : list value) : R :=
  match scores with
  | [] => 0%R
  | _ => match mapM ConversationRetrievalProcessor.as_float scores with
         | Some xs => deviation xs
         | None => 0%R
         end
  end.

(** The entries that [calculate_metrics_by_response_type] writes for one
    metric, in order. *)
Definition statistics_entries (metric_name : string) (scores : list value)
  : list (string * value) :=
  [("avg_" +:+ metric_name, VFloat (avg_of scores));
   ("max_" +:+ metric_name, VFloat (max_of scores));
   ("min_" +:+ metric_name, VFloat (min_of scores));
   ("std_" +:+ metric_name, VFloat (std_of scores));
   ("count_" +:+ metric_name, VInt (Z.of_nat (length scores)))].

(** ** Concrete inputs used by the examples *)

Module Examples.

(** A retrieved document with the given id. *)
Definition doc_of (pid : string) : doc :=
  {| passage_id := pid; passage_text := ""; passage_titles := []; score := 0%R |}.

(** The scenario of the specification: A, B, C at ranks 1 to 3, gold = {B}. *)
Definition retrieved_ABC : list doc := [doc_of "A"; doc_of "B"; doc_of "C"].
Definition gold_B : list evidence := [EvStr "B"].

(** A result list that names the same passage twice. *)
Definition retrieved_AA : list doc := [doc_of "A"; doc_of "A"].
Definition gold_A : list evidence := [EvStr "A"].

(** A backend that is down. *)
Definition search_down (query : string) (top_k : Z) : option (list doc) := None.

(** A backend that fails on one query and answers the others. *)
Definition search_flaky (query : string) (top_k : Z) : option (list doc) :=
  if String.eqb query "first question here" then None
  else Some [doc_of "p1"; doc_of "p2"].

(** A turn without [resolvedQuery]. *)
Definition turn_without_key : value :=
  VDict [("context", VList [VStr "hello"]); ("query", VStr "what about it")].

(** A turn with a context, a query, a resolved query and a gold label. *)
Definition turn_labelled : list (string * value) :=
  [("context", VList [VStr "hello"]);
   ("query", VStr "where is it");
   ("resolvedQuery", VStr "where is the capital of France");
   ("labels",
    VList [VDict [("responseType", VStr "directAnswer");
                  ("evidence", VList [VStr "p1"])]])].

Definition dialogue_first : value :=
  VDict [("turns", VList [VDict [("resolvedQuery", VStr "first question here")]])].

Definition dialogue_second : value :=
  VDict [("turns", VList [VDict [("resolvedQuery", VStr "second question here")]])].

Definition two_dialogues : list (string * value) :=
  [("d1", dialogue_first); ("d2", dialogue_second)].

(** A dataset with one dialogue, one turn and one gold label: one query
    to evaluate. *)
Definition one_query_dataset : value :=
  VDict [("d1", VDict [("turns", VList [VDict turn_labelled])])].

(** A processed dataset written out by hand: one dialogue, one turn, one
    label scored at k = 1. *)
Definition scored_dataset : value :=
  VDict
    [("d1",
      VDict
        [("turns",
          VList
            [VDict
               [("resolvedQuery", VStr "where is the capital of France");
                ("retrieved_evidence", VList []);
                ("labels",
                 VList
                   [VDict [("evidence", VList [VStr "p1"]);
                           ("ndcg@1", VFloat 0);
                           ("precision@1", VFloat 0);
                           ("recall@1", VFloat 0)]])]])])].

(** Labels with unusual but legal fields: a gold passage whose id is a
    number, a response type that is [null]. *)
Definition label_numeric_id : value :=
  VDict [("evidence", VList [VDict [("passage_id", VInt 7)]; VStr "B"])].

Definition typed_dataset : value :=
  VDict
    [("d1",
      VDict
        [("turns",
          VList
            [VDict
               [("labels",
                 VList
                   [VDict [("responseType", VNone); ("ndcg@1", VFloat 1)];
                    VDict [("ndcg@1", VFloat 0)]])]])])].

End Examples.

(** * Facts about the embedding *)

(** ** Dictionaries *)

Section dict_facts.
Context {V : Type}.
Implicit Types (d : list (string * V)) (key : string) (v : V).

Lemma dict_get_set_eq key v d : PyDict.get key (PyDict.set key v d) = Some v.
Proof.
  induction d as [|[k w] d IH]; simpl.
  - by rewrite String.eqb_refl.
  - destruct (String.eqb k key) eqn:E; simpl; rewrite E; auto.
Qed.

Lemma dict_get_set_ne key key' v d :
  key <> key' -> PyDict.get key' (PyDict.set key v d) = PyDict.get key' d.
Proof.
  intros Hne. induction d as [|[k w] d IH]; simpl.
  - destruct (String.eqb key key') eqn:E; auto.
    apply String.eqb_eq in E. congruence.
  - destruct (String.eqb k key) eqn:E; simpl.
    + apply String.eqb_eq in E. subst k.
      destruct (String.eqb key key') eqn:E'; auto.
      apply String.eqb_eq in E'. congruence.
    + destruct (String.eqb k key'); auto.
Qed.

Lemma dict_get_set key key' v d :
  PyDict.get key' (PyDict.set key v d) = if decide (key = key') then Some v else PyDict.get key' d.
Proof.
  destruct (decide (key = key')) as [->|Hne].
  - apply dict_get_set_eq.
  - by apply dict_get_set_ne.
Qed.

Lemma dict_get_None_keys key d : PyDict.get key d = None <-> key ∉ PyDict.keys d.
Proof.
  induction d as [|[k w] d IH]; simpl.
  - split; [|done]. intros _ H. by apply elem_of_nil in H.
  - rewrite not_elem_of_cons. destruct (String.eqb k key) eqn:E.
    + apply String.eqb_eq in E. split; [discriminate|]. intros [H _]. by subst.
    + apply String.eqb_neq in E. rewrite IH. split; [|tauto].
      intros H. split; [congruence|done].
Qed.

Lemma dict_contains_keys key d : PyDict.contains key d = true <-> key ∈ PyDict.keys d.
Proof.
  unfold PyDict.contains. destruct (PyDict.get key d) eqn:E.
  - split; [|done]. intros _. destruct (decide (key ∈ PyDict.keys d)); [done|].
    apply dict_get_None_keys in n. congruence.
  - apply dict_get_None_keys in E. split; [discriminate|done].
Qed.

Lemma dict_keys_set key v d :
  PyDict.keys (PyDict.set key v d) = if PyDict.contains key d then PyDict.keys d else PyDict.keys d ++ [key].
Proof.
  unfold PyDict.contains. induction d as [|[k w] d IH]; simpl; [done|].
  destruct (String.eqb k key) eqn:E; simpl; [done|].
  rewrite IH. by destruct (PyDict.get key d).
Qed.

Lemma dict_NoDup_keys_set key v d : NoDup (PyDict.keys d) -> NoDup (PyDict.keys (PyDict.set key v d)).
Proof.
  intros Hnd. rewrite dict_keys_set. unfold PyDict.contains.
  destruct (PyDict.get key d) eqn:E; [done|].
  apply dict_get_None_keys in E.
  apply NoDup_app. split_and!; [done| |apply NoDup_singleton].
  intros x Hx Hx'. apply list_elem_of_singleton in Hx'. by subst.
Qed.


Lemma dict_keys_set_present key v d :
  PyDict.contains key d = true -> PyDict.keys (PyDict.set key v d) = PyDict.keys d.
Proof. intros H. by rewrite dict_keys_set, H. Qed.

Lemma dict_keys_set_absent key v d :
  PyDict.contains key d = false ->
  PyDict.keys (PyDict.set key v d) = PyDict.keys d ++ [key].
Proof. intros H. by rewrite dict_keys_set, H. Qed.

End dict_facts.

(** ** Hashable values *)

#[global] Instance HStr_inj : Inj (=) (=) HStr.
Proof. by intros s t [= ->]. Qed.

(** ** Dictionaries with hashable keys *)

Section map_facts.
Context {V : Type}.
Implicit Types (d : list (hashable * V)) (key : hashable) (v : V).

Lemma map_get_set_eq key v d : PyMap.get key (PyMap.set key v d) = Some v.
Proof.
  induction d as [|[k w] d IH]; simpl.
  - by rewrite decide_True.
  - destruct (decide (k = key)) as [->|Hne]; simpl.
    + by rewrite decide_True.
    + by rewrite decide_False.
Qed.

Lemma map_get_set_ne key key' v d :
  key <> key' -> PyMap.get key' (PyMap.set key v d) = PyMap.get key' d.
Proof.
  intros Hne. induction d as [|[k w] d IH]; simpl.
  - by rewrite decide_False.
  - destruct (decide (k = key)) as [->|Hk]; simpl.
    + by rewrite !decide_False.
    + destruct (decide (k = key')); [done|apply IH].
Qed.

Lemma map_get_set key key' v d :
  PyMap.get key' (PyMap.set key v d)
  = if decide (key = key') then Some v else PyMap.get key' d.
Proof.
  destruct (decide (key = key')) as [->|Hne].
  - apply map_get_set_eq.
  - by apply map_get_set_ne.
Qed.

Lemma map_get_None_keys key d : PyMap.get key d = None <-> key ∉ PyMap.keys d.
Proof.
  induction d as [|[k w] d IH]; simpl.
  - split; [intros _; apply not_elem_of_nil|done].
  - rewrite not_elem_of_cons. destruct (decide (k = key)) as [->|Hne].
    + split; [done|]. by intros [? _].
    + rewrite IH. split; [by intros ?; split|by intros [_ ?]].
Qed.

Lemma map_keys_set key v d :
  PyMap.keys (PyMap.set key v d)
  = if PyMap.contains key d then PyMap.keys d else PyMap.keys d ++ [key].
Proof.
  unfold PyMap.contains. induction d as [|[k w] d IH]; simpl; [done|].
  destruct (decide (k = key)); simpl; [done|].
  rewrite IH. by destruct (PyMap.get key d).
Qed.

Lemma map_NoDup_keys_set key v d :
  NoDup (PyMap.keys d) -> NoDup (PyMap.keys (PyMap.set key v d)).
Proof.
  intros Hnd. rewrite map_keys_set. unfold PyMap.contains.
  destruct (PyMap.get key d) eqn:E; [done|].
  apply map_get_None_keys in E.
  apply NoDup_app. split_and!; [done| |apply NoDup_singleton].
  intros x Hx Hx'. apply list_elem_of_singleton in Hx'. by subst.
Qed.

Lemma map_elem_of_get key v d :
  NoDup (PyMap.keys d) -> (key, v) ∈ d -> PyMap.get key d = Some v.
Proof.
  induction d as [|[k w] d IH]; intros Hnd Hin; [by apply elem_of_nil in Hin|].
  simpl in Hnd. apply NoDup_cons in Hnd as [Hk Hnd]. simpl.
  apply elem_of_cons in Hin as [[= <- <-]|Hin].
  - by rewrite decide_True.
  - destruct (decide (k = key)) as [->|Hne]; [|by apply IH].
    destruct Hk. apply list_elem_of_fmap. by exists (key, v).
Qed.

End map_facts.

(** ** The metric engine *)

Section evaluator_facts.
Import RetrievalEvaluator.
Local Open Scope R_scope.

Implicit Types (gold_ids : listset hashable) (docs : list doc) (k : Z).

Lemma fold_left_Rplus {A : Type} (h : A -> R) (l : list A) (a : R) :
  fold_left (fun acc x => acc + h x) l a = a + Spec.big_sum (map h l).
Proof.
  revert a. induction l as [|x l IH]; intros a; simpl; [lra|].
  rewrite IH. lra.
Qed.

Lemma count_relevant_filter gold_ids docs :
  count_relevant gold_ids docs
  = length (filter (fun d => HStr (passage_id d) ∈ gold_ids) docs).
Proof.
  unfold count_relevant.
  assert (H : forall n,
    fold_left (fun c d => if bool_decide (HStr (passage_id d) ∈ gold_ids)
                          then S c else c) docs n
    = (n + length (filter (fun d => HStr (passage_id d) ∈ gold_ids) docs))%nat).
  { induction docs as [|d docs IH]; intros n; simpl; [lia|].
    rewrite IH, filter_cons. case_bool_decide; case_decide; simpl; try lia; done. }
  apply H.
Qed.

Lemma count_relevant_le_length gold_ids docs :
  (count_relevant gold_ids docs <= length docs)%nat.
Proof. rewrite count_relevant_filter. apply length_filter. Qed.

Lemma count_relevant_le_size gold_ids docs :
  NoDup (map passage_id docs) ->
  (count_relevant gold_ids docs <= size gold_ids)%nat.
Proof.
  intros Hnd. rewrite count_relevant_filter.
  set (hits := filter (fun d => HStr (passage_id d) ∈ gold_ids) docs).
  assert (Hnd' : NoDup (map (fun d => HStr (passage_id d)) hits)).
  { rewrite <- (map_map passage_id HStr).
    apply (NoDup_fmap_2 HStr).
    eapply sublist_NoDup; [exact Hnd|].
    apply (fmap_sublist passage_id), sublist_filter. }
  rewrite <- (length_map (fun d => HStr (passage_id d))),
    <- (size_list_to_set (C := listset hashable)) by done.
  apply subseteq_size. intros x Hx.
  apply elem_of_list_to_set, list_elem_of_fmap in Hx as (d & -> & Hd).
  by apply list_elem_of_filter in Hd as [Hd _].
Qed.

Lemma slice_to_sublist {A : Type} (l : list A) k : slice_to l k `sublist_of` l.
Proof. unfold slice_to. destruct (0 <=? k)%Z; apply sublist_take. Qed.

Lemma length_slice_to {A : Type} (l : list A) k :
  (0 <= k)%Z -> (length (slice_to l k) <= Z.to_nat k)%nat.
Proof.
  intros Hk. unfold slice_to. rewrite (proj2 (Z.leb_le 0 k) Hk).
  rewrite length_take. lia.
Qed.

Lemma slice_to_nonneg {A : Type} (l : list A) k :
  (0 <= k)%Z -> slice_to l k = take (Z.to_nat k) l.
Proof. intros Hk. unfold slice_to. by rewrite (proj2 (Z.leb_le 0 k) Hk). Qed.

(** *** The discount [1 / log2 (i + 2)] *)

Lemma ln2_pos : 0 < ln 2.
Proof. rewrite <- ln_1. apply ln_increasing; lra. Qed.

Lemma log2_2 : log2 2 = 1.
Proof. unfold log2. pose proof ln2_pos. field. lra. Qed.

Lemma log2_le x y : 0 < x -> x <= y -> log2 x <= log2 y.
Proof.
  intros Hx Hxy. unfold log2. pose proof ln2_pos as H2.
  apply Rmult_le_compat_r; [left; by apply Rinv_0_lt_compat|].
  destruct Hxy as [Hlt| ->]; [left; by apply ln_increasing|right; done].
Qed.

Lemma INR_plus_2 (i : nat) : 2 <= INR (i + 2).
Proof. rewrite plus_INR. simpl. pose proof (pos_INR i). lra. Qed.

Lemma log2_rank_ge_1 (i : nat) : 1 <= log2 (INR (i + 2)).
Proof.
  rewrite <- log2_2. apply log2_le; [lra|apply INR_plus_2].
Qed.

Lemma discount_pos i : 0 < discount i.
Proof.
  unfold discount. pose proof (log2_rank_ge_1 i).
  apply Rdiv_lt_0_compat; lra.
Qed.

Lemma discount_antitone i j : (i <= j)%nat -> discount j <= discount i.
Proof.
  intros Hij. unfold discount.
  pose proof (log2_rank_ge_1 i). pose proof (log2_rank_ge_1 j).
  assert (log2 (INR (i + 2)) <= log2 (INR (j + 2))).
  { apply log2_le; [pose proof (INR_plus_2 i); lra|].
    apply le_INR. lia. }
  unfold Rdiv. rewrite !Rmult_1_l. apply Rinv_le_contravar; lra.
Qed.

Lemma big_sum_discount_nonneg off n :
  0 <= Spec.big_sum (map discount (seq off n)).
Proof.
  revert off. induction n as [|n IH]; intros off; simpl; [lra|].
  pose proof (discount_pos off). specialize (IH (S off)). lra.
Qed.

Lemma big_sum_discount_shift off n :
  Spec.big_sum (map discount (seq (S off) n))
  <= Spec.big_sum (map discount (seq off n)).
Proof.
  revert off. induction n as [|n IH]; intros off; simpl; [lra|].
  pose proof (discount_antitone off (S off) ltac:(lia)).
  specialize (IH (S off)). simpl in IH. lra.
Qed.

Lemma big_sum_discount_mono off n m :
  (n <= m)%nat ->
  Spec.big_sum (map discount (seq off n))
  <= Spec.big_sum (map discount (seq off m)).
Proof.
  intros Hnm. replace m with (n + (m - n))%nat by lia.
  rewrite seq_app, map_app.
  assert (Happ : forall l1 l2,
    Spec.big_sum (l1 ++ l2) = Spec.big_sum l1 + Spec.big_sum l2).
  { induction l1 as [|x l1 IH]; intros l2; simpl; [lra|]. rewrite IH. lra. }
  rewrite Happ. pose proof (big_sum_discount_nonneg (off + n) (m - n)). lra.
Qed.

Lemma dcg_loop_sum gold_ids docs :
  fold_left
    (fun (dcg : R) '(i, d) =>
       let relevance :=
         if bool_decide (HStr (passage_id d) ∈ gold_ids) then 1 else 0 in
       dcg + relevance / log2 (INR (i + 2)))
    (enumerate docs) 0
  = Spec.big_sum (map (gain gold_ids) (enumerate docs)).
Proof.
  assert (H : forall l a,
    fold_left
      (fun (dcg : R) '(i, d) =>
         let relevance :=
           if bool_decide (HStr (passage_id d) ∈ gold_ids) then 1 else 0 in
         dcg + relevance / log2 (INR (i + 2))) l a
    = a + Spec.big_sum (map (gain gold_ids) l)).
  { induction l as [|[i d] l IH]; intros a; simpl; [lra|].
    rewrite IH. unfold gain. simpl. lra. }
  rewrite H. lra.
Qed.

Lemma idcg_loop_sum n :
  fold_left (fun (idcg : R) (i : nat) => idcg + 1 / log2 (INR (i + 2)))
    (range n) 0
  = Spec.big_sum (map discount (seq 0 (Z.to_nat n))).
Proof.
  unfold range. rewrite (fold_left_Rplus discount). lra.
Qed.

(** The discounted gain of a ranked list is at most the sum of the first
    discounts, one for each relevant document. *)
Lemma gain_le_discounts gold_ids docs off :
  Spec.big_sum (map (gain gold_ids) (combine (seq off (length docs)) docs))
  <= Spec.big_sum (map discount (seq off (count_relevant gold_ids docs))).
Proof.
  rewrite count_relevant_filter.
  revert off. induction docs as [|d docs IH]; intros off; simpl; [lra|].
  specialize (IH (S off)). rewrite filter_cons. unfold gain at 1. simpl.
  case_bool_decide; case_decide; try done; simpl.
  - fold (discount off). lra.
  - pose proof (big_sum_discount_shift off
      (length (filter (fun d => HStr (passage_id d) ∈ gold_ids) docs))).
    lra.
Qed.

Lemma gain_nonneg gold_ids (l : list (nat * doc)) :
  0 <= Spec.big_sum (map (gain gold_ids) l).
Proof.
  induction l as [|[i d] l IH]; simpl; [lra|].
  unfold gain at 1. simpl. pose proof (log2_rank_ge_1 i).
  case_bool_decide.
  - assert (0 < 1 / log2 (INR (i + 2))) by (apply Rdiv_lt_0_compat; lra). lra.
  - unfold Rdiv. rewrite Rmult_0_l. lra.
Qed.


Lemma div_in_unit_interval (a b : R) : 0 <= a <= b -> 0 < b -> 0 <= a / b <= 1.
Proof.
  intros [Ha Hab] Hb. unfold Rdiv.
  pose proof (Rinv_0_lt_compat b Hb) as Hinv.
  assert (Hone : b * / b = 1) by (field; lra).
  split; nra.
Qed.

Lemma precision_in_unit_interval retrieved gold (k : option Z) :
  0 <= calculate_precision_at_k retrieved gold k <= 1.
Proof.
  unfold calculate_precision_at_k.
  set (k' := effective_k retrieved k).
  set (c := count_relevant _ _).
  destruct (0 <? k')%Z eqn:Hk; [|lra].
  apply Z.ltb_lt in Hk.
  assert (Hc : (c <= Z.to_nat k')%nat).
  { unfold c. etrans; [apply count_relevant_le_length|].
    apply length_slice_to. lia. }
  assert (Hk' : 0 < IZR k') by (by apply IZR_lt).
  assert (Hc' : INR c <= IZR k').
  { rewrite <- (Z2Nat.id k') at 1 by lia. rewrite <- INR_IZR_INZ.
    by apply le_INR. }
  pose proof (pos_INR c). apply div_in_unit_interval; lra.
Qed.

Lemma recall_in_unit_interval retrieved gold (k : option Z) :
  NoDup (map passage_id retrieved) ->
  0 <= calculate_recall_at_k retrieved gold k <= 1.
Proof.
  intros Hnd. unfold calculate_recall_at_k.
  set (k' := effective_k retrieved k).
  set (gold_ids := _get_gold_ids gold).
  destruct (Nat.eqb (size gold_ids) 0) eqn:Hsz; [lra|].
  apply Nat.eqb_neq in Hsz.
  set (c := count_relevant _ _).
  assert (Hc : (c <= size gold_ids)%nat).
  { apply count_relevant_le_size. eapply sublist_NoDup; [exact Hnd|].
    apply (fmap_sublist passage_id), slice_to_sublist. }
  assert (0 < INR (size gold_ids)) by (apply lt_0_INR; lia).
  pose proof (pos_INR c). apply le_INR in Hc.
  apply div_in_unit_interval; lra.
Qed.

Lemma ndcg_in_unit_interval retrieved gold (k : option Z) :
  NoDup (map passage_id retrieved) ->
  0 <= calculate_ndcg retrieved gold k <= 1.
Proof.
  intros Hnd. unfold calculate_ndcg.
  set (k' := effective_k retrieved k).
  set (gold_ids := _get_gold_ids gold).
  rewrite dcg_loop_sum, idcg_loop_sum.
  set (m := Z.to_nat (Z.min (Z.of_nat (size gold_ids)) k')).
  destruct (Req_dec_T _ 0) as [|Hne]; [lra|].
  pose proof (big_sum_discount_nonneg 0 m) as Hidcg.
  pose proof (gain_nonneg gold_ids (enumerate (slice_to retrieved k'))) as Hdcg.
  assert (Hk : (0 <= k')%Z).
  { destruct (decide (0 <= k')%Z) as [|Hneg]; [done|]. exfalso. apply Hne.
    unfold m. replace (Z.to_nat _) with 0%nat by lia. done. }
  assert (Hle :
    Spec.big_sum (map (gain gold_ids) (enumerate (slice_to retrieved k')))
    <= Spec.big_sum (map discount (seq 0 m))).
  { etrans; [apply gain_le_discounts|]. apply big_sum_discount_mono.
    assert (count_relevant gold_ids (slice_to retrieved k') <= size gold_ids)%nat.
    { apply count_relevant_le_size. eapply sublist_NoDup; [exact Hnd|].
      apply (fmap_sublist passage_id), slice_to_sublist. }
    pose proof (count_relevant_le_length gold_ids (slice_to retrieved k')).
    pose proof (length_slice_to retrieved k' Hk). unfold m. lia. }
  apply div_in_unit_interval; lra.
Qed.

End evaluator_facts.

(** *** The claims about the single metrics *)

Section evaluator_claims.
Import RetrievalEvaluator.
Local Open Scope R_scope.

Lemma log2_ge_1 (x : R) : 2 <= x -> 1 <= log2 x.
Proof. intros Hx. rewrite <- log2_2. apply log2_le; lra. Qed.

Lemma big_sum_app (l1 l2 : list R) :
  Spec.big_sum (l1 ++ l2) = Spec.big_sum l1 + Spec.big_sum l2.
Proof. induction l1 as [|x l1 IH]; simpl; [lra|]. rewrite IH. lra. Qed.

Lemma combine_app_same_length {A B : Type} (l1 l2 : list A) (l1' l2' : list B) :
  length l1 = length l1' ->
  combine (l1 ++ l2) (l1' ++ l2') = combine l1 l1' ++ combine l2 l2'.
Proof.
  revert l1'. induction l1 as [|a l1 IH]; intros [|b l1'] Hlen;
    simpl in *; try done.
  f_equal. apply IH. lia.
Qed.

Lemma enumerate_snoc {A : Type} (l : list A) (x : A) :
  enumerate (l ++ [x]) = enumerate l ++ [(length l, x)].
Proof.
  unfold enumerate. rewrite length_app. simpl.
  rewrite seq_app. simpl.
  by rewrite combine_app_same_length by (by rewrite length_seq).
Qed.

(** The gain summed over the first [n] retrieved documents is the DCG of
    the specification. *)
Lemma gain_take_dcg gold_ids retrieved (n : nat) :
  Spec.big_sum (map (gain gold_ids) (enumerate (take n retrieved)))
  = Spec.big_sum
      (map (fun i => Spec.relevance retrieved gold_ids i / log2 (INR (i + 2)))
         (seq 0 n)).
Proof.
  induction n as [|n IH]; [done|].
  rewrite seq_S, map_app, big_sum_app, <- IH. simpl.
  unfold Spec.relevance. destruct (retrieved !! n) as [d|] eqn:Hn.
  - rewrite (take_S_r _ _ _ Hn), enumerate_snoc, map_app, big_sum_app.
    simpl. unfold gain at 2. simpl.
    rewrite length_take_le; [done|].
    apply lookup_lt_Some in Hn. lia.
  - apply lookup_ge_None in Hn.
    rewrite !take_ge by lia. unfold Rdiv. lra.
Qed.

Lemma calculate_ndcg_formula retrieved gold (k : option Z) :
  calculate_ndcg retrieved gold k
  = Spec.ndcg retrieved (_get_gold_ids gold) (effective_k retrieved k).
Proof.
  unfold calculate_ndcg, Spec.ndcg, Spec.idcg, Spec.dcg.
  set (k' := effective_k retrieved k).
  set (gold_ids := _get_gold_ids gold).
  rewrite dcg_loop_sum, idcg_loop_sum. fold discount.
  change (fun i : nat => 1 / log2 (INR (i + 2))) with discount.
  destruct (Req_dec_T _ 0) as [|Hne]; [done|].
  assert (Hk : (0 <= k')%Z).
  { destruct (decide (0 <= k')%Z) as [|Hneg]; [done|]. exfalso. apply Hne.
    replace (Z.to_nat _) with 0%nat by lia. done. }
  by rewrite slice_to_nonneg, gain_take_dcg.
Qed.

Lemma ndcg_scenario :
  calculate_ndcg Examples.retrieved_ABC Examples.gold_B (Some 3%Z)
  = 1 / log2 3.
Proof.
  rewrite calculate_ndcg_formula.
  unfold Spec.ndcg, Spec.idcg, Spec.dcg, effective_k.
  assert (Hsize : size (_get_gold_ids Examples.gold_B) = 1%nat) by reflexivity.
  rewrite Hsize.
  change (Z.to_nat (Z.min (Z.of_nat 1) 3)) with 1%nat.
  change (Z.to_nat 3) with 3%nat.
  assert (HA : Spec.relevance Examples.retrieved_ABC
                 (_get_gold_ids Examples.gold_B) 0 = 0) by reflexivity.
  assert (HB : Spec.relevance Examples.retrieved_ABC
                 (_get_gold_ids Examples.gold_B) 1 = 1) by reflexivity.
  assert (HC : Spec.relevance Examples.retrieved_ABC
                 (_get_gold_ids Examples.gold_B) 2 = 0) by reflexivity.
  simpl seq. simpl map. rewrite HA, HB, HC. simpl Spec.big_sum.
  replace (1 + 1 + 1 + 1) with 4 by lra.
  replace (1 + 1 + 1) with 3 by lra.
  replace (1 + 1) with 2 by lra.
  rewrite log2_2.
  destruct (Req_dec_T _ 0) as [H0|_]; [lra|].
  assert (1 <= log2 3) by (apply log2_ge_1; lra).
  assert (1 <= log2 4) by (apply log2_ge_1; lra).
  field. lra.
Qed.

(** C1: [calculate_ndcg] computes nDCG@k with binary relevance: it returns
    DCG / IDCG, or 0.0 when IDCG = 0, where DCG is the sum over the first k
    retrieved documents of relevance(i) / log2(i+2) with 0-indexed rank i and
    IDCG is the sum of 1 / log2(i+2) for i from 0 to min(|gold set|, k) - 1;
    for A, B, C at ranks 1 to 3, gold set {B} and k = 3 the result is
    1 / log2(3). *)
Theorem calculate_ndcg_is_ndcg_at_k :
  (forall retrieved gold (k : option Z),
     calculate_ndcg retrieved gold k
     = Spec.ndcg retrieved (_get_gold_ids gold) (effective_k retrieved k))
  /\ calculate_ndcg Examples.retrieved_ABC Examples.gold_B (Some 3%Z)
     = 1 / log2 3.
Proof. split; [apply calculate_ndcg_formula|apply ndcg_scenario]. Qed.

Lemma slice_to_nil {A : Type} (k : Z) : slice_to (@nil A) k = [].
Proof. unfold slice_to. destruct (0 <=? k)%Z; apply take_nil. Qed.

(** No division of the metric functions has a zero divisor: with the
    errors of the division modelled, every call returns, and returns the
    value of [RetrievalEvaluator]. *)
Lemma truediv_nonzero (x y : R) : y <> 0 -> ZeroDivision.truediv x y = Some (x / y).
Proof. intros Hy. unfold ZeroDivision.truediv. by destruct (Req_dec_T y 0). Qed.

Lemma precision_returns retrieved gold (k : option Z) :
  ZeroDivision.calculate_precision_at_k retrieved gold k
  = Some (calculate_precision_at_k retrieved gold k).
Proof.
  unfold ZeroDivision.calculate_precision_at_k, calculate_precision_at_k.
  destruct (0 <? effective_k retrieved k)%Z eqn:Hk; [|done].
  apply Z.ltb_lt in Hk. apply truediv_nonzero, not_0_IZR. lia.
Qed.

Lemma recall_returns retrieved gold (k : option Z) :
  ZeroDivision.calculate_recall_at_k retrieved gold k
  = Some (calculate_recall_at_k retrieved gold k).
Proof.
  unfold ZeroDivision.calculate_recall_at_k, calculate_recall_at_k.
  destruct (Nat.eqb (size (_get_gold_ids gold)) 0) eqn:Hsz; [done|].
  apply Nat.eqb_neq in Hsz. by apply truediv_nonzero, not_0_INR.
Qed.

Lemma dcg_loop_returns (gold_ids : listset hashable) (l : list (nat * doc)) (a : R) :
  fold_left
    (fun (dcg : option R) '(i, d) =>
       dcg ← dcg;
       let relevance :=
         if bool_decide (HStr (passage_id d) ∈ gold_ids) then 1 else 0 in
       gain ← ZeroDivision.truediv relevance (log2 (INR (i + 2)));
       Some (dcg + gain))
    l (Some a)
  = Some (fold_left
            (fun (dcg : R) '(i, d) =>
               let relevance :=
                 if bool_decide (HStr (passage_id d) ∈ gold_ids) then 1 else 0 in
               dcg + relevance / log2 (INR (i + 2)))
            l a).
Proof.
  revert a. induction l as [|[i d] l IH]; intros a; [done|].
  cbn [fold_left]. cbn [mbind option_bind]. cbv zeta.
  rewrite truediv_nonzero by (pose proof (log2_rank_ge_1 i); lra).
  cbn [mbind option_bind]. apply IH.
Qed.

Lemma idcg_loop_returns (l : list nat) (a : R) :
  fold_left
    (fun (idcg : option R) (i : nat) =>
       idcg ← idcg;
       gain ← ZeroDivision.truediv 1 (log2 (INR (i + 2)));
       Some (idcg + gain))
    l (Some a)
  = Some (fold_left
            (fun (idcg : R) (i : nat) => idcg + 1 / log2 (INR (i + 2))) l a).
Proof.
  revert a. induction l as [|i l IH]; intros a; [done|].
  cbn [fold_left]. cbn [mbind option_bind].
  rewrite truediv_nonzero by (pose proof (log2_rank_ge_1 i); lra).
  cbn [mbind option_bind]. apply IH.
Qed.

Lemma ndcg_returns retrieved gold (k : option Z) :
  ZeroDivision.calculate_ndcg retrieved gold k
  = Some (calculate_ndcg retrieved gold k).
Proof.
  unfold ZeroDivision.calculate_ndcg, calculate_ndcg. cbv zeta.
  rewrite dcg_loop_returns, idcg_loop_returns. cbn [mbind option_bind].
  destruct (Req_dec_T _ 0) as [|Hne]; [done|]. by apply truediv_nonzero.
Qed.

(** C6: the metric functions never raise and resolve zero denominators
    to 0.0.  With the [ZeroDivisionError] of every division modelled, the
    three functions return for every input; when the gold-evidence set is
    empty, recall@k and nDCG@k return 0.0 for every retrieved list and
    every k; precision@k returns 0.0 when the effective k is 0; and when
    nothing is retrieved all three metrics return 0.0 for every gold list
    and every k. *)
Theorem metrics_zero_on_empty_inputs retrieved gold (k : option Z) :
  (is_Some (ZeroDivision.calculate_precision_at_k retrieved gold k)
   /\ is_Some (ZeroDivision.calculate_recall_at_k retrieved gold k)
   /\ is_Some (ZeroDivision.calculate_ndcg retrieved gold k))
  /\ (_get_gold_ids gold = ∅ ->
      ZeroDivision.calculate_recall_at_k retrieved gold k = Some 0
      /\ ZeroDivision.calculate_ndcg retrieved gold k = Some 0)
  /\ (effective_k retrieved k = 0%Z ->
      ZeroDivision.calculate_precision_at_k retrieved gold k = Some 0)
  /\ (retrieved = [] ->
      ZeroDivision.calculate_precision_at_k retrieved gold k = Some 0
      /\ ZeroDivision.calculate_recall_at_k retrieved gold k = Some 0
      /\ ZeroDivision.calculate_ndcg retrieved gold k = Some 0).
Proof.
  rewrite precision_returns, recall_returns, ndcg_returns.
  split; [by repeat split|]. split; [|split].
  - intros Hgold. split; f_equal.
    + unfold calculate_recall_at_k. by rewrite Hgold, size_empty.
    + unfold calculate_ndcg. rewrite Hgold, size_empty, idcg_loop_sum.
      replace (Z.to_nat _) with 0%nat by lia. simpl.
      by destruct (Req_dec_T 0 0).
  - intros Hk. f_equal. unfold calculate_precision_at_k. by rewrite Hk.
  - intros ->. split; [|split]; f_equal.
    + unfold calculate_precision_at_k. rewrite slice_to_nil. simpl.
      destruct (0 <? _)%Z; [|done]. unfold Rdiv. apply Rmult_0_l.
    + unfold calculate_recall_at_k. rewrite slice_to_nil. simpl.
      destruct (Nat.eqb _ 0); [done|]. unfold Rdiv. apply Rmult_0_l.
    + unfold calculate_ndcg. rewrite slice_to_nil. simpl.
      destruct (Req_dec_T _ 0); [done|]. unfold Rdiv. apply Rmult_0_l.
Qed.

Lemma metrics_zero_on_empty_inputs_witness :
  ZeroDivision.calculate_recall_at_k
    Examples.retrieved_ABC [EvDict None; EvOther] (Some 3%Z) = Some 0
  /\ ZeroDivision.calculate_ndcg
       Examples.retrieved_ABC [EvDict None; EvOther] (Some 3%Z) = Some 0
  /\ ZeroDivision.calculate_precision_at_k [] Examples.gold_B None = Some 0
  /\ ZeroDivision.calculate_precision_at_k [] [EvStr "X"] (Some 5%Z) = Some 0
  /\ ZeroDivision.calculate_recall_at_k [] [EvStr "X"] (Some 5%Z) = Some 0
  /\ ZeroDivision.calculate_ndcg [] [EvStr "X"] (Some 5%Z) = Some 0.
Proof.
  destruct (metrics_zero_on_empty_inputs
              Examples.retrieved_ABC [EvDict None; EvOther] (Some 3%Z))
    as (_ & Hgold & _ & _).
  destruct (metrics_zero_on_empty_inputs [] Examples.gold_B None)
    as (_ & _ & Hk & _).
  destruct (metrics_zero_on_empty_inputs [] [EvStr "X"] (Some 5%Z))
    as (_ & _ & _ & Hnil).
  split; [apply Hgold; reflexivity|].
  split; [apply Hgold; reflexivity|].
  split; [apply Hk; reflexivity|].
  apply Hnil. reflexivity.
Defined.

Lemma recall_of_duplicates :
  calculate_recall_at_k Examples.retrieved_AA Examples.gold_A (Some 2%Z) = 2.
Proof.
  unfold calculate_recall_at_k, effective_k.
  assert (Hsize : size (_get_gold_ids Examples.gold_A) = 1%nat) by reflexivity.
  assert (Hcount : count_relevant (_get_gold_ids Examples.gold_A)
                     (slice_to Examples.retrieved_AA 2) = 2%nat) by reflexivity.
  rewrite Hsize, Hcount. simpl. lra.
Qed.

(** The evaluator does not deduplicate the retrieved list: a result list
    that names the gold passage twice, which the data model excludes, has
    recall@2 = 2.0. *)
Lemma recall_above_one_on_duplicates :
  ~ (0 <= calculate_recall_at_k
            Examples.retrieved_AA Examples.gold_A (Some 2%Z) <= 1).
Proof. rewrite recall_of_duplicates. lra. Qed.

(** C2: for every ranked list of retrieved documents, every gold-evidence
    list and every cutoff k, precision@k, recall@k and nDCG@k lie in the
    closed interval [0, 1].  A ranked list is one of the data model: the
    passage ids of a result list are pairwise distinct; precision@k is in
    the interval without this. *)
Theorem metrics_in_unit_interval retrieved gold (k : option Z) :
  0 <= calculate_precision_at_k retrieved gold k <= 1
  /\ (NoDup (map passage_id retrieved) ->
      0 <= calculate_recall_at_k retrieved gold k <= 1
      /\ 0 <= calculate_ndcg retrieved gold k <= 1).
Proof.
  split; [apply precision_in_unit_interval|].
  intros Hnd. split.
  - by apply recall_in_unit_interval.
  - by apply ndcg_in_unit_interval.
Qed.

Lemma metrics_in_unit_interval_witness :
  0 <= calculate_precision_at_k
         Examples.retrieved_ABC Examples.gold_B (Some 3%Z) <= 1
  /\ 0 <= calculate_recall_at_k
            Examples.retrieved_ABC Examples.gold_B (Some 3%Z) <= 1
  /\ 0 <= calculate_ndcg
            Examples.retrieved_ABC Examples.gold_B (Some 3%Z) <= 1.
Proof.
  destruct (metrics_in_unit_interval
              Examples.retrieved_ABC Examples.gold_B (Some 3%Z))
    as [Hprecision Hrest].
  split; [exact Hprecision|]. apply Hrest.
  apply (bool_decide_unpack _). vm_compute. exact I.
Defined.

End evaluator_claims.

(** *** The batch entry point *)

Section all_metrics.
Import RetrievalEvaluator.

Lemma metric_key_inj metric : Inj (=) (=) (metric_key metric).
Proof.
  intros k1 k2 H. unfold metric_key in H.
  apply (inj (String.app metric)) in H.
  apply (inj (String.app "@")) in H.
  by apply (inj pretty) in H.
Qed.

Lemma store_metric_cons metric f k k_values results :
  store_metric metric f (k :: k_values) results
  = store_metric metric f k_values
      (PyDict.set (metric_key metric k) (f k) results).
Proof. done. Qed.

Lemma store_metric_NoDup metric f k_values results :
  NoDup (PyDict.keys results) ->
  NoDup (PyDict.keys (store_metric metric f k_values results)).
Proof.
  revert results. induction k_values as [|k ks IH]; intros results Hnd; [done|].
  rewrite store_metric_cons. by apply IH, dict_NoDup_keys_set.
Qed.

(** What a loop of [calculate_all_metrics] leaves under a key: the value
    of the metric for the [k] of the key, or what was there before. *)
Lemma store_metric_get metric f k_values results key v :
  PyDict.get key (store_metric metric f k_values results) = Some v
  <-> (exists k, k ∈ k_values /\ key = metric_key metric k /\ v = f k)
      \/ ((forall k, k ∈ k_values -> key <> metric_key metric k)
          /\ PyDict.get key results = Some v).
Proof.
  revert results. induction k_values as [|k ks IH]; intros results.
  - simpl. split.
    + intros H. right. split; [|done]. intros k Hk. by apply elem_of_nil in Hk.
    + intros [(k & Hk & _)|[_ H]]; [by apply elem_of_nil in Hk|done].
  - rewrite store_metric_cons, IH, dict_get_set. split.
    + intros [(k' & Hk' & -> & ->)|[Hno Hget]].
      * left. exists k'. split; [by right|done].
      * case_decide as Hkey.
        -- injection Hget as <-. left. exists k. split; [by left|done].
        -- right. split; [|done]. intros k' [->|Hk']%elem_of_cons; [done|].
           by apply Hno.
    + intros [(k' & Hk' & -> & ->)|[Hno Hget]].
      * destruct (decide (k' ∈ ks)) as [Hin|Hnin].
        -- left. by exists k'.
        -- apply elem_of_cons in Hk' as [->|?]; [|done].
           right. split.
           ++ intros k' Hk' Heq. apply metric_key_inj in Heq. by subst.
           ++ by rewrite decide_True.
      * right. split.
        -- intros k' Hk'. apply Hno. by right.
        -- rewrite decide_False; [done|].
           intros Heq. apply (Hno k); [by left|done].
Qed.

Lemma metric_key_ndcg_precision k k' :
  metric_key "ndcg" k <> metric_key "precision" k'.
Proof. unfold metric_key. simpl. discriminate. Qed.

Lemma metric_key_ndcg_recall k k' :
  metric_key "ndcg" k <> metric_key "recall" k'.
Proof. unfold metric_key. simpl. discriminate. Qed.

Lemma metric_key_precision_recall k k' :
  metric_key "precision" k <> metric_key "recall" k'.
Proof. unfold metric_key. simpl. discriminate. Qed.

Example metric_key_ndcg_3 : metric_key "ndcg" 3 = "ndcg@3".
Proof. reflexivity. Qed.

(** C3: [calculate_all_metrics] returns exactly the mapping with the keys
    "{metric}@{k}" for every metric in ndcg, precision, recall and every k
    in [k_values], and each entry is the value of the corresponding
    single-metric function for the same retrieved list, gold list and k. *)
Theorem calculate_all_metrics_cross_product
  (retrieved : list doc) (gold : list evidence) (k_values : list Z) :
  let results := calculate_all_metrics retrieved gold k_values in
  NoDup (PyDict.keys results)
  /\ forall key v,
       PyDict.get key results = Some v
       <-> exists k, k ∈ k_values
           /\ ((key = metric_key "ndcg" k
                /\ v = calculate_ndcg retrieved gold (Some k))
               \/ (key = metric_key "precision" k
                   /\ v = calculate_precision_at_k retrieved gold (Some k))
               \/ (key = metric_key "recall" k
                   /\ v = calculate_recall_at_k retrieved gold (Some k))).
Proof.
  intros results. split.
  - unfold results, calculate_all_metrics.
    do 3 apply store_metric_NoDup. apply NoDup_nil_2.
  - intros key v. unfold results, calculate_all_metrics.
    rewrite !store_metric_get. simpl. split.
    + intros [(k & Hk & -> & ->)|[_ [(k & Hk & -> & ->)|[_ [(k & Hk & -> & ->)|[_ ?]]]]]];
        [exists k; auto ..|done].
    + intros (k & Hk & [[-> ->]|[[-> ->]|[-> ->]]]).
      * right. split; [intros k' _ H; by apply metric_key_ndcg_recall in H|].
        right. split; [intros k' _ H; by apply metric_key_ndcg_precision in H|].
        left. by exists k.
      * right. split; [intros k' _; apply metric_key_precision_recall|].
        left. by exists k.
      * left. by exists k.
Qed.

End all_metrics.

(** ** Python strings *)

Section strings.
Import PyStr.

Implicit Types (p : ascii -> bool) (s w : list ascii) (c : ascii).

Lemma lstrip_by_no_lead p s : no_lead p (lstrip_by p s).
Proof.
  induction s as [|c s IH]; simpl; [done|].
  destruct (p c) eqn:E; [done|]. simpl. done.
Qed.

Lemma lstrip_by_id p s : no_lead p s -> lstrip_by p s = s.
Proof. destruct s as [|c s]; simpl; [done|]. by intros ->. Qed.

Lemma lstrip_by_app_keep p s c s' :
  p c = false -> lstrip_by p (s ++ c :: s') = lstrip_by p s ++ c :: s'.
Proof.
  intros Hc. induction s as [|a s IH]; simpl.
  - by rewrite Hc.
  - destruct (p a); [done|]. done.
Qed.

Lemma rstrip_by_no_lead p s : no_lead p s -> no_lead p (rstrip_by p s).
Proof.
  destruct s as [|c s]; simpl; [done|]. intros Hc.
  unfold rstrip_by. simpl. rewrite lstrip_by_app_keep by done.
  rewrite rev_app_distr. simpl. done.
Qed.

Lemma strip_by_no_lead p s : no_lead p (strip_by p s).
Proof. apply rstrip_by_no_lead, lstrip_by_no_lead. Qed.

Lemma strip_by_no_trail p s : no_lead p (rev (strip_by p s)).
Proof.
  unfold strip_by, rstrip_by. rewrite rev_involutive.
  apply lstrip_by_no_lead.
Qed.

Lemma strip_by_id p s : no_lead p s -> no_lead p (rev s) -> strip_by p s = s.
Proof.
  intros H1 H2. unfold strip_by, rstrip_by.
  rewrite (lstrip_by_id p s H1), (lstrip_by_id p (rev s) H2).
  apply rev_involutive.
Qed.

Lemma strip_by_idemp p s : strip_by p (strip_by p s) = strip_by p s.
Proof.
  apply strip_by_id; [apply strip_by_no_lead|apply strip_by_no_trail].
Qed.

Lemma no_lead_app p s s' : s <> [] -> no_lead p s -> no_lead p (s ++ s').
Proof. destruct s; simpl; done. Qed.

(** *** Splitting on white space *)

Lemma split_cons_space c s : is_space c = true -> split (c :: s) = split s.
Proof. intros H. simpl. by rewrite H. Qed.

Lemma split_cons_last c : is_space c = false -> split [c] = [[c]].
Proof. intros H. simpl. by rewrite H. Qed.

Lemma split_cons_end c c' s :
  is_space c = false -> is_space c' = true ->
  split (c :: c' :: s) = [c] :: split s.
Proof.
  intros H H'. rewrite <- (split_cons_space c' s H').
  simpl. by rewrite H, H'.
Qed.

Lemma split_cons_more c c' s :
  is_space c = false -> is_space c' = false ->
  split (c :: c' :: s)
  = match split (c' :: s) with
    | w :: ws => (c :: w) :: ws
    | [] => [[c]]
    end.
Proof.
  intros H H'. change (split (c :: c' :: s)) with
    (if is_space c then split (c' :: s)
     else if is_space c' then [c] :: split (c' :: s)
     else match split (c' :: s) with
          | w :: ws => (c :: w) :: ws
          | [] => [[c]]
          end).
  by rewrite H, H'.
Qed.

Lemma split_words (P : ascii -> Prop) s :
  Forall P s -> Forall (fun w => word w /\ Forall P w) (split s).
Proof.
  induction s as [|c s IH]; intros HP; [constructor|].
  apply Forall_cons in HP as [Hc HP]. specialize (IH HP).
  destruct (is_space c) eqn:E.
  - by rewrite split_cons_space.
  - destruct s as [|c' s].
    + rewrite split_cons_last by done. repeat constructor; done.
    + destruct (is_space c') eqn:E'.
      * rewrite split_cons_end by done.
        rewrite split_cons_space in IH by done.
        constructor; [|done]. repeat constructor; done.
      * rewrite split_cons_more by done.
        destruct (split (c' :: s)) as [|w ws].
        -- repeat constructor; done.
        -- apply Forall_cons in IH as [[[Hne Hw] HPw] IH].
           constructor; [|done]. repeat constructor; done.
Qed.

Lemma split_word_space w c s :
  word w -> is_space c = true -> split (w ++ c :: s) = w :: split s.
Proof.
  intros [Hne Hw] Hc. induction w as [|a w IH]; [done|].
  apply Forall_cons in Hw as [Ha Hw].
  destruct w as [|b w]; simpl app.
  - by apply split_cons_end.
  - pose proof Hw as Hw'. apply Forall_cons in Hw' as [Hb _].
    rewrite split_cons_more by done.
    simpl app in IH. by rewrite IH.
Qed.

Lemma split_word w : word w -> split w = [w].
Proof.
  intros [Hne Hw]. induction w as [|a w IH]; [done|].
  apply Forall_cons in Hw as [Ha Hw].
  destruct w as [|b w].
  - by apply split_cons_last.
  - pose proof Hw as Hw'. apply Forall_cons in Hw' as [Hb _].
    rewrite split_cons_more by done. by rewrite IH.
Qed.

Lemma join_cons2 sep w w' ws :
  join sep (w :: w' :: ws) = w ++ sep ++ join sep (w' :: ws).
Proof. done. Qed.

Lemma split_join (ws : list (list ascii)) :
  Forall word ws -> split (join [" "%char] ws) = ws.
Proof.
  induction ws as [|w ws IH]; intros Hws; [done|].
  apply Forall_cons in Hws as [Hw Hws].
  destruct ws as [|w' ws].
  - by apply split_word.
  - rewrite join_cons2. cbn [app].
    rewrite split_word_space by done. by rewrite IH.
Qed.

Lemma join_nonempty sep w ws : w <> [] -> join sep (w :: ws) <> [].
Proof.
  intros Hw. destruct ws; simpl; [done|].
  destruct w; [done|]. discriminate.
Qed.

Lemma join_no_lead p sep ws :
  Forall (fun w => w <> [] /\ no_lead p w) ws -> no_lead p (join sep ws).
Proof.
  intros Hws. destruct Hws as [|w ws [Hne Hw] Hws]; [done|].
  destruct ws as [|w' ws]; [done|].
  rewrite join_cons2. by apply no_lead_app.
Qed.

Lemma join_no_trail p sep ws :
  Forall (fun w => w <> [] /\ no_lead p (rev w)) ws ->
  no_lead p (rev (join sep ws)).
Proof.
  induction ws as [|w ws IH]; intros Hws; [done|].
  apply Forall_cons in Hws as [[Hne Hw] Hws].
  destruct ws as [|w' ws]; [done|].
  rewrite join_cons2, !rev_app_distr, <- app_assoc.
  apply no_lead_app; [|by apply IH].
  pose proof Hws as Hws'. apply Forall_cons in Hws' as [[Hne' _] _].
  intros H. apply (f_equal (@rev ascii)) in H.
  rewrite rev_involutive in H. by apply (join_nonempty sep w' ws).
Qed.

Lemma word_no_lead w : word w -> w <> [] /\ no_lead is_space w.
Proof.
  intros [Hne Hw]. split; [done|]. destruct Hw; done.
Qed.

Lemma word_no_trail w : word w -> w <> [] /\ no_lead is_space (rev w).
Proof.
  intros [Hne Hw]. split; [done|].
  apply Forall_rev in Hw. destruct Hw; done.
Qed.

Lemma strip_join (ws : list (list ascii)) :
  Forall word ws -> strip (join [" "%char] ws) = join [" "%char] ws.
Proof.
  intros Hws. apply strip_by_id.
  - apply join_no_lead. eapply Forall_impl; [exact Hws|]. apply word_no_lead.
  - apply join_no_trail. eapply Forall_impl; [exact Hws|]. apply word_no_trail.
Qed.

(** *** Lower case *)

Lemma lower_char_idemp c : lower_char (lower_char c) = lower_char c.
Proof. destruct c as [[] [] [] [] [] [] [] []]; reflexivity. Qed.

Lemma Forall_join (P : ascii -> Prop) sep (ws : list (list ascii)) :
  Forall P sep -> Forall (Forall P) ws -> Forall P (join sep ws).
Proof.
  intros Hsep. induction ws as [|w ws IH]; intros Hws; [constructor|].
  apply Forall_cons in Hws as [Hw Hws].
  destruct ws as [|w' ws]; [done|].
  rewrite join_cons2. apply Forall_app. split; [done|].
  apply Forall_app. split; [done|]. by apply IH.
Qed.

Lemma lower_id s : Forall (fun c => lower_char c = c) s -> lower s = s.
Proof.
  unfold lower. induction 1 as [|c s Hc Hs IH]; simpl; [done|].
  by rewrite Hc, IH.
Qed.

Lemma lower_lowered s : Forall (fun c => lower_char c = c) (lower s).
Proof.
  unfold lower. induction s as [|c s IH]; simpl; constructor; [|done].
  apply lower_char_idemp.
Qed.

End strings.

(** ** The query normalizer *)

Section normalizer.
Import ConversationRetrievalProcessor.

Lemma filter_word_loop (words acc : list (list ascii)) :
  fold_left filter_word words acc
  = acc ++ List.filter Spec.nonempty
             (map (PyStr.strip_chars ".,!?;:") (List.filter Spec.keep_token words)).
Proof.
  revert acc. induction words as [|w words IH]; intros acc; simpl.
  - by rewrite app_nil_r.
  - rewrite IH. unfold filter_word, Spec.keep_token.
    destruct (bool_decide _); simpl; [done|].
    destruct (length w <=? 2)%nat; simpl; [done|].
    destruct (PyStr.strip_chars ".,!?;:" w); simpl; [done|].
    by rewrite <- app_assoc.
Qed.

Lemma preprocess_query_by_stages query :
  _preprocess_query query = Spec.normalize_by_stages query.
Proof.
  unfold _preprocess_query, Spec.normalize_by_stages.
  by rewrite filter_word_loop.
Qed.

Lemma preprocess_query_surviving query :
  _preprocess_query query
  = if (length (surviving (list_ascii_of_string query)) <? 2)%nat
    then string_of_list_ascii (PyStr.strip (list_ascii_of_string query))
    else string_of_list_ascii
           (PyStr.join [" "%char] (surviving (list_ascii_of_string query))).
Proof. done. Qed.

Lemma strip_idemp (s : list ascii) : PyStr.strip (PyStr.strip s) = PyStr.strip s.
Proof. apply strip_by_idemp. Qed.

Lemma surviving_strip (s : list ascii) : surviving (PyStr.strip s) = surviving s.
Proof. unfold surviving. by rewrite strip_idemp. Qed.

Lemma filter_all {A : Type} (f : A -> bool) (l : list A) :
  Forall (fun x => f x = true) l -> List.filter f l = l.
Proof. induction 1 as [|x l Hx Hl IH]; simpl; [done|]. by rewrite Hx, IH. Qed.

Lemma filter_kept {A : Type} (f : A -> bool) (l : list A) :
  Forall (fun x => f x = true) (List.filter f l).
Proof.
  induction l as [|x l IH]; simpl; [constructor|].
  destruct (f x) eqn:E; [by constructor|done].
Qed.

Lemma filter_Forall {A : Type} (P : A -> Prop) (f : A -> bool) (l : list A) :
  Forall P l -> Forall P (List.filter f l).
Proof.
  induction 1 as [|x l Hx Hl IH]; simpl; [constructor|].
  destruct (f x); [by constructor|done].
Qed.

Lemma map_id_on {A : Type} (f : A -> A) (l : list A) :
  Forall (fun x => f x = x) l -> map f l = l.
Proof. induction 1 as [|x l Hx Hl IH]; simpl; [done|]. by rewrite Hx, IH. Qed.

(** On words that carry no punctuation at their ends the loop only
    filters. *)
Lemma surviving_clean (words : list (list ascii)) :
  Forall word words -> Forall Spec.clean_token words ->
  fold_left filter_word words [] = List.filter Spec.keep_token words.
Proof.
  intros Hwords Hclean. rewrite filter_word_loop. simpl.
  rewrite map_id_on by (by apply filter_Forall).
  apply filter_all, filter_Forall.
  eapply Forall_impl; [exact Hwords|]. intros w [Hne _]. by destruct w.
Qed.

Lemma lowered_words (s : list ascii) :
  Forall (fun w => word w /\ Forall (fun c => PyStr.lower_char c = c) w)
    (PyStr.split (PyStr.lower s)).
Proof. apply split_words, lower_lowered. Qed.

Lemma preprocess_query_idempotent_on_clean query :
  Spec.clean_query query ->
  _preprocess_query (_preprocess_query query) = _preprocess_query query.
Proof.
  intros Hclean. unfold Spec.clean_query in Hclean.
  rewrite (preprocess_query_surviving query).
  set (l := list_ascii_of_string query) in *.
  pose proof (lowered_words (PyStr.strip l)) as Hwords.
  set (W := PyStr.split (PyStr.lower (PyStr.strip l))) in *.
  assert (HW : Forall word W).
  { eapply Forall_impl; [exact Hwords|]. by intros w [? _]. }
  assert (HF : surviving l = List.filter Spec.keep_token W).
  { by apply surviving_clean. }
  destruct (length (surviving l) <? 2)%nat eqn:Hlen.
  - rewrite preprocess_query_surviving.
    rewrite list_ascii_of_string_of_list_ascii.
    rewrite surviving_strip, strip_idemp, Hlen. done.
  - rewrite preprocess_query_surviving.
    rewrite list_ascii_of_string_of_list_ascii.
    set (F := surviving l) in *.
    assert (HFw : Forall word F).
    { rewrite HF. by apply filter_Forall. }
    assert (HFl : Forall (Forall (fun c => PyStr.lower_char c = c)) F).
    { rewrite HF. apply filter_Forall.
      eapply Forall_impl; [exact Hwords|]. by intros w [_ ?]. }
    assert (HFF : surviving (PyStr.join [" "%char] F) = F).
    { unfold surviving. rewrite strip_join by done.
      rewrite lower_id by (apply Forall_join; [by repeat constructor|done]).
      rewrite split_join by done.
      rewrite surviving_clean; [|done|].
      - rewrite HF. apply filter_all, filter_kept.
      - rewrite HF. by apply filter_Forall. }
    rewrite HFF, Hlen. done.
Qed.
End normalizer.

Section normalizer_claims.
Import ConversationRetrievalProcessor.

Example preprocess_query_question :
  _preprocess_query "  What is the Capital of France?  " = "the capital france".
Proof. reflexivity. Qed.

Example preprocess_query_short : _preprocess_query "  Hello  " = "Hello".
Proof. reflexivity. Qed.

Example preprocess_query_keeps_stripped_short_token :
  _preprocess_query "ab. cat dog" = "ab cat dog"
  /\ Spec.normalize "ab. cat dog" = "cat dog".
Proof. split; reflexivity. Qed.

Example preprocess_query_strips_leading_punctuation :
  _preprocess_query "?cat ... dog" = "cat dog".
Proof. reflexivity. Qed.

(** C4, as stated, fails: the code measures the length of a token before
    it strips the punctuation, so "ab." survives as "ab", while the
    normalizer of the specification drops it. *)
Lemma preprocess_query_differs_from_spec :
  _preprocess_query "ab. cat dog" <> Spec.normalize "ab. cat dog".
Proof. vm_compute. discriminate. Qed.

(** C4, amended: for every input string, [_preprocess_query] trims white
    space, lower-cases and splits on white space, drops the tokens that are
    in the fixed stop-word set and the tokens of length at most 2 (both
    tested on the token as split, before any punctuation is stripped), then
    strips the characters .,!?;: from both ends of each remaining token,
    drops a token that becomes empty, and rejoins the surviving tokens with
    single spaces; if fewer than 2 tokens survive it returns the original
    trimmed, unfiltered query. *)
Theorem preprocess_query_filters_then_strips (query : string) :
  _preprocess_query query = Spec.normalize_by_stages query.
Proof. apply preprocess_query_by_stages. Qed.

Example preprocess_query_twice :
  _preprocess_query "what? cat dog" = "what cat dog"
  /\ _preprocess_query "what cat dog" = "cat dog".
Proof. split; reflexivity. Qed.

(** C5, as stated, fails: "what?" is not a stop word, so the first pass
    keeps it as "what"; the second pass drops it. *)
Lemma preprocess_query_not_idempotent :
  _preprocess_query (_preprocess_query "what? cat dog")
  <> _preprocess_query "what? cat dog".
Proof. vm_compute. discriminate. Qed.

End normalizer_claims.

(** ** Computations *)

Section monad_facts.
Context {A B : Type}.
Implicit Types (m : M A) (f : A -> M B).

Lemma bind_ret (a : A) f : bind (ret a) f = f a.
Proof. unfold bind, ret. by destruct (f a). Qed.

Lemma bind_lift_Some (a : A) f : bind (lift (Some a)) f = f a.
Proof. apply bind_ret. Qed.

Lemma bind_lift_None f : bind (lift None) f = raise.
Proof. done. Qed.

Lemma result_of_bind_Some m f (b : B) :
  result_of (bind m f) = Some b ->
  exists a, result_of m = Some a /\ result_of (f a) = Some b.
Proof.
  destruct m as [calls [a|]]; simpl; [|done].
  destruct (f a) as [calls' r] eqn:E. simpl. intros ->.
  exists a. by rewrite E.
Qed.

Lemma result_of_bind_None m f :
  result_of m = None -> result_of (bind m f) = None.
Proof. destruct m as [calls [a|]]; simpl; [done|done]. Qed.

Lemma calls_of_bind_None m f :
  result_of m = None -> calls_of (bind m f) = calls_of m.
Proof. destruct m as [calls [a|]]; simpl; [done|done]. Qed.

Lemma result_of_bind m f (a : A) :
  result_of m = Some a -> result_of (bind m f) = result_of (f a).
Proof.
  destruct m as [calls [a'|]]; simpl; [|done]. intros [= ->].
  by destruct (f a).
Qed.

Lemma calls_of_bind m f (a : A) :
  result_of m = Some a -> calls_of (bind m f) = calls_of m ++ calls_of (f a).
Proof.
  destruct m as [calls [a'|]]; simpl; [|done]. intros [= ->].
  by destruct (f a).
Qed.

End monad_facts.

(** A loop stops at the first item that raises: the later items are not
    visited. *)
Lemma for_each_raises {A B : Type} (f : A -> M B) (before after : list A) (a : A) :
  Forall (fun x => succeeds (f x)) before ->
  result_of (f a) = None ->
  result_of (for_each f (before ++ a :: after)) = None
  /\ calls_of (for_each f (before ++ a :: after))
     = concat (map (fun x => calls_of (f x)) before) ++ calls_of (f a).
Proof.
  intros Hbefore Ha. induction Hbefore as [|x before [b Hx] _ [IH1 IH2]]; simpl.
  - split.
    + by apply result_of_bind_None.
    + by apply calls_of_bind_None.
  - split.
    + rewrite (result_of_bind _ _ b Hx). by apply result_of_bind_None.
    + rewrite (calls_of_bind _ _ b Hx), <- app_assoc. f_equal.
      by rewrite calls_of_bind_None.
Qed.

(** ** The turn processor *)

Section turn_processor.
Import ConversationRetrievalProcessor.
Variable search : string -> Z -> option (list doc).

(** C9: for every turn in which the query key is absent,
    [_process_single_turn] returns the turn itself, unchanged in every
    field; it makes no call to the retrieval backend and raises no error. *)
Theorem turn_without_query_key_is_returned
  (turn : value) (query_key : string) (k_values : list Z) (calculate_ndcg : bool) :
  py_contains query_key turn = Some false ->
  calls_of (_process_single_turn search turn query_key k_values calculate_ndcg) = []
  /\ result_of (_process_single_turn search turn query_key k_values calculate_ndcg)
     = Some turn.
Proof.
  intros Hkey. unfold _process_single_turn. rewrite Hkey, bind_lift_Some.
  done.
Qed.

Lemma contains_get {V : Type} key (d : list (string * V)) :
  PyDict.contains key d = true -> exists v, PyDict.get key d = Some v.
Proof. unfold PyDict.contains. destruct (PyDict.get key d); [eauto|done]. Qed.

Lemma create_new_turn_structure_fields d search_results query_key q :
  PyDict.get query_key d = Some q ->
  _create_new_turn_structure (VDict d) search_results query_key
  = ret (VDict (new_turn_fields d search_results q)).
Proof.
  intros Hq. unfold _create_new_turn_structure, new_turn_fields. simpl.
  unfold PyDict.contains. rewrite Hq.
  destruct (PyDict.get "query" d) as [x|]; destruct (PyDict.get "labels" d) as [l|];
    reflexivity.
Qed.

Lemma new_turn_fields_keys d search_results q :
  PyDict.keys (new_turn_fields d search_results q)
  = (if PyDict.contains "query" d then ["query"] else [])
    ++ ["resolvedQuery"; "retrieved_evidence"]
    ++ (if PyDict.contains "labels" d then ["labels"] else []).
Proof.
  unfold new_turn_fields, PyDict.contains.
  destruct (PyDict.get "query" d); destruct (PyDict.get "labels" d); reflexivity.
Qed.

Lemma new_turn_fields_labels d search_results q :
  PyDict.contains "labels" (new_turn_fields d search_results q)
  = PyDict.contains "labels" d.
Proof.
  unfold new_turn_fields, PyDict.contains.
  destruct (PyDict.get "query" d); destruct (PyDict.get "labels" d); reflexivity.
Qed.

(** C10: for every turn that contains the query key, the turn that
    [_process_single_turn] produces has exactly the fields [query] (if the
    input has it), [resolvedQuery], [retrieved_evidence] and [labels] (if
    the input has it), in this order; every other field of the input turn
    is absent from it. *)
Theorem processed_turn_fields
  (d : list (string * value)) (query_key : string) (k_values : list Z)
  (calculate_ndcg : bool) (new_turn : value) :
  PyDict.contains query_key d = true ->
  result_of (_process_single_turn search (VDict d) query_key k_values calculate_ndcg)
  = Some new_turn ->
  exists d',
    new_turn = VDict d'
    /\ PyDict.keys d'
       = (if PyDict.contains "query" d then ["query"] else [])
         ++ ["resolvedQuery"; "retrieved_evidence"]
         ++ (if PyDict.contains "labels" d then ["labels"] else []).
Proof.
  intros Hkey Hres. destruct (contains_get _ _ Hkey) as [q Hq].
  unfold _process_single_turn in Hres. simpl py_contains in Hres.
  rewrite Hkey, bind_lift_Some in Hres. simpl negb in Hres. cbv iota in Hres.
  simpl py_get in Hres. rewrite Hq, bind_lift_Some in Hres.
  apply result_of_bind_Some in Hres as (processed_query & _ & Hres).
  apply result_of_bind_Some in Hres as (search_results & _ & Hres).
  rewrite (create_new_turn_structure_fields _ _ _ _ Hq), bind_ret in Hres.
  set (d0 := new_turn_fields d search_results q) in *.
  apply result_of_bind_Some in Hres as (score_labels & Hscore & Hres).
  destruct score_labels.
  - apply result_of_bind_Some in Hres as (labels & _ & Hres).
    apply result_of_bind_Some in Hres as (labels' & _ & Hres).
    simpl in Hres. injection Hres as <-.
    exists (PyDict.set "labels" labels' d0). split; [done|].
    assert (Hl : PyDict.contains "labels" d0 = true).
    { destruct calculate_ndcg; simpl in Hscore; by injection Hscore. }
    rewrite dict_keys_set_present by done.
    apply new_turn_fields_keys.
  - simpl in Hres. injection Hres as <-. exists d0. split; [done|].
    apply new_turn_fields_keys.
Qed.

End turn_processor.

Section processor_witnesses.
Import ConversationRetrievalProcessor.

Lemma turn_without_query_key_is_returned_witness :
  calls_of (_process_single_turn Examples.search_down Examples.turn_without_key
              "resolvedQuery" [1; 3; 5]%Z true) = []
  /\ result_of (_process_single_turn Examples.search_down Examples.turn_without_key
                  "resolvedQuery" [1; 3; 5]%Z true)
     = Some Examples.turn_without_key.
Proof.
  apply (turn_without_query_key_is_returned Examples.search_down
           Examples.turn_without_key "resolvedQuery" [1; 3; 5]%Z true).
  reflexivity.
Defined.

Lemma processed_turn_fields_witness :
  exists new_turn d',
    result_of (_process_single_turn Examples.search_flaky
                 (VDict Examples.turn_labelled) "resolvedQuery" [1; 3; 5]%Z true)
    = Some new_turn
    /\ new_turn = VDict d'
    /\ PyDict.keys d'
       = ["query"; "resolvedQuery"; "retrieved_evidence"; "labels"].
Proof.
  assert (H : exists new_turn,
    result_of (_process_single_turn Examples.search_flaky
                 (VDict Examples.turn_labelled) "resolvedQuery" [1; 3; 5]%Z true)
    = Some new_turn).
  { vm_compute. eexists. reflexivity. }
  destruct H as [new_turn H].
  destruct (processed_turn_fields Examples.search_flaky Examples.turn_labelled
              "resolvedQuery" [1; 3; 5]%Z true new_turn eq_refl H)
    as (d' & Hd & Hkeys).
  exists new_turn, d'. split; [exact H|]. split; [exact Hd|exact Hkeys].
Defined.

End processor_witnesses.

(** ** The dataset driver *)

Section dataset_driver.
Import ConversationRetrievalProcessor.
Variable search : string -> Z -> option (list doc).

Lemma process_json_file_loop (d : list (string * value))
  (calculate_ndcg : bool) (k_values : list Z) :
  process_json_file search (VDict d) calculate_ndcg k_values
  = let* d := for_each (dialogue_step search k_values calculate_ndcg) d in
    ret (VDict d).
Proof. done. Qed.

Lemma dialogue_step_result (k_values : list Z) (calculate_ndcg : bool)
  (item : string * value) :
  result_of (dialogue_step search k_values calculate_ndcg item)
  = (fun target_data => (fst item, target_data))
    <$> result_of (_process_turns search (snd item) k_values calculate_ndcg).
Proof.
  destruct item as [top_key target_data]. simpl.
  destruct (_process_turns _ _ _ _) as [calls [r|]]; done.
Qed.

Lemma dialogue_step_calls (k_values : list Z) (calculate_ndcg : bool)
  (item : string * value) :
  calls_of (dialogue_step search k_values calculate_ndcg item)
  = calls_of (_process_turns search (snd item) k_values calculate_ndcg).
Proof.
  destruct item as [top_key target_data]. simpl.
  destruct (_process_turns _ _ _ _) as [calls [r|]]; simpl; [|done].
  by rewrite app_nil_r.
Qed.

(** [process_json_file] does not isolate the dialogues.  If the
    processing of one dialogue's turns raises, the exception is not
    caught: it leaves [process_json_file], no transformed output is
    produced, and the dialogues after the failing one are not processed
    (the backend is called for the dialogues up to the failing one only). *)
Theorem dialogue_failure_aborts_dataset
  (before after : list (string * value)) (top_key : string) (target_data : value)
  (calculate_ndcg : bool) (k_values : list Z) :
  Forall (fun item =>
            succeeds (_process_turns search (snd item) k_values calculate_ndcg))
    before ->
  result_of (_process_turns search target_data k_values calculate_ndcg) = None ->
  let run :=
    process_json_file search
      (VDict (before ++ (top_key, target_data) :: after))
      calculate_ndcg k_values in
  result_of run = None
  /\ calls_of run
     = concat
         (map (fun item =>
                 calls_of (_process_turns search (snd item) k_values calculate_ndcg))
            before)
       ++ calls_of (_process_turns search target_data k_values calculate_ndcg).
Proof.
  intros Hbefore Hfail run. unfold run. rewrite process_json_file_loop.
  destruct (for_each_raises (dialogue_step search k_values calculate_ndcg)
              before after (top_key, target_data)) as [Hres Hcalls].
  - eapply Forall_impl; [exact Hbefore|]. intros item [r Hr].
    unfold succeeds. rewrite dialogue_step_result, Hr. by eexists.
  - rewrite dialogue_step_result. simpl. by rewrite Hfail.
  - split.
    + by apply result_of_bind_None.
    + rewrite calls_of_bind_None by done. rewrite Hcalls. f_equal.
      * f_equal. apply map_ext. intros item. apply dialogue_step_calls.
      * apply (dialogue_step_calls _ _ (top_key, target_data)).
Qed.

End dataset_driver.

Section dataset_driver_examples.
Import ConversationRetrievalProcessor.

(** C7 (the code departs from it): [process_json_file] has no handler
    around a dialogue.  The backend raises on the only turn of the first
    dialogue; the second dialogue alone is processed without error, yet
    the run over both produces no output and never reaches the second
    dialogue: its only backend call is the one of the first dialogue. *)
Lemma failing_dialogue_aborts_run :
  result_of (_process_turns Examples.search_flaky Examples.dialogue_first
               [1; 3; 5]%Z true) = None
  /\ succeeds (_process_turns Examples.search_flaky Examples.dialogue_second
                 [1; 3; 5]%Z true)
  /\ result_of (process_json_file Examples.search_flaky
                  (VDict Examples.two_dialogues) true [1; 3; 5]%Z) = None
  /\ calls_of (process_json_file Examples.search_flaky
                 (VDict Examples.two_dialogues) true [1; 3; 5]%Z)
     = [("first question here", 10%Z)].
Proof.
  split; [reflexivity|]. split; [vm_compute; by eexists|].
  split; reflexivity.
Qed.

Lemma dialogue_failure_aborts_dataset_witness :
  result_of (process_json_file Examples.search_flaky
               (VDict Examples.two_dialogues) true [1; 3; 5]%Z) = None
  /\ calls_of (process_json_file Examples.search_flaky
                 (VDict Examples.two_dialogues) true [1; 3; 5]%Z)
     = [("first question here", 10%Z)].
Proof.
  apply (dialogue_failure_aborts_dataset Examples.search_flaky
           [] [("d2", Examples.dialogue_second)] "d1" Examples.dialogue_first
           true [1; 3; 5]%Z).
  - constructor.
  - reflexivity.
Defined.

End dataset_driver_examples.

(** ** The aggregator *)

Section aggregator.
Import ConversationRetrievalProcessor.

(** A processed dataset with one scored label, written out by hand. *)
Example num_queries_of_scored_label :
  calculate_overall_metrics Examples.scored_dataset [1]%Z
    ≫= PyDict.get "num_queries"
  = Some (VInt 3).
Proof. vm_compute. reflexivity. Qed.

(** C8 (the code departs from it): the dataset has one dialogue with one
    turn and one gold label, that is one evaluated query; after processing
    with k values 1, 3, 5 the [num_queries] field of
    [calculate_overall_metrics] is 9, one count per metric field of the
    label, not 1. *)
Theorem num_queries_counts_metric_fields :
  exists processed,
    result_of (process_json_file Examples.search_flaky
                 Examples.one_query_dataset true [1; 3; 5]%Z)
    = Some processed
    /\ calculate_overall_metrics processed [1; 3; 5]%Z
         ≫= PyDict.get "num_queries"
       = Some (VInt 9).
Proof.
  eexists. split.
  - vm_compute. reflexivity.
  - vm_compute. reflexivity.
Qed.

End aggregator.

(** * Further properties of the code *)

(** ** The metric engine *)

Section evaluator_extras.
Import RetrievalEvaluator.
Local Open Scope R_scope.

Implicit Types (retrieved : list doc) (gold : list evidence).

(** Membership in the gold set, by induction over the loop of
    [_get_gold_ids]. *)
Lemma gold_ids_elem gold (x : hashable) :
  x ∈ _get_gold_ids gold
  <-> (exists s, x = HStr s /\ EvStr s ∈ gold) \/ EvDict (Some x) ∈ gold.
Proof.
  unfold _get_gold_ids.
  assert (H : forall (acc : listset hashable),
    x ∈ fold_left
          (fun (gold_ids : listset hashable) (ev : evidence) =>
             match ev with
             | EvDict (Some p) => gold_ids ∪ {[ p ]}
             | EvDict None => gold_ids
             | EvStr s => gold_ids ∪ {[ HStr s ]}
             | EvOther => gold_ids
             end) gold acc
    <-> x ∈ acc \/ (exists s, x = HStr s /\ EvStr s ∈ gold)
        \/ EvDict (Some x) ∈ gold).
  { induction gold as [|ev gold IH]; intros acc; simpl.
    - rewrite elem_of_nil. split; [by left|].
      intros [?|[(s & _ & Hs)|?]]; [done|by apply elem_of_nil in Hs|done].
    - rewrite IH. clear IH.
      assert (Hstep :
        x ∈ match ev with
            | EvDict (Some p) => acc ∪ {[ p ]}
            | EvDict None => acc
            | EvStr s => acc ∪ {[ HStr s ]}
            | EvOther => acc
            end
        <-> x ∈ acc \/ (exists s, x = HStr s /\ ev = EvStr s)
            \/ ev = EvDict (Some x)).
      { destruct ev as [[p|]|s|];
          rewrite ?elem_of_union, ?elem_of_singleton.
        - split.
          + intros [?| ->]; [by left|by right; right].
          + intros [?|[(s & _ & [=])|[= ->]]]; [by left|by right].
        - split; [by left|]. by intros [?|[(s & _ & [=])|[=]]].
        - split.
          + intros [?| ->]; [by left|]. right. left. by exists s.
          + intros [?|[(s' & -> & [= ->])|[=]]]; [by left|by right].
        - split; [by left|]. by intros [?|[(s & _ & [=])|[=]]]. }
      rewrite Hstep, elem_of_cons. setoid_rewrite elem_of_cons. split.
      + intros [[?|[(s & -> & ->)| ->]]|[(s & -> & ?)|?]].
        * by left.
        * right. left. exists s. split; [done|by left].
        * right. right. by left.
        * right. left. exists s. split; [done|by right].
        * right. right. by right.
      + intros [?|[(s & -> & [<-|?])|[<-|?]]].
        * left. by left.
        * left. right. left. by exists s.
        * right. left. by exists s.
        * left. right. by right.
        * right. by right. }
  rewrite H, elem_of_empty. tauto.
Qed.

(** X1: The gold set holds exactly the bare strings of the list and the
    [passage_id] of its objects: both forms are accepted, items of any
    other form are ignored, and the order and the repetitions of the list
    do not matter. *)
Theorem gold_ids_membership gold (x : hashable) :
  x ∈ _get_gold_ids gold
  <-> (exists s, x = HStr s /\ EvStr s ∈ gold) \/ EvDict (Some x) ∈ gold.
Proof. apply gold_ids_elem. Qed.

Lemma gold_ids_same_items gold1 gold2 :
  (forall ev, ev ∈ gold1 <-> ev ∈ gold2) ->
  _get_gold_ids gold1 ≡ _get_gold_ids gold2.
Proof.
  intros Hsame x. rewrite !gold_ids_elem.
  split; (intros [(s & -> & Hs)|Hx]; [left; exists s; split; [done|]|right]);
    by apply Hsame.
Qed.

(** The metrics read the gold set through membership and size only. *)
Lemma count_relevant_equiv (gold_ids gold_ids' : listset hashable) (docs : list doc) :
  gold_ids ≡ gold_ids' ->
  count_relevant gold_ids docs = count_relevant gold_ids' docs.
Proof.
  intros Heq. rewrite !count_relevant_filter. f_equal.
  induction docs as [|d docs IH]; [done|].
  rewrite !filter_cons, IH.
  destruct (decide (HStr (passage_id d) ∈ gold_ids)) as [Hin|Hnot];
    destruct (decide (HStr (passage_id d) ∈ gold_ids')) as [Hin'|Hnot'];
    try done.
  - destruct Hnot'. by apply Heq.
  - destruct Hnot. by apply Heq.
Qed.

Lemma gain_equiv (gold_ids gold_ids' : listset hashable) (x : nat * doc) :
  gold_ids ≡ gold_ids' -> gain gold_ids x = gain gold_ids' x.
Proof.
  intros Heq. unfold gain.
  destruct (decide (HStr (passage_id (snd x)) ∈ gold_ids)) as [Hin|Hnot].
  - rewrite !bool_decide_eq_true_2; [done| |done]. by apply Heq.
  - rewrite !bool_decide_eq_false_2; [done| |done]. intros Hin. by apply Hnot, Heq.
Qed.

Lemma metrics_of_equivalent_gold_sets retrieved gold1 gold2 (k : option Z) :
  _get_gold_ids gold1 ≡ _get_gold_ids gold2 ->
  calculate_precision_at_k retrieved gold1 k
  = calculate_precision_at_k retrieved gold2 k
  /\ calculate_recall_at_k retrieved gold1 k
     = calculate_recall_at_k retrieved gold2 k
  /\ calculate_ndcg retrieved gold1 k = calculate_ndcg retrieved gold2 k.
Proof.
  intros Heq.
  assert (Hsize : size (_get_gold_ids gold1) = size (_get_gold_ids gold2))
    by (by rewrite Heq).
  unfold calculate_precision_at_k, calculate_recall_at_k, calculate_ndcg.
  rewrite !dcg_loop_sum, Hsize.
  rewrite !(count_relevant_equiv _ _ _ Heq).
  split; [done|]. split; [done|].
  assert (Hgain : forall l,
    map (gain (_get_gold_ids gold1)) l = map (gain (_get_gold_ids gold2)) l).
  { intros l. apply map_ext. intros x. by apply gain_equiv. }
  by rewrite Hgain.
Qed.

(** X2: The metrics depend on the gold list only through its items: two
    gold lists with the same items, in any order and with any repetitions,
    give the same precision, recall and nDCG. *)
Theorem metrics_ignore_gold_order_and_repetition
  retrieved gold1 gold2 (k : option Z) :
  (forall ev, ev ∈ gold1 <-> ev ∈ gold2) ->
  calculate_precision_at_k retrieved gold1 k
  = calculate_precision_at_k retrieved gold2 k
  /\ calculate_recall_at_k retrieved gold1 k
     = calculate_recall_at_k retrieved gold2 k
  /\ calculate_ndcg retrieved gold1 k = calculate_ndcg retrieved gold2 k.
Proof.
  intros Hsame. by apply metrics_of_equivalent_gold_sets, gold_ids_same_items.
Qed.

Lemma metrics_ignore_gold_order_and_repetition_witness :
  calculate_precision_at_k Examples.retrieved_ABC
    [EvStr "B"; EvDict (Some (HStr "C"))] (Some 3%Z)
  = calculate_precision_at_k Examples.retrieved_ABC
      [EvDict (Some (HStr "C")); EvStr "B"; EvStr "B"] (Some 3%Z)
  /\ calculate_recall_at_k Examples.retrieved_ABC
       [EvStr "B"; EvDict (Some (HStr "C"))] (Some 3%Z)
     = calculate_recall_at_k Examples.retrieved_ABC
         [EvDict (Some (HStr "C")); EvStr "B"; EvStr "B"] (Some 3%Z)
  /\ calculate_ndcg Examples.retrieved_ABC
       [EvStr "B"; EvDict (Some (HStr "C"))] (Some 3%Z)
     = calculate_ndcg Examples.retrieved_ABC
         [EvDict (Some (HStr "C")); EvStr "B"; EvStr "B"] (Some 3%Z).
Proof.
  apply (metrics_ignore_gold_order_and_repetition Examples.retrieved_ABC
           [EvStr "B"; EvDict (Some (HStr "C"))]
           [EvDict (Some (HStr "C")); EvStr "B"; EvStr "B"] (Some 3%Z)).
  intros ev. rewrite !elem_of_cons, !elem_of_nil. tauto.
Defined.

(** *** Counting the relevant documents *)

Lemma count_relevant_all gold_ids (docs : list doc) :
  Forall (fun d => HStr (passage_id d) ∈ gold_ids) docs ->
  count_relevant gold_ids docs = length docs.
Proof.
  intros Hall. rewrite count_relevant_filter.
  induction Hall as [|d docs Hd Hall IH]; [done|].
  rewrite filter_cons_True by done. simpl. by rewrite IH.
Qed.

Lemma count_relevant_app gold_ids (docs1 docs2 : list doc) :
  count_relevant gold_ids (docs1 ++ docs2)
  = (count_relevant gold_ids docs1 + count_relevant gold_ids docs2)%nat.
Proof. by rewrite !count_relevant_filter, filter_app, length_app. Qed.

Lemma count_relevant_zero gold_ids (docs : list doc) :
  count_relevant gold_ids docs = 0%nat
  <-> Forall (fun d => HStr (passage_id d) ∉ gold_ids) docs.
Proof.
  rewrite count_relevant_filter. induction docs as [|d docs IH]; simpl.
  - split; [constructor|done].
  - rewrite filter_cons, Forall_cons. case_decide; simpl.
    + split; [done|]. by intros [? _].
    + rewrite IH. tauto.
Qed.

(** X3: Precision is perfect when the list holds at least k documents and each
    of its first k documents is gold. *)
Theorem precision_perfect retrieved gold (k : Z) :
  (0 < k <= Z.of_nat (length retrieved))%Z ->
  Forall (fun d => HStr (passage_id d) ∈ _get_gold_ids gold)
    (take (Z.to_nat k) retrieved) ->
  calculate_precision_at_k retrieved gold (Some k) = 1.
Proof.
  intros Hk Hall. unfold calculate_precision_at_k, effective_k.
  rewrite (proj2 (Z.ltb_lt 0 k)) by lia.
  rewrite slice_to_nonneg by lia. rewrite count_relevant_all by done.
  rewrite length_take_le by lia. rewrite INR_IZR_INZ, Z2Nat.id by lia.
  field. apply not_0_IZR. lia.
Qed.

Lemma precision_perfect_witness :
  calculate_precision_at_k Examples.retrieved_ABC
    [EvStr "A"; EvStr "B"; EvStr "Z"] (Some 2%Z) = 1.
Proof.
  apply (precision_perfect Examples.retrieved_ABC
           [EvStr "A"; EvStr "B"; EvStr "Z"] 2%Z).
  - simpl. lia.
  - apply (bool_decide_unpack _). vm_compute. exact I.
Defined.

(** X4: Recall never decreases when the cutoff grows. *)
Theorem recall_monotone_in_k retrieved gold (k1 k2 : Z) :
  (0 <= k1 <= k2)%Z ->
  calculate_recall_at_k retrieved gold (Some k1)
  <= calculate_recall_at_k retrieved gold (Some k2).
Proof.
  intros Hk. unfold calculate_recall_at_k, effective_k.
  set (gold_ids := _get_gold_ids gold).
  destruct (Nat.eqb (size gold_ids) 0) eqn:Hsz; [lra|].
  apply Nat.eqb_neq in Hsz.
  rewrite !slice_to_nonneg by lia.
  assert (Hle : (count_relevant gold_ids (take (Z.to_nat k1) retrieved)
                 <= count_relevant gold_ids (take (Z.to_nat k2) retrieved))%nat).
  { replace (Z.to_nat k2) with (Z.to_nat k1 + (Z.to_nat k2 - Z.to_nat k1))%nat
      by lia.
    rewrite <- take_take_drop, count_relevant_app. lia. }
  assert (0 < INR (size gold_ids)) by (apply lt_0_INR; lia).
  apply le_INR in Hle. unfold Rdiv.
  apply Rmult_le_compat_r; [|done].
  left. by apply Rinv_0_lt_compat.
Qed.

Lemma recall_monotone_in_k_witness :
  calculate_recall_at_k Examples.retrieved_ABC Examples.gold_B (Some 1%Z)
  <= calculate_recall_at_k Examples.retrieved_ABC Examples.gold_B (Some 3%Z).
Proof.
  apply (recall_monotone_in_k Examples.retrieved_ABC Examples.gold_B 1%Z 3%Z).
  lia.
Defined.

End evaluator_extras.

Section evaluator_extras2.
Import RetrievalEvaluator.
Local Open Scope R_scope.

Implicit Types (retrieved : list doc) (gold : list evidence).

Lemma count_relevant_covering gold_ids (docs : list doc) :
  NoDup (map passage_id docs) ->
  (forall x, x ∈ gold_ids -> x ∈ map (fun d => HStr (passage_id d)) docs) ->
  count_relevant gold_ids docs = size gold_ids.
Proof.
  intros Hnd Hcover. rewrite count_relevant_filter.
  set (hits := filter (fun d => HStr (passage_id d) ∈ gold_ids) docs).
  assert (Hnd' : NoDup (map (fun d => HStr (passage_id d)) hits)).
  { rewrite <- (map_map passage_id HStr).
    apply (NoDup_fmap_2 HStr).
    eapply sublist_NoDup; [exact Hnd|].
    apply (fmap_sublist passage_id), sublist_filter. }
  rewrite <- (length_map (fun d => HStr (passage_id d))),
    <- (size_list_to_set (C := listset hashable)) by done.
  apply set_size_proper. intros x. rewrite elem_of_list_to_set. split.
  - intros (d & -> & Hd)%list_elem_of_fmap.
    by apply list_elem_of_filter in Hd as [Hd _].
  - intros Hx. pose proof (Hcover x Hx) as Hin.
    apply list_elem_of_fmap in Hin as (d & -> & Hd).
    apply list_elem_of_fmap. exists d. split; [done|].
    by apply list_elem_of_filter.
Qed.

Lemma gold_set_empty (gold_ids : listset hashable) : size gold_ids = 0%nat -> gold_ids = ∅.
Proof.
  intros Hsz. apply size_empty_inv, listset_empty_alt in Hsz.
  destruct gold_ids as [l]. simpl in Hsz. by subst.
Qed.

(** X5: Recall is perfect when the retrieved documents up to the cutoff have
    pairwise distinct ids and every gold id is among them. *)
Theorem recall_perfect retrieved gold (k : option Z) :
  let top := slice_to retrieved (effective_k retrieved k) in
  _get_gold_ids gold <> ∅ ->
  NoDup (map passage_id top) ->
  (forall x, x ∈ _get_gold_ids gold ->
     x ∈ map (fun d => HStr (passage_id d)) top) ->
  calculate_recall_at_k retrieved gold k = 1.
Proof.
  intros top Hne Hnd Hcover. unfold calculate_recall_at_k.
  fold top. set (gold_ids := _get_gold_ids gold) in *.
  assert (Hsz : size gold_ids <> 0%nat).
  { intros Hsz. by apply gold_set_empty in Hsz. }
  rewrite (proj2 (Nat.eqb_neq _ _) Hsz).
  rewrite count_relevant_covering by done.
  field. apply not_0_INR. done.
Qed.

Lemma recall_perfect_witness :
  calculate_recall_at_k Examples.retrieved_ABC
    [EvStr "C"; EvDict (Some (HStr "A"))] (Some 3%Z) = 1.
Proof.
  apply (recall_perfect Examples.retrieved_ABC
           [EvStr "C"; EvDict (Some (HStr "A"))] (Some 3%Z)).
  - vm_compute. discriminate.
  - apply (bool_decide_unpack _). vm_compute. exact I.
  - intros x Hx. apply gold_ids_elem in Hx.
    destruct Hx as [(s & -> & Hs)|Hx].
    + rewrite !elem_of_cons, elem_of_nil in Hs.
      destruct Hs as [[= ->]|[[=]|[]]].
      apply (bool_decide_unpack _). vm_compute. exact I.
    + rewrite !elem_of_cons, elem_of_nil in Hx.
      destruct Hx as [[=]|[[= ->]|[]]].
      apply (bool_decide_unpack _). vm_compute. exact I.
Defined.

(** *** The gains of relevant and of irrelevant documents *)

Lemma gain_sum_all gold_ids (docs : list doc) (off : nat) :
  Forall (fun d => HStr (passage_id d) ∈ gold_ids) docs ->
  Spec.big_sum (map (gain gold_ids) (combine (seq off (length docs)) docs))
  = Spec.big_sum (map discount (seq off (length docs))).
Proof.
  intros Hall. revert off.
  induction Hall as [|d docs Hd Hall IH]; intros off; simpl; [done|].
  rewrite IH. unfold gain at 1, discount at 2. simpl.
  by rewrite bool_decide_eq_true_2.
Qed.

Lemma gain_sum_none gold_ids (docs : list doc) (off : nat) :
  Forall (fun d => HStr (passage_id d) ∉ gold_ids) docs ->
  Spec.big_sum (map (gain gold_ids) (combine (seq off (length docs)) docs)) = 0.
Proof.
  intros Hnone. revert off.
  induction Hnone as [|d docs Hd Hnone IH]; intros off; simpl; [done|].
  rewrite IH. unfold gain. simpl.
  rewrite bool_decide_eq_false_2 by done. unfold Rdiv. lra.
Qed.

Lemma gain_sum_pos gold_ids (docs : list doc) (off : nat) :
  (0 < count_relevant gold_ids docs)%nat ->
  0 < Spec.big_sum (map (gain gold_ids) (combine (seq off (length docs)) docs)).
Proof.
  rewrite count_relevant_filter. revert off.
  induction docs as [|d docs IH]; intros off; simpl; [lia|].
  rewrite filter_cons.
  pose proof (gain_nonneg gold_ids (combine (seq (S off) (length docs)) docs)).
  unfold gain at 1. simpl. case_decide; simpl.
  - intros _. rewrite bool_decide_eq_true_2 by done.
    pose proof (discount_pos off) as Hpos. unfold discount in Hpos. lra.
  - intros Hc. rewrite bool_decide_eq_false_2 by done.
    specialize (IH (S off) Hc). unfold Rdiv. lra.
Qed.

Lemma enumerate_app {A : Type} (l1 l2 : list A) :
  enumerate (l1 ++ l2)
  = enumerate l1 ++ combine (seq (length l1) (length l2)) l2.
Proof.
  unfold enumerate. rewrite length_app, seq_app. simpl.
  by rewrite combine_app_same_length by (by rewrite length_seq).
Qed.

(** X6: nDCG is perfect on an ideal ranking: the documents up to the cutoff
    have pairwise distinct ids, and the first min(|gold set|, k) of them
    exist and are all gold. *)
Theorem ndcg_perfect_on_ideal_ranking retrieved gold (k : Z) :
  let gold_ids := _get_gold_ids gold in
  let m := Z.to_nat (Z.min (Z.of_nat (size gold_ids)) k) in
  (0 < m <= length retrieved)%nat ->
  NoDup (map passage_id (take (Z.to_nat k) retrieved)) ->
  Forall (fun d => HStr (passage_id d) ∈ gold_ids) (take m retrieved) ->
  calculate_ndcg retrieved gold (Some k) = 1.
Proof.
  intros gold_ids m Hm Hnd Hideal.
  unfold calculate_ndcg, effective_k. fold gold_ids.
  rewrite dcg_loop_sum, idcg_loop_sum. fold m.
  assert (Hk : (0 <= k)%Z) by (unfold m in Hm; lia).
  rewrite slice_to_nonneg by done.
  set (top := take (Z.to_nat k) retrieved) in *.
  assert (Hmk : (m <= Z.to_nat k)%nat) by (unfold m; lia).
  assert (Htop : top = take m retrieved ++ take (Z.to_nat k - m) (drop m retrieved)).
  { unfold top. rewrite take_take_drop. f_equal. lia. }
  assert (Hlen : length (take m retrieved) = m) by (rewrite length_take; lia).
  set (rest := take (Z.to_nat k - m) (drop m retrieved)) in *.
  assert (Hrest : Forall (fun d => HStr (passage_id d) ∉ gold_ids) rest).
  { apply count_relevant_zero.
    pose proof (count_relevant_le_size gold_ids top Hnd) as H1.
    assert (H2 : (count_relevant gold_ids top <= Z.to_nat k)%nat).
    { etrans; [apply count_relevant_le_length|].
      unfold top. rewrite length_take. lia. }
    rewrite Htop, count_relevant_app, (count_relevant_all _ _ Hideal), Hlen in H1, H2.
    unfold m in *. lia. }
  rewrite Htop, enumerate_app, map_app, big_sum_app. unfold enumerate.
  rewrite (gain_sum_all _ _ _ Hideal), (gain_sum_none _ _ _ Hrest), Hlen.
  assert (Hpos : 0 < Spec.big_sum (map discount (seq 0 m))).
  { destruct m as [|m']; [lia|]. simpl.
    pose proof (discount_pos 0). pose proof (big_sum_discount_nonneg 1 m'). lra. }
  destruct (Req_dec_T _ 0) as [H0|_]; [lra|]. field. lra.
Qed.

Lemma ndcg_perfect_on_ideal_ranking_witness :
  calculate_ndcg Examples.retrieved_ABC
    [EvStr "B"; EvStr "A"; EvStr "Z"] (Some 2%Z) = 1.
Proof.
  apply (ndcg_perfect_on_ideal_ranking Examples.retrieved_ABC
           [EvStr "B"; EvStr "A"; EvStr "Z"] 2%Z).
  - vm_compute. lia.
  - apply (bool_decide_unpack _). vm_compute. exact I.
  - apply (bool_decide_unpack _). vm_compute. exact I.
Defined.

End evaluator_extras2.

Section evaluator_extras3.
Import RetrievalEvaluator.
Local Open Scope R_scope.

Implicit Types (retrieved : list doc) (gold : list evidence).

(** X7: A negative cutoff: precision and nDCG are 0.0, while recall follows
    Python's slice [retrieved[:k]] and counts all the documents but the
    last |k|. *)
Theorem metrics_at_negative_k retrieved gold (k : Z) :
  (k < 0)%Z ->
  calculate_precision_at_k retrieved gold (Some k) = 0
  /\ calculate_ndcg retrieved gold (Some k) = 0
  /\ calculate_recall_at_k retrieved gold (Some k)
     = calculate_recall_at_k retrieved gold
         (Some (Z.max 0 (Z.of_nat (length retrieved) + k))).
Proof.
  intros Hk. split; [|split].
  - unfold calculate_precision_at_k, effective_k.
    by rewrite (proj2 (Z.ltb_ge 0 k)) by lia.
  - unfold calculate_ndcg, effective_k. rewrite idcg_loop_sum.
    replace (Z.to_nat _) with 0%nat by lia. simpl.
    by destruct (Req_dec_T 0 0).
  - unfold calculate_recall_at_k, effective_k.
    assert (Hslice :
      slice_to retrieved k
      = slice_to retrieved (Z.max 0 (Z.of_nat (length retrieved) + k))).
    { unfold slice_to.
      rewrite (proj2 (Z.leb_gt 0 k)) by lia.
      rewrite (proj2 (Z.leb_le 0 _)) by lia. f_equal. lia. }
    by rewrite Hslice.
Qed.

Lemma metrics_at_negative_k_witness :
  calculate_precision_at_k Examples.retrieved_ABC Examples.gold_B (Some (-1)%Z) = 0
  /\ calculate_ndcg Examples.retrieved_ABC Examples.gold_B (Some (-1)%Z) = 0
  /\ calculate_recall_at_k Examples.retrieved_ABC Examples.gold_B (Some (-1)%Z)
     = calculate_recall_at_k Examples.retrieved_ABC Examples.gold_B (Some 2%Z).
Proof.
  apply (metrics_at_negative_k Examples.retrieved_ABC Examples.gold_B (-1)%Z).
  lia.
Defined.

Lemma div_zero_iff (a b : R) : 0 < b -> a / b = 0 <-> a = 0.
Proof.
  intros Hb. split.
  - intros H. apply (Rmult_eq_compat_r b) in H.
    unfold Rdiv in H. rewrite Rmult_assoc, Rinv_l, Rmult_0_l, Rmult_1_r in H; lra.
  - intros ->. unfold Rdiv. apply Rmult_0_l.
Qed.

(** X9: For a positive cutoff and a gold set that is not empty, recall@k
    and nDCG@k are 0.0 exactly when none of the documents up to the cutoff
    is gold; so is precision@k when the cutoff is not beyond the end of
    the list. *)
Theorem metrics_zero_iff_no_relevant retrieved gold (k : Z) :
  let no_relevant :=
    Forall (fun d => HStr (passage_id d) ∉ _get_gold_ids gold)
      (take (Z.to_nat k) retrieved) in
  (0 < k)%Z ->
  _get_gold_ids gold <> ∅ ->
  (calculate_recall_at_k retrieved gold (Some k) = 0 <-> no_relevant)
  /\ (calculate_ndcg retrieved gold (Some k) = 0 <-> no_relevant)
  /\ ((k <= Z.of_nat (length retrieved))%Z ->
      calculate_precision_at_k retrieved gold (Some k) = 0 <-> no_relevant).
Proof.
  intros no_relevant Hk Hne. unfold no_relevant.
  set (gold_ids := _get_gold_ids gold) in *.
  assert (Hsz : size gold_ids <> 0%nat).
  { intros Hsz. by apply gold_set_empty in Hsz. }
  rewrite <- count_relevant_zero.
  set (top := take (Z.to_nat k) retrieved).
  assert (Hcount : forall b : R, 0 < b ->
            INR (count_relevant gold_ids top) / b = 0
            <-> count_relevant gold_ids top = 0%nat).
  { intros b Hb. rewrite div_zero_iff by done. split.
    - intros H. by apply INR_eq.
    - by intros ->. }
  split; [|split].
  - unfold calculate_recall_at_k, effective_k. fold gold_ids.
    rewrite (proj2 (Nat.eqb_neq _ _) Hsz).
    rewrite slice_to_nonneg by lia. fold top.
    apply Hcount. apply lt_0_INR. lia.
  - unfold calculate_ndcg, effective_k. fold gold_ids.
    rewrite dcg_loop_sum, idcg_loop_sum, slice_to_nonneg by lia. fold top.
    set (m := Z.to_nat _).
    assert (Hpos : 0 < Spec.big_sum (map discount (seq 0 m))).
    { assert (Hm : (0 < m)%nat) by (unfold m; lia).
      destruct m as [|m']; [lia|]. simpl.
      pose proof (discount_pos 0). pose proof (big_sum_discount_nonneg 1 m'). lra. }
    destruct (Req_dec_T _ 0) as [H0|_]; [lra|].
    rewrite div_zero_iff by done. unfold enumerate. split.
    + intros Hsum. destruct (count_relevant gold_ids top) eqn:Hc; [done|].
      pose proof (gain_sum_pos gold_ids top 0) as Hgain.
      rewrite Hc in Hgain. specialize (Hgain ltac:(lia)). lra.
    + intros Hc. apply gain_sum_none. by apply count_relevant_zero.
  - intros _. unfold calculate_precision_at_k, effective_k. fold gold_ids.
    rewrite (proj2 (Z.ltb_lt 0 k)) by done.
    rewrite slice_to_nonneg by lia. fold top.
    apply Hcount. by apply IZR_lt.
Qed.

Lemma metrics_zero_iff_no_relevant_witness :
  calculate_ndcg Examples.retrieved_ABC Examples.gold_B (Some 1%Z) = 0
  <-> calculate_precision_at_k Examples.retrieved_ABC Examples.gold_B (Some 1%Z) = 0.
Proof.
  destruct (metrics_zero_iff_no_relevant Examples.retrieved_ABC Examples.gold_B 1%Z)
    as (_ & Hn & Hp).
  - lia.
  - vm_compute. discriminate.
  - rewrite Hn, Hp; [reflexivity|]. simpl. lia.
Defined.

End evaluator_extras3.

Section batch_extras.
Import RetrievalEvaluator.

(** [calculate_ndcg_multiple_k] returns exactly the nDCG entries of
    [calculate_all_metrics]: a key maps to a value in it exactly when the
    key is "ndcg@k" for a k of [k_values] and the value is the nDCG at k,
    and then [calculate_all_metrics] maps the key to the same value. *)
Theorem ndcg_multiple_k_is_ndcg_part
  (retrieved : list doc) (gold : list evidence) (k_values : list Z)
  (key : string) (v : R) :
  (PyDict.get key (calculate_ndcg_multiple_k retrieved gold k_values) = Some v
   <-> exists k, k ∈ k_values /\ key = metric_key "ndcg" k
                 /\ v = calculate_ndcg retrieved gold (Some k))
  /\ (PyDict.get key (calculate_ndcg_multiple_k retrieved gold k_values) = Some v
      -> PyDict.get key (calculate_all_metrics retrieved gold k_values) = Some v).
Proof.
  assert (H : PyDict.get key (calculate_ndcg_multiple_k retrieved gold k_values)
              = Some v
              <-> exists k, k ∈ k_values /\ key = metric_key "ndcg" k
                            /\ v = calculate_ndcg retrieved gold (Some k)).
  { unfold calculate_ndcg_multiple_k. rewrite store_metric_get. simpl. split.
    - intros [?|[_ ?]]; done.
    - intros ?. by left. }
  split; [exact H|].
  intros (k & Hk & -> & ->)%H. unfold calculate_all_metrics.
  rewrite !store_metric_get.
  right. split; [intros k' _ Hkey; by apply metric_key_ndcg_recall in Hkey|].
  right. split; [intros k' _ Hkey; by apply metric_key_ndcg_precision in Hkey|].
  left. by exists k.
Qed.

Lemma store_metric_keys metric f (k_values : list Z) (results : list (string * R)) :
  NoDup k_values ->
  (forall k, k ∈ k_values -> metric_key metric k ∉ PyDict.keys results) ->
  PyDict.keys (store_metric metric f k_values results)
  = PyDict.keys results ++ map (metric_key metric) k_values.
Proof.
  intros Hnd. revert results.
  induction Hnd as [|k ks Hk Hnd IH]; intros results Hfresh.
  - simpl. by rewrite app_nil_r.
  - rewrite store_metric_cons, IH.
    + rewrite dict_keys_set_absent.
      * by rewrite <- app_assoc.
      * apply not_true_is_false. rewrite dict_contains_keys.
        apply Hfresh. by left.
    + intros k' Hk'. rewrite dict_keys_set_absent.
      * rewrite elem_of_app, list_elem_of_singleton. intros [Hin|Heq].
        -- apply (Hfresh k'); [by right|done].
        -- apply metric_key_inj in Heq. by subst.
      * apply not_true_is_false. rewrite dict_contains_keys.
        apply Hfresh. by left.
Qed.

(** X10: For k values without repetition, the keys of [calculate_all_metrics]
    come in the order of the three loops: all the nDCG keys, then all the
    precision keys, then all the recall keys, each in the order of
    [k_values]. *)
Theorem calculate_all_metrics_key_order
  (retrieved : list doc) (gold : list evidence) (k_values : list Z) :
  NoDup k_values ->
  PyDict.keys (calculate_all_metrics retrieved gold k_values)
  = map (metric_key "ndcg") k_values
    ++ map (metric_key "precision") k_values
    ++ map (metric_key "recall") k_values.
Proof.
  intros Hnd. unfold calculate_all_metrics.
  rewrite !store_metric_keys; try done.
  - by rewrite <- app_assoc.
  - intros k _ Hin. by apply elem_of_nil in Hin.
  - intros k _. rewrite store_metric_keys; [|done|].
    + simpl. intros (k' & Heq & _)%list_elem_of_fmap.
      unfold metric_key in Heq; simpl in Heq; discriminate.
    + intros k' _ Hin. by apply elem_of_nil in Hin.
  - intros k _. rewrite !store_metric_keys; try done.
    + simpl. rewrite elem_of_app.
      intros [(k' & Heq & _)%list_elem_of_fmap|(k' & Heq & _)%list_elem_of_fmap].
      * unfold metric_key in Heq. simpl in Heq. discriminate.
      * unfold metric_key in Heq. simpl in Heq. discriminate.
    + intros k' _ Hin. by apply elem_of_nil in Hin.
    + intros k' _. rewrite store_metric_keys; [|done|].
      * simpl. intros (k'' & Heq & _)%list_elem_of_fmap.
        unfold metric_key in Heq; simpl in Heq; discriminate.
      * intros k'' _ Hin. by apply elem_of_nil in Hin.
Qed.

Lemma calculate_all_metrics_key_order_witness :
  PyDict.keys
    (calculate_all_metrics Examples.retrieved_ABC Examples.gold_B [1; 3; 5]%Z)
  = ["ndcg@1"; "ndcg@3"; "ndcg@5"; "precision@1"; "precision@3";
     "precision@5"; "recall@1"; "recall@3"; "recall@5"].
Proof.
  apply (calculate_all_metrics_key_order
           Examples.retrieved_ABC Examples.gold_B [1; 3; 5]%Z).
  apply (bool_decide_unpack _). vm_compute. exact I.
Defined.

End batch_extras.

(** ** The query normalizer *)

Section normalizer_extras.
Import ConversationRetrievalProcessor.

Implicit Types (s w : list ascii) (c : ascii) (p : ascii -> bool).

Lemma lstrip_by_Forall (P : ascii -> Prop) p s :
  Forall P s -> Forall P (PyStr.lstrip_by p s).
Proof.
  induction 1 as [|c s Hc Hs IH]; simpl; [constructor|].
  destruct (p c); [done|by constructor].
Qed.

Lemma strip_by_Forall (P : ascii -> Prop) p s :
  Forall P s -> Forall P (PyStr.strip_by p s).
Proof.
  intros Hs. unfold PyStr.strip_by, PyStr.rstrip_by.
  apply Forall_rev, lstrip_by_Forall, Forall_rev. by apply lstrip_by_Forall.
Qed.

(** The words that survive are not empty, free of white space, in lower
    case, and carry no punctuation at their ends. *)
Lemma surviving_words s :
  Forall (fun w => word w /\ Forall (fun c => PyStr.lower_char c = c) w
                   /\ Spec.clean_token w)
    (surviving s).
Proof.
  unfold surviving. rewrite filter_word_loop. simpl.
  pose proof (lowered_words (PyStr.strip s)) as Hwords.
  induction Hwords as [|w ws [[Hne Hsp] Hlow] _ IH]; simpl; [constructor|].
  destruct (Spec.keep_token w); simpl; [|done].
  destruct (PyStr.strip_chars ".,!?;:" w) as [|c w'] eqn:Hstrip; simpl; [done|].
  constructor; [|done]. rewrite <- Hstrip. split; [|split].
  - split; [by rewrite Hstrip|]. by apply strip_by_Forall.
  - by apply strip_by_Forall.
  - apply strip_by_idemp.
Qed.

(** One pass over a query that is already a list of keywords. *)
Lemma preprocess_query_keywords (ws : list (list ascii)) :
  Forall (fun w => word w /\ Forall (fun c => PyStr.lower_char c = c) w
                   /\ Spec.clean_token w) ws ->
  surviving (PyStr.join [" "%char] ws) = List.filter Spec.keep_token ws
  /\ PyStr.strip (PyStr.join [" "%char] ws) = PyStr.join [" "%char] ws.
Proof.
  intros Hws.
  assert (Hw : Forall word ws) by (eapply Forall_impl; [exact Hws|]; by intros w' (? & ? & ?)).
  assert (Hl : Forall (Forall (fun c => PyStr.lower_char c = c)) ws)
    by (eapply Forall_impl; [exact Hws|]; by intros w' (? & ? & ?)).
  assert (Hc : Forall Spec.clean_token ws)
    by (eapply Forall_impl; [exact Hws|]; by intros w' (? & ? & ?)).
  split; [|by apply strip_join].
  unfold surviving. rewrite strip_join by done.
  rewrite lower_id by (apply Forall_join; [by repeat constructor|done]).
  rewrite split_join by done. by apply surviving_clean.
Qed.

Lemma preprocess_query_of_list s :
  _preprocess_query (string_of_list_ascii s)
  = if (length (surviving s) <? 2)%nat
    then string_of_list_ascii (PyStr.strip s)
    else string_of_list_ascii (PyStr.join [" "%char] (surviving s)).
Proof.
  rewrite preprocess_query_surviving.
  by rewrite list_ascii_of_string_of_list_ascii.
Qed.

(** A query that the normalizer returns trimmed is a fixed point. *)
Lemma preprocess_query_fallback_fixed s :
  (length (surviving s) <? 2)%nat = true ->
  _preprocess_query (string_of_list_ascii (PyStr.strip s))
  = string_of_list_ascii (PyStr.strip s).
Proof.
  intros Hlen. rewrite preprocess_query_of_list.
  by rewrite surviving_strip, strip_idemp, Hlen.
Qed.

(** A list of keywords all of which pass the filter is a fixed point. *)
Lemma preprocess_query_keywords_fixed (ws : list (list ascii)) :
  Forall (fun w => word w /\ Forall (fun c => PyStr.lower_char c = c) w
                   /\ Spec.clean_token w) ws ->
  List.filter Spec.keep_token ws = ws ->
  _preprocess_query (string_of_list_ascii (PyStr.join [" "%char] ws))
  = string_of_list_ascii (PyStr.join [" "%char] ws).
Proof.
  intros Hws Hkeep. destruct (preprocess_query_keywords ws Hws) as [Hs Hstrip].
  rewrite preprocess_query_of_list, Hs, Hkeep, Hstrip.
  by destruct (length ws <? 2)%nat.
Qed.

Lemma join_words_inj (ws1 ws2 : list (list ascii)) :
  Forall word ws1 -> Forall word ws2 ->
  PyStr.join [" "%char] ws1 = PyStr.join [" "%char] ws2 -> ws1 = ws2.
Proof.
  intros H1 H2 Heq. rewrite <- (split_join ws1 H1), <- (split_join ws2 H2).
  by rewrite Heq.
Qed.

Lemma string_of_list_ascii_inj (s1 s2 : list ascii) :
  string_of_list_ascii s1 = string_of_list_ascii s2 -> s1 = s2.
Proof.
  intros Heq.
  rewrite <- (list_ascii_of_string_of_list_ascii s1),
    <- (list_ascii_of_string_of_list_ascii s2).
  by rewrite Heq.
Qed.

(** C5, amended: query normalization is idempotent exactly on the queries
    that the second pass cannot shorten.  With F the tokens that survive
    the first pass (the tokens that are neither stop words nor of length
    at most 2, with the punctuation stripped from their ends, the empty
    ones dropped) and F' the tokens of F that are neither stop words nor
    of length at most 2, normalize(normalize(q)) = normalize(q) if and
    only if F has fewer than two tokens, or F' has fewer than two tokens,
    or F' = F. *)
Theorem preprocess_query_idempotent_iff (query : string) :
  let F := surviving (list_ascii_of_string query) in
  let F' := List.filter Spec.keep_token F in
  _preprocess_query (_preprocess_query query) = _preprocess_query query
  <-> (length F < 2)%nat \/ (length F' < 2)%nat \/ F' = F.
Proof.
  intros F F'. rewrite (preprocess_query_surviving query). fold F.
  destruct (length F <? 2)%nat eqn:Hlen.
  - rewrite preprocess_query_fallback_fixed by done.
    split; [|done]. intros _. left. by apply Nat.ltb_lt.
  - pose proof (surviving_words (list_ascii_of_string query)) as HF. fold F in HF.
    destruct (preprocess_query_keywords F HF) as [Hs Hstrip].
    rewrite (preprocess_query_of_list (PyStr.join _ F)), Hs, Hstrip. fold F'.
    apply Nat.ltb_ge in Hlen.
    destruct (length F' <? 2)%nat eqn:Hlen2.
    + split; [|done]. intros _. right. left. by apply Nat.ltb_lt.
    + apply Nat.ltb_ge in Hlen2. split.
      * intros Heq. right. right.
        apply string_of_list_ascii_inj in Heq.
        assert (Hwords : Forall word F)
          by (eapply Forall_impl; [exact HF|]; by intros w (? & _)).
        apply join_words_inj; [|done|done].
        unfold F'. by apply filter_Forall.
      * intros [Hlt|[Hlt|Heq]]; [lia|lia|]. by rewrite Heq.
Qed.

Lemma preprocess_query_idempotent_iff_witness :
  _preprocess_query (_preprocess_query "What is the capital of France?")
  = _preprocess_query "What is the capital of France?".
Proof.
  apply (preprocess_query_idempotent_iff "What is the capital of France?").
  right. right. vm_compute. reflexivity.
Defined.

(** X11: Normalization settles after two passes: a third pass changes nothing. *)
Theorem preprocess_query_settles_after_two_passes (query : string) :
  _preprocess_query (_preprocess_query (_preprocess_query query))
  = _preprocess_query (_preprocess_query query).
Proof.
  rewrite (preprocess_query_surviving query).
  set (l := list_ascii_of_string query).
  destruct (length (surviving l) <? 2)%nat eqn:Hlen.
  - by rewrite !preprocess_query_fallback_fixed.
  - pose proof (surviving_words l) as HF. set (F := surviving l) in *.
    destruct (preprocess_query_keywords F HF) as [Hs Hstrip].
    rewrite (preprocess_query_of_list (PyStr.join _ F)), Hs, Hstrip.
    destruct (length (List.filter Spec.keep_token F) <? 2)%nat eqn:Hlen2.
    + by rewrite preprocess_query_of_list, Hs, Hlen2, Hstrip.
    + apply preprocess_query_keywords_fixed.
      * by apply filter_Forall.
      * apply filter_all, filter_kept.
Qed.

End normalizer_extras.

Section normalizer_extras2.
Import ConversationRetrievalProcessor.

Implicit Types (s t w : list ascii) (c : ascii) (p : ascii -> bool).

(** X12: The result of the normalizer has no white space at its ends, and the
    white space at the ends of the query does not change the result. *)
Theorem preprocess_query_trims (query : string) :
  PyStr.strip (list_ascii_of_string (_preprocess_query query))
  = list_ascii_of_string (_preprocess_query query)
  /\ _preprocess_query
       (string_of_list_ascii (PyStr.strip (list_ascii_of_string query)))
     = _preprocess_query query.
Proof.
  split.
  - rewrite preprocess_query_surviving.
    destruct (length _ <? 2)%nat; rewrite list_ascii_of_string_of_list_ascii.
    + apply strip_idemp.
    + apply strip_join. eapply Forall_impl; [apply surviving_words|].
      by intros w (? & _).
  - rewrite preprocess_query_of_list, preprocess_query_surviving.
    by rewrite surviving_strip, strip_idemp.
Qed.

(** *** Splitting ignores the white space at the ends and the case *)

Lemma split_lstrip s : PyStr.split (PyStr.lstrip_by PyStr.is_space s) = PyStr.split s.
Proof.
  induction s as [|c s IH]; [done|]. simpl PyStr.lstrip_by.
  destruct (PyStr.is_space c) eqn:E; [|done].
  by rewrite split_cons_space.
Qed.

Lemma split_spaces t :
  Forall (fun c => PyStr.is_space c = true) t -> PyStr.split t = [].
Proof.
  induction 1 as [|c t Hc Ht IH]; [done|]. by rewrite split_cons_space.
Qed.

Lemma split_app_spaces s t :
  Forall (fun c => PyStr.is_space c = true) t ->
  PyStr.split (s ++ t) = PyStr.split s.
Proof.
  intros Ht. induction s as [|c s IH]; [by apply split_spaces|].
  destruct (PyStr.is_space c) eqn:E.
  - simpl app. by rewrite !split_cons_space.
  - destruct s as [|c' s].
    + simpl app. destruct Ht as [|c' t Hc' Ht].
      * done.
      * rewrite split_cons_end by done. rewrite split_cons_last by done.
        by rewrite split_spaces.
    + simpl app in *. destruct (PyStr.is_space c') eqn:E'.
      * rewrite !split_cons_end by done.
        rewrite !split_cons_space in IH by done. by rewrite IH.
      * rewrite !split_cons_more by done. by rewrite IH.
Qed.

Lemma lstrip_by_decompose p s :
  exists pre, s = pre ++ PyStr.lstrip_by p s /\ Forall (fun c => p c = true) pre.
Proof.
  induction s as [|c s (pre & Hs & Hpre)]; simpl.
  - exists []. by split.
  - destruct (p c) eqn:E.
    + exists (c :: pre). split; [simpl; by rewrite <- Hs|by constructor].
    + exists []. by split.
Qed.

Lemma split_rstrip s : PyStr.split (PyStr.rstrip_by PyStr.is_space s) = PyStr.split s.
Proof.
  unfold PyStr.rstrip_by.
  destruct (lstrip_by_decompose PyStr.is_space (rev s)) as (pre & Hs & Hpre).
  apply (f_equal (@rev ascii)) in Hs.
  rewrite rev_involutive, rev_app_distr in Hs.
  rewrite Hs at 2. symmetry. apply split_app_spaces. by apply Forall_rev.
Qed.

Lemma split_strip s : PyStr.split (PyStr.strip s) = PyStr.split s.
Proof.
  unfold PyStr.strip, PyStr.strip_by. by rewrite split_rstrip, split_lstrip.
Qed.

Lemma is_space_lower_char c : PyStr.is_space (PyStr.lower_char c) = PyStr.is_space c.
Proof. destruct c as [[] [] [] [] [] [] [] []]; reflexivity. Qed.

Lemma split_lower s :
  PyStr.split (PyStr.lower s) = map PyStr.lower (PyStr.split s).
Proof.
  induction s as [|c s IH]; [done|].
  change (PyStr.lower (c :: s)) with (PyStr.lower_char c :: PyStr.lower s).
  destruct (PyStr.is_space c) eqn:E.
  - rewrite !split_cons_space by (by rewrite ?is_space_lower_char). done.
  - destruct s as [|c' s].
    + simpl PyStr.lower.
      rewrite !split_cons_last by (by rewrite ?is_space_lower_char). done.
    + change (PyStr.lower (c' :: s)) with (PyStr.lower_char c' :: PyStr.lower s) in *.
      destruct (PyStr.is_space c') eqn:E'.
      * rewrite !split_cons_end by (by rewrite ?is_space_lower_char).
        rewrite !split_cons_space in IH by (by rewrite ?is_space_lower_char).
        by rewrite IH.
      * rewrite !split_cons_more by (by rewrite ?is_space_lower_char).
        rewrite IH. by destruct (PyStr.split (c' :: s)).
Qed.

Lemma length_surviving s :
  (length (surviving s) <= length (PyStr.split s))%nat.
Proof.
  unfold surviving. rewrite filter_word_loop. simpl.
  rewrite split_lower, split_strip.
  etrans; [apply List.filter_length_le|].
  rewrite length_map. etrans; [apply List.filter_length_le|].
  by rewrite length_map.
Qed.

(** X13: A query of fewer than two words (an empty or blank query, a single
    word) is returned trimmed and otherwise as it is: neither lower-cased
    nor filtered. *)
Theorem preprocess_query_short_query (query : string) :
  (length (PyStr.split (list_ascii_of_string query)) < 2)%nat ->
  _preprocess_query query
  = string_of_list_ascii (PyStr.strip (list_ascii_of_string query)).
Proof.
  intros Hlen. rewrite preprocess_query_surviving.
  pose proof (length_surviving (list_ascii_of_string query)) as Hle.
  rewrite (proj2 (Nat.ltb_lt _ 2)) by lia. done.
Qed.

Lemma preprocess_query_short_query_witness :
  _preprocess_query "   What?  "
  = string_of_list_ascii (PyStr.strip (list_ascii_of_string "   What?  ")).
Proof.
  apply (preprocess_query_short_query "   What?  ").
  vm_compute. lia.
Defined.

(** X14: On a query whose words carry no punctuation at their ends, the
    normalizer either returns the trimmed query (fewer than two words
    survive), or returns keywords only: no word of the result is a question
    word or has at most two characters. *)
Theorem preprocess_query_keeps_keywords_only (query : string) :
  Spec.clean_query query ->
  _preprocess_query query
  = string_of_list_ascii (PyStr.strip (list_ascii_of_string query))
  \/ Forall (fun w => Spec.keep_token w = true)
       (PyStr.split (list_ascii_of_string (_preprocess_query query))).
Proof.
  intros Hclean. unfold Spec.clean_query in Hclean.
  rewrite preprocess_query_surviving.
  set (l := list_ascii_of_string query) in *.
  destruct (length (surviving l) <? 2)%nat; [by left|right].
  rewrite list_ascii_of_string_of_list_ascii.
  pose proof (surviving_words l) as HF.
  rewrite split_join by (eapply Forall_impl; [exact HF|]; by intros w (? & _)).
  unfold surviving. rewrite surviving_clean; [apply filter_kept| |done].
  eapply Forall_impl; [apply lowered_words|]. by intros w (? & _).
Qed.

Lemma preprocess_query_keeps_keywords_only_witness :
  _preprocess_query "What is the capital of France"
  = string_of_list_ascii
      (PyStr.strip (list_ascii_of_string "What is the capital of France"))
  \/ Forall (fun w => Spec.keep_token w = true)
       (PyStr.split
          (list_ascii_of_string
             (_preprocess_query "What is the capital of France"))).
Proof.
  apply (preprocess_query_keeps_keywords_only "What is the capital of France").
  unfold Spec.clean_query, Spec.clean_token. vm_compute. repeat constructor.
Defined.

End normalizer_extras2.

(** ** Scoring the labels of a turn *)

Section label_extras.
Import ConversationRetrievalProcessor.

Implicit Types (d : list (string * value)) (search_results : list doc)
  (k_values : list Z).

Lemma write_metrics_loop (metrics : list (string * R)) d :
  fold_left
    (fun (label : M value) '(metric_name, score) =>
       let* label := label in
       lift (py_setitem label metric_name (VFloat score)))
    metrics (ret (VDict d))
  = ret (VDict (add_metrics metrics d)).
Proof.
  revert d. induction metrics as [|[name v] metrics IH]; intros d; [done|].
  cbn [fold_left]. rewrite bind_ret. apply IH.
Qed.

(** What [score_label] does to a label that is an object. *)
Lemma score_label_dict search_results k_values d :
  score_label search_results k_values (VDict d)
  = match PyDict.get "evidence" d with
    | None => ret (VDict d)
    | Some gold_evidence =>
        match k_values with
        | [] => ret (VDict d)
        | _ =>
            match gold_of_value gold_evidence with
            | None => raise
            | Some gold =>
                ret (VDict
                       (add_metrics
                          (RetrievalEvaluator.calculate_all_metrics
                             search_results gold k_values) d))
            end
        end
    end.
Proof.
  unfold score_label. simpl py_contains. unfold PyDict.contains.
  simpl py_getitem. destruct (PyDict.get "evidence" d) as [ev|]; [|reflexivity].
  rewrite bind_lift_Some. simpl negb. cbv iota. rewrite bind_lift_Some.
  destruct k_values as [|k ks].
  - by rewrite bind_ret.
  - destruct (gold_of_value ev) as [gold|]; [|reflexivity].
    rewrite bind_lift_Some, bind_ret. apply write_metrics_loop.
Qed.

Lemma score_label_pure search_results k_values (label : value) :
  calls_of (score_label search_results k_values label) = [].
Proof.
  destruct label as [| | | | s |l|d];
    try (unfold score_label; simpl; done).
  - unfold score_label. simpl.
    by destruct (PyStr.is_substring "evidence" s).
  - unfold score_label. simpl.
    by destruct (existsb (is_str "evidence") l).
  - rewrite score_label_dict.
    destruct (PyDict.get "evidence" d); [|done].
    destruct k_values; [done|]. by destruct (gold_of_value _).
Qed.

Lemma for_each_pure {A B : Type} (f : A -> M B) (l : list A) :
  (forall a, calls_of (f a) = []) -> calls_of (for_each f l) = [].
Proof.
  intros Hf. induction l as [|a l IH]; [done|]. simpl.
  specialize (Hf a). destruct (f a) as [calls [b|]]; simpl in *; subst; [|done].
  destruct (for_each f l) as [calls' [bs|]]; simpl in *; subst; done.
Qed.

Lemma calculate_metrics_for_labels_pure (labels : value) search_results k_values :
  calls_of (_calculate_metrics_for_labels labels search_results k_values) = [].
Proof.
  unfold _calculate_metrics_for_labels.
  destruct (py_iter labels) as [items|]; [|done].
  rewrite bind_lift_Some.
  pose proof (for_each_pure (score_label search_results k_values) items
                (score_label_pure search_results k_values)) as Hpure.
  destruct (for_each _ items) as [calls [items'|]]; simpl in *; subst; [|done].
  by destruct labels.
Qed.

Lemma add_metrics_get (metrics : list (string * R)) d (key : string) :
  NoDup (PyDict.keys metrics) ->
  PyDict.get key (add_metrics metrics d)
  = match PyDict.get key metrics with
    | Some score => Some (VFloat score)
    | None => PyDict.get key d
    end.
Proof.
  intros Hnd. revert d.
  induction metrics as [|[name v] metrics IH]; intros d; [done|].
  apply NoDup_cons in Hnd as [Hname Hnd].
  change (add_metrics ((name, v) :: metrics) d)
    with (add_metrics metrics (PyDict.set name (VFloat v) d)).
  rewrite IH by done. simpl.
  destruct (String.eqb name key) eqn:E.
  - apply String.eqb_eq in E. subst key.
    apply dict_get_None_keys in Hname. simpl in Hname. rewrite Hname.
    apply dict_get_set_eq.
  - apply String.eqb_neq in E.
    destruct (PyDict.get key metrics); [done|]. by apply dict_get_set_ne.
Qed.

Lemma add_metrics_keys_present (metrics : list (string * R)) d (key : string) :
  key ∈ PyDict.keys d -> key ∈ PyDict.keys (add_metrics metrics d).
Proof.
  revert d. induction metrics as [|[name v] metrics IH]; intros d Hkey; [done|].
  apply IH. rewrite dict_keys_set. destruct (PyDict.contains name d); [done|].
  apply elem_of_app. by left.
Qed.

Lemma for_each_Forall2 {A B : Type} (f : A -> M B) (l : list A) (l' : list B) :
  result_of (for_each f l) = Some l' ->
  Forall2 (fun a b => result_of (f a) = Some b) l l'.
Proof.
  revert l'. induction l as [|a l IH]; intros l' H.
  - injection H as <-. constructor.
  - simpl in H. apply result_of_bind_Some in H as (b & Hb & H).
    apply result_of_bind_Some in H as (bs & Hbs & H).
    injection H as <-. constructor; [done|]. by apply IH.
Qed.

(** X15: Scoring keeps the labels in place, skips the labels without
    [evidence], and adds the metrics to the others without touching their
    other fields: when [_calculate_metrics_for_labels] returns for a list
    of labels, the list has the same length; a label without [evidence] is
    unchanged; and in a label that is an object with a well-formed
    [evidence] list, every key of [calculate_all_metrics] holds its score
    and every other field holds the value it had. *)
Theorem scored_labels
  (l : list value) search_results k_values (labels' : value) :
  result_of (_calculate_metrics_for_labels (VList l) search_results k_values)
  = Some labels' ->
  exists l',
    labels' = VList l'
    /\ length l' = length l
    /\ forall (i : nat) (label : value),
         l !! i = Some label ->
         (py_contains "evidence" label = Some false -> l' !! i = Some label)
         /\ (forall d gold_evidence gold,
               label = VDict d ->
               PyDict.get "evidence" d = Some gold_evidence ->
               gold_of_value gold_evidence = Some gold ->
               exists d',
                 l' !! i = Some (VDict d')
                 /\ forall key,
                      PyDict.get key d'
                      = match PyDict.get key
                                (RetrievalEvaluator.calculate_all_metrics
                                   search_results gold k_values) with
                        | Some score => Some (VFloat score)
                        | None => PyDict.get key d
                        end).
Proof.
  intros H. unfold _calculate_metrics_for_labels in H. simpl py_iter in H.
  rewrite bind_lift_Some in H.
  apply result_of_bind_Some in H as (l' & Hl' & H). injection H as <-.
  apply for_each_Forall2 in Hl'.
  exists l'. split; [done|]. split; [symmetry; by eapply Forall2_length|].
  intros i label Hi.
  destruct (Forall2_lookup_l _ _ _ _ _ Hl' Hi) as (label' & Hi' & Hlabel).
  split.
  - intros Hno. unfold score_label in Hlabel.
    rewrite Hno, bind_lift_Some in Hlabel. simpl in Hlabel. congruence.
  - intros d ev gold -> Hev Hgold.
    rewrite score_label_dict, Hev, Hgold in Hlabel.
    exists (add_metrics
              (RetrievalEvaluator.calculate_all_metrics search_results gold k_values)
              d).
    split.
    + destruct k_values; simpl in Hlabel; injection Hlabel as <-; exact Hi'.
    + intros key. apply add_metrics_get.
      unfold RetrievalEvaluator.calculate_all_metrics.
      do 3 apply store_metric_NoDup. apply NoDup_nil_2.
Qed.

End label_extras.

Section label_witness.
Import ConversationRetrievalProcessor.

Lemma scored_labels_witness :
  exists labels' l',
    result_of (_calculate_metrics_for_labels
                 (VList [VDict [("evidence", VList [VStr "B"])];
                         VDict [("responseType", VStr "clarification")]])
                 Examples.retrieved_ABC [1; 3]%Z)
    = Some labels'
    /\ labels' = VList l' /\ length l' = 2%nat.
Proof.
  assert (H : exists labels',
    result_of (_calculate_metrics_for_labels
                 (VList [VDict [("evidence", VList [VStr "B"])];
                         VDict [("responseType", VStr "clarification")]])
                 Examples.retrieved_ABC [1; 3]%Z)
    = Some labels').
  { vm_compute. eexists. reflexivity. }
  destruct H as [labels' H].
  destruct (scored_labels _ Examples.retrieved_ABC [1; 3]%Z labels' H)
    as (l' & Hl & Hlen & _).
  exists labels', l'. split; [exact H|]. split; [exact Hl|exact Hlen].
Defined.

(** A gold passage whose id is a number is scored like any other: the id
    goes into the gold set, where no retrieved passage matches it. *)
Example numeric_passage_id_is_scored :
  gold_of_value (VList [VDict [("passage_id", VInt 7)]; VStr "B"])
  = Some [EvDict (Some (HNum 7)); EvStr "B"]
  /\ size (RetrievalEvaluator._get_gold_ids
             [EvDict (Some (HNum 7)); EvStr "B"]) = 2%nat
  /\ succeeds (_calculate_metrics_for_labels
                 (VList [Examples.label_numeric_id]) Examples.retrieved_ABC [1; 3]%Z).
Proof.
  split; [reflexivity|]. split.
  - vm_compute. reflexivity.
  - vm_compute. by eexists.
Qed.

End label_witness.

(** ** Processing one turn *)

Section turn_extras.
Import ConversationRetrievalProcessor.
Variable search : string -> Z -> option (list doc).

Implicit Types (d : list (string * value)) (k_values : list Z)
  (query_key : string) (calculate_ndcg : bool) (q : string).

Lemma get_contains {V : Type} key (dd : list (string * V)) (v : V) :
  PyDict.get key dd = Some v -> PyDict.contains key dd = true.
Proof. unfold PyDict.contains. by intros ->. Qed.

Lemma bind_calls {A B : Type} (calls : list backend_call) (a : A) (f : A -> M B) :
  bind (calls, Some a) f = (calls ++ calls_of (f a), result_of (f a)).
Proof. simpl. by destruct (f a). Qed.

(** What is left of [_process_single_turn] once the backend has answered:
    the new turn, with its labels scored when asked to. *)
Lemma process_single_turn_found d query_key k_values calculate_ndcg q
  (search_results : list doc) :
  PyDict.get query_key d = Some (VStr q) ->
  search (_preprocess_query q) 10 = Some search_results ->
  let new_turn := VDict (new_turn_fields d search_results (VStr q)) in
  let rest : M value :=
    let* score_labels :=
      if calculate_ndcg then lift (py_contains "labels" new_turn)
      else ret false in
    if score_labels : bool then
      let* labels := lift (py_getitem new_turn "labels") in
      let* labels :=
        _calculate_metrics_for_labels labels search_results k_values in
      lift (py_setitem new_turn "labels" labels)
    else ret new_turn in
  _process_single_turn search (VDict d) query_key k_values calculate_ndcg
  = ([(_preprocess_query q, 10%Z)] ++ calls_of rest, result_of rest).
Proof.
  intros Hq Hs new_turn rest. unfold _process_single_turn. simpl py_contains.
  rewrite (get_contains _ _ _ Hq), bind_lift_Some. simpl negb. cbv iota.
  simpl py_get. rewrite Hq, bind_lift_Some, bind_ret.
  unfold retriever_search. rewrite Hs, bind_calls.
  by rewrite (create_new_turn_structure_fields _ _ _ _ Hq), bind_ret.
Qed.

Lemma rest_pure d k_values calculate_ndcg (search_results : list doc) (v : value) :
  let new_turn := VDict (new_turn_fields d search_results v) in
  calls_of
    (let* score_labels :=
       if calculate_ndcg then lift (py_contains "labels" new_turn)
       else ret false in
     if score_labels : bool then
       let* labels := lift (py_getitem new_turn "labels") in
       let* labels :=
         _calculate_metrics_for_labels labels search_results k_values in
       lift (py_setitem new_turn "labels" labels)
     else ret new_turn : M value) = [].
Proof.
  intros new_turn.
  assert (Hscore : forall b : bool,
    calls_of
      (if b then
         let* labels := lift (py_getitem new_turn "labels") in
         let* labels :=
           _calculate_metrics_for_labels labels search_results k_values in
         lift (py_setitem new_turn "labels" labels)
       else ret new_turn : M value) = []).
  { intros [|]; [|done].
    destruct (py_getitem new_turn "labels") as [labels|]; [|done].
    rewrite bind_lift_Some.
    pose proof (calculate_metrics_for_labels_pure labels search_results k_values)
      as Hpure.
    destruct (_calculate_metrics_for_labels _ _ _) as [calls [labels'|]];
      simpl in *; subst; done. }
  destruct calculate_ndcg.
  - simpl py_contains. rewrite bind_lift_Some. apply Hscore.
  - rewrite bind_ret. apply (Hscore false).
Qed.

(** X17: A turn that has the query key makes one backend call, with the
    normalized query and [top_k = 10], and no other, whether or not the
    call and the scoring succeed; when the backend raises, the turn
    raises. *)
Theorem turn_calls_backend_once d query_key k_values calculate_ndcg q :
  PyDict.get query_key d = Some (VStr q) ->
  calls_of (_process_single_turn search (VDict d) query_key k_values calculate_ndcg)
  = [(_preprocess_query q, 10%Z)]
  /\ (search (_preprocess_query q) 10 = None ->
      result_of (_process_single_turn search (VDict d) query_key k_values
                   calculate_ndcg) = None).
Proof.
  intros Hq. destruct (search (_preprocess_query q) 10) as [results|] eqn:Hs.
  - rewrite (process_single_turn_found _ _ _ _ _ _ Hq Hs).
    split; [|done].
    pose proof (rest_pure d k_values calculate_ndcg results (VStr q)) as Hpure.
    cbv zeta in Hpure |- *. unfold calls_of at 1. cbn [fst].
    by rewrite Hpure.
  - unfold _process_single_turn. simpl py_contains.
    rewrite (get_contains _ _ _ Hq), bind_lift_Some. simpl negb. cbv iota.
    simpl py_get. rewrite Hq, bind_lift_Some, bind_ret.
    unfold retriever_search. rewrite Hs. done.
Qed.

(** X18: A query that is not a string makes the turn raise before the backend
    is called. *)
Theorem turn_with_non_string_query_raises d query_key k_values calculate_ndcg
  (v : value) :
  PyDict.get query_key d = Some v ->
  (forall q, v <> VStr q) ->
  _process_single_turn search (VDict d) query_key k_values calculate_ndcg
  = raise.
Proof.
  intros Hq Hv. unfold _process_single_turn. simpl py_contains.
  rewrite (get_contains _ _ _ Hq), bind_lift_Some. simpl negb. cbv iota.
  simpl py_get. rewrite Hq, bind_lift_Some.
  destruct v; try done. by destruct (Hv s).
Qed.

Lemma new_turn_fields_get d (search_results : list doc) (v : value) (key : string) :
  PyDict.get key (new_turn_fields d search_results v)
  = if String.eqb key "query" then PyDict.get "query" d
    else if String.eqb key "resolvedQuery" then Some v
    else if String.eqb key "retrieved_evidence"
         then Some (VList (map doc_to_value search_results))
    else if String.eqb key "labels" then PyDict.get "labels" d
    else None.
Proof.
  unfold new_turn_fields.
  destruct (String.eqb key "query") eqn:E1.
  { apply String.eqb_eq in E1. subst key.
    destruct (PyDict.get "query" d); destruct (PyDict.get "labels" d);
      reflexivity. }
  destruct (String.eqb key "resolvedQuery") eqn:E2.
  { apply String.eqb_eq in E2. subst key.
    destruct (PyDict.get "query" d); destruct (PyDict.get "labels" d);
      reflexivity. }
  destruct (String.eqb key "retrieved_evidence") eqn:E3.
  { apply String.eqb_eq in E3. subst key.
    destruct (PyDict.get "query" d); destruct (PyDict.get "labels" d);
      reflexivity. }
  destruct (String.eqb key "labels") eqn:E4.
  { apply String.eqb_eq in E4. subst key.
    destruct (PyDict.get "query" d); destruct (PyDict.get "labels" d);
      reflexivity. }
  rewrite String.eqb_sym in E1, E2, E3, E4.
  destruct (PyDict.get "query" d); destruct (PyDict.get "labels" d);
    cbn [PyDict.get app]; by rewrite ?E1, ?E2, ?E3, ?E4.
Qed.

(** X19: The contents of a processed turn: [resolvedQuery] holds the query as
    it was read, not normalized; [query] is copied from the input turn;
    [retrieved_evidence] holds the documents of the backend in the order
    of the backend; and without scoring [labels] is copied unchanged. *)
Theorem processed_turn_contents d query_key k_values calculate_ndcg q
  (search_results : list doc) (new_turn : value) :
  PyDict.get query_key d = Some (VStr q) ->
  search (_preprocess_query q) 10 = Some search_results ->
  result_of (_process_single_turn search (VDict d) query_key k_values
               calculate_ndcg) = Some new_turn ->
  exists d',
    new_turn = VDict d'
    /\ PyDict.get "resolvedQuery" d' = Some (VStr q)
    /\ PyDict.get "query" d' = PyDict.get "query" d
    /\ PyDict.get "retrieved_evidence" d'
       = Some (VList (map doc_to_value search_results))
    /\ (calculate_ndcg = false -> PyDict.get "labels" d' = PyDict.get "labels" d).
Proof.
  intros Hq Hs Hres.
  rewrite (process_single_turn_found _ _ _ _ _ _ Hq Hs) in Hres.
  unfold result_of at 1 in Hres. cbn [snd] in Hres. cbv zeta in Hres.
  set (d0 := new_turn_fields d search_results (VStr q)) in *.
  assert (Hd0 : PyDict.get "resolvedQuery" d0 = Some (VStr q)
                /\ PyDict.get "query" d0 = PyDict.get "query" d
                /\ PyDict.get "retrieved_evidence" d0
                   = Some (VList (map doc_to_value search_results))
                /\ PyDict.get "labels" d0 = PyDict.get "labels" d).
  { unfold d0. by rewrite !new_turn_fields_get. }
  destruct Hd0 as (H1 & H2 & H3 & H4).
  apply result_of_bind_Some in Hres as (score_labels & Hscore & Hres).
  destruct score_labels.
  - apply result_of_bind_Some in Hres as (labels & _ & Hres).
    apply result_of_bind_Some in Hres as (labels' & _ & Hres).
    simpl in Hres. injection Hres as <-.
    exists (PyDict.set "labels" labels' d0). split; [done|].
    rewrite !dict_get_set_ne by done. split; [done|]. split; [done|].
    split; [done|]. intros ->. done.
  - simpl in Hres. injection Hres as <-. exists d0. by repeat split.
Qed.

(** Without scoring, a turn whose query is a string and whose search
    succeeds is always processed. *)
Theorem turn_without_scoring_returns d query_key k_values q
  (search_results : list doc) :
  PyDict.get query_key d = Some (VStr q) ->
  search (_preprocess_query q) 10 = Some search_results ->
  succeeds (_process_single_turn search (VDict d) query_key k_values false).
Proof.
  intros Hq Hs. unfold succeeds.
  rewrite (process_single_turn_found _ _ _ _ _ _ Hq Hs). by eexists.
Qed.

End turn_extras.

Section turn_witnesses.
Import ConversationRetrievalProcessor.

Lemma turn_calls_backend_once_witness :
  calls_of (_process_single_turn Examples.search_flaky
              (VDict Examples.turn_labelled) "resolvedQuery" [1; 3; 5]%Z true)
  = [("the capital france", 10%Z)].
Proof.
  destruct (turn_calls_backend_once Examples.search_flaky
              Examples.turn_labelled "resolvedQuery" [1; 3; 5]%Z true
              "where is the capital of France" eq_refl) as [Hcalls _].
  exact Hcalls.
Defined.

Lemma turn_with_non_string_query_raises_witness :
  _process_single_turn Examples.search_flaky
    (VDict [("resolvedQuery", VInt 5)]) "resolvedQuery" [1; 3; 5]%Z true
  = raise.
Proof.
  apply (turn_with_non_string_query_raises Examples.search_flaky
           [("resolvedQuery", VInt 5)] "resolvedQuery" [1; 3; 5]%Z true (VInt 5)).
  - reflexivity.
  - intros q. discriminate.
Defined.

Lemma processed_turn_contents_witness :
  exists new_turn d',
    result_of (_process_single_turn Examples.search_flaky
                 (VDict Examples.turn_labelled) "resolvedQuery" [1; 3; 5]%Z true)
    = Some new_turn
    /\ new_turn = VDict d'
    /\ PyDict.get "resolvedQuery" d' = Some (VStr "where is the capital of France")
    /\ PyDict.get "query" d' = Some (VStr "where is it").
Proof.
  assert (H : exists new_turn,
    result_of (_process_single_turn Examples.search_flaky
                 (VDict Examples.turn_labelled) "resolvedQuery" [1; 3; 5]%Z true)
    = Some new_turn).
  { vm_compute. eexists. reflexivity. }
  destruct H as [new_turn H].
  destruct (processed_turn_contents Examples.search_flaky
              Examples.turn_labelled "resolvedQuery" [1; 3; 5]%Z true
              "where is the capital of France"
              [Examples.doc_of "p1"; Examples.doc_of "p2"] new_turn
              eq_refl eq_refl H)
    as (d' & Hd & Hq & Hquery & _).
  exists new_turn, d'. split; [exact H|]. split; [exact Hd|].
  split; [exact Hq|exact Hquery].
Defined.

Lemma turn_without_scoring_returns_witness :
  succeeds (_process_single_turn Examples.search_flaky
              (VDict Examples.turn_labelled) "resolvedQuery" [1; 3; 5]%Z false).
Proof.
  apply (turn_without_scoring_returns Examples.search_flaky
           Examples.turn_labelled "resolvedQuery" [1; 3; 5]%Z
           "where is the capital of France"
           [Examples.doc_of "p1"; Examples.doc_of "p2"]); reflexivity.
Defined.

End turn_witnesses.

(** ** Processing a dialogue and a dataset *)

Section driver_extras.
Import ConversationRetrievalProcessor.
Variable search : string -> Z -> option (list doc).

Implicit Types (d : list (string * value)) (k_values : list Z)
  (calculate_ndcg : bool).

Lemma dict_set_same {V : Type} (key : string) (v : V) (dd : list (string * V)) :
  PyDict.get key dd = Some v -> PyDict.set key v dd = dd.
Proof.
  induction dd as [|[k w] dd IH]; simpl; [done|].
  destruct (String.eqb k key) eqn:E.
  - by intros [= ->].
  - intros H. by rewrite IH.
Qed.

Lemma process_turns_list d (l : list value) k_values calculate_ndcg :
  PyDict.get "turns" d = Some (VList l) ->
  _process_turns search (VDict d) k_values calculate_ndcg
  = let* l' :=
      for_each
        (fun turn =>
           _process_single_turn search turn "resolvedQuery" k_values calculate_ndcg)
        l in
    ret (VDict (PyDict.set "turns" (VList l') d)).
Proof.
  intros Hturns. unfold _process_turns. simpl py_contains.
  rewrite (get_contains _ _ _ Hturns), bind_lift_Some. simpl negb. cbv iota.
  simpl py_getitem. rewrite Hturns, bind_lift_Some. done.
Qed.

(** X20: Processing a dialogue keeps its shape: when [_process_turns] returns
    for a dialogue whose [turns] is a list, the result is the dialogue
    with only its [turns] replaced, by a list of the same length in which
    every turn without [resolvedQuery] is the turn it was. *)
Theorem process_turns_keeps_shape d (l : list value) k_values calculate_ndcg
  (target_data' : value) :
  PyDict.get "turns" d = Some (VList l) ->
  result_of (_process_turns search (VDict d) k_values calculate_ndcg)
  = Some target_data' ->
  exists l',
    target_data' = VDict (PyDict.set "turns" (VList l') d)
    /\ length l' = length l
    /\ forall (i : nat) (turn : value),
         l !! i = Some turn ->
         py_contains "resolvedQuery" turn = Some false ->
         l' !! i = Some turn.
Proof.
  intros Hturns Hres. rewrite (process_turns_list _ _ _ _ Hturns) in Hres.
  apply result_of_bind_Some in Hres as (l' & Hl' & Hres).
  injection Hres as <-. apply for_each_Forall2 in Hl'.
  exists l'. split; [done|]. split; [symmetry; by eapply Forall2_length|].
  intros i turn Hi Hno.
  destruct (Forall2_lookup_l _ _ _ _ _ Hl' Hi) as (turn' & Hi' & Hturn).
  unfold _process_single_turn in Hturn.
  rewrite Hno, bind_lift_Some in Hturn. simpl in Hturn. congruence.
Qed.

Lemma for_each_succeeds {A B : Type} (f : A -> M B) (l : list A) :
  Forall (fun a => succeeds (f a)) l ->
  succeeds (for_each f l)
  /\ calls_of (for_each f l) = concat (map (fun a => calls_of (f a)) l).
Proof.
  induction 1 as [|a l [b Hb] _ [[bs Hbs] Hcalls]]; [by split; [eexists|]|].
  simpl. split.
  - unfold succeeds. rewrite (result_of_bind _ _ b Hb).
    rewrite (result_of_bind _ _ bs Hbs). by eexists.
  - rewrite (calls_of_bind _ _ b Hb). f_equal.
    rewrite (calls_of_bind _ _ bs Hbs), Hcalls. simpl. by rewrite app_nil_r.
Qed.

(** X21: A run in which every dialogue is processed without error produces
    the output, and its backend calls are those of the dialogues, in the
    order of the dataset. *)
Theorem all_dialogues_processed d calculate_ndcg k_values :
  Forall (fun item =>
            succeeds (_process_turns search (snd item) k_values calculate_ndcg))
    d ->
  succeeds (process_json_file search (VDict d) calculate_ndcg k_values)
  /\ calls_of (process_json_file search (VDict d) calculate_ndcg k_values)
     = concat
         (map (fun item =>
                 calls_of (_process_turns search (snd item) k_values calculate_ndcg))
            d).
Proof.
  intros Hall. rewrite process_json_file_loop.
  destruct (for_each_succeeds (dialogue_step search k_values calculate_ndcg) d)
    as [[d' Hd'] Hcalls].
  { eapply Forall_impl; [exact Hall|]. intros item [r Hr].
    unfold succeeds. rewrite dialogue_step_result, Hr. by eexists. }
  split.
  - unfold succeeds. rewrite (result_of_bind _ _ d' Hd'). by eexists.
  - rewrite (calls_of_bind _ _ d' Hd'). simpl. rewrite app_nil_r, Hcalls.
    f_equal. apply map_ext. intros item. apply dialogue_step_calls.
Qed.

(** X22: The output of a run has the dialogue ids of the input, in the same
    order; an input that is not an object raises. *)
Theorem process_json_file_keeps_dialogue_ids (data : value)
  calculate_ndcg k_values (output : value) :
  result_of (process_json_file search data calculate_ndcg k_values) = Some output ->
  exists d d',
    data = VDict d /\ output = VDict d' /\ PyDict.keys d' = PyDict.keys d.
Proof.
  intros Hres. destruct data as [| | | | | |d]; try done.
  rewrite process_json_file_loop in Hres.
  apply result_of_bind_Some in Hres as (d' & Hd' & Hres).
  injection Hres as <-. exists d, d'. split; [done|]. split; [done|].
  apply for_each_Forall2 in Hd'. unfold PyDict.keys.
  induction Hd' as [|item item' d d' Hitem _ IH]; [done|].
  simpl. rewrite IH. f_equal.
  rewrite dialogue_step_result in Hitem.
  destruct (result_of _) as [td|]; [|done]. simpl in Hitem. by injection Hitem as <-.
Qed.

Lemma for_each_ret {A : Type} (f : A -> M A) (l : list A) :
  Forall (fun a => f a = ret a) l -> for_each f l = ret l.
Proof.
  induction 1 as [|a l Ha _ IH]; [done|].
  simpl. by rewrite Ha, bind_ret, IH, bind_ret.
Qed.

Lemma process_turns_without_query (target_data : value) k_values calculate_ndcg :
  turns_without_query target_data ->
  _process_turns search target_data k_values calculate_ndcg = ret target_data.
Proof.
  intros (d & -> & Hturns).
  destruct (PyDict.get "turns" d) as [turns|] eqn:Hget.
  - destruct Hturns as (l & -> & Hl).
    rewrite (process_turns_list _ _ _ _ Hget).
    rewrite for_each_ret.
    + rewrite bind_ret. by rewrite dict_set_same.
    + eapply Forall_impl; [exact Hl|]. intros turn Hno.
      unfold _process_single_turn. by rewrite Hno, bind_lift_Some.
  - unfold _process_turns. simpl py_contains. unfold PyDict.contains.
    by rewrite Hget, bind_lift_Some.
Qed.

(** X23: A dataset without resolved queries is left as it is: when no turn of
    any dialogue has the [resolvedQuery] key, the run returns its input
    and never calls the backend. *)
Theorem dataset_without_queries_unchanged d calculate_ndcg k_values :
  Forall (fun item => turns_without_query (snd item)) d ->
  process_json_file search (VDict d) calculate_ndcg k_values = ret (VDict d).
Proof.
  intros Hall. rewrite process_json_file_loop.
  rewrite for_each_ret; [by rewrite bind_ret|].
  eapply Forall_impl; [exact Hall|]. intros [top_key target_data] Hno.
  unfold dialogue_step.
  by rewrite (process_turns_without_query _ _ _ Hno), bind_ret.
Qed.

End driver_extras.

Section driver_witnesses.
Import ConversationRetrievalProcessor.

Lemma process_turns_keeps_shape_witness :
  exists target_data' l',
    result_of (_process_turns Examples.search_flaky
                 (VDict [("id", VInt 7);
                         ("turns", VList [Examples.turn_without_key;
                                          VDict Examples.turn_labelled])])
                 [1; 3; 5]%Z true)
    = Some target_data'
    /\ length l' = 2%nat
    /\ l' !! 0%nat = Some Examples.turn_without_key.
Proof.
  assert (H : exists target_data',
    result_of (_process_turns Examples.search_flaky
                 (VDict [("id", VInt 7);
                         ("turns", VList [Examples.turn_without_key;
                                          VDict Examples.turn_labelled])])
                 [1; 3; 5]%Z true)
    = Some target_data').
  { vm_compute. eexists. reflexivity. }
  destruct H as [target_data' H].
  destruct (process_turns_keeps_shape Examples.search_flaky
              [("id", VInt 7);
               ("turns", VList [Examples.turn_without_key;
                                VDict Examples.turn_labelled])]
              [Examples.turn_without_key; VDict Examples.turn_labelled]
              [1; 3; 5]%Z true target_data' eq_refl H)
    as (l' & _ & Hlen & Hkeep).
  exists target_data', l'. split; [exact H|]. split; [exact Hlen|].
  apply (Hkeep 0%nat Examples.turn_without_key); reflexivity.
Defined.

Lemma all_dialogues_processed_witness :
  succeeds (process_json_file Examples.search_flaky
              (VDict [("d2", Examples.dialogue_second)]) true [1; 3; 5]%Z)
  /\ calls_of (process_json_file Examples.search_flaky
                 (VDict [("d2", Examples.dialogue_second)]) true [1; 3; 5]%Z)
     = [("second question here", 10%Z)].
Proof.
  apply (all_dialogues_processed Examples.search_flaky
           [("d2", Examples.dialogue_second)] true [1; 3; 5]%Z).
  constructor; [|constructor]. vm_compute. eexists. reflexivity.
Defined.

Lemma process_json_file_keeps_dialogue_ids_witness :
  exists output d',
    result_of (process_json_file Examples.search_flaky
                 Examples.one_query_dataset true [1; 3; 5]%Z) = Some output
    /\ output = VDict d' /\ PyDict.keys d' = ["d1"].
Proof.
  assert (H : exists output,
    result_of (process_json_file Examples.search_flaky
                 Examples.one_query_dataset true [1; 3; 5]%Z) = Some output).
  { vm_compute. eexists. reflexivity. }
  destruct H as [output H].
  destruct (process_json_file_keeps_dialogue_ids Examples.search_flaky
              Examples.one_query_dataset true [1; 3; 5]%Z output H)
    as (d & d' & Hd & Hout & Hkeys).
  exists output, d'. split; [exact H|]. split; [exact Hout|].
  rewrite Hkeys. unfold Examples.one_query_dataset in Hd.
  injection Hd as <-. reflexivity.
Defined.

Lemma dataset_without_queries_unchanged_witness :
  process_json_file Examples.search_down
    (VDict [("d1", VDict [("turns", VList [Examples.turn_without_key])]);
            ("d2", VDict [("title", VStr "no turns")])])
    true [1; 3; 5]%Z
  = ret (VDict [("d1", VDict [("turns", VList [Examples.turn_without_key])]);
                ("d2", VDict [("title", VStr "no turns")])]).
Proof.
  apply (dataset_without_queries_unchanged Examples.search_down
           [("d1", VDict [("turns", VList [Examples.turn_without_key])]);
            ("d2", VDict [("title", VStr "no turns")])] true [1; 3; 5]%Z).
  constructor; [|constructor; [|constructor]].
  - eexists. split; [reflexivity|]. simpl.
    eexists. split; [reflexivity|]. constructor; [reflexivity|constructor].
  - eexists. split; [reflexivity|]. simpl. exact I.
Defined.

End driver_witnesses.
(** ** The scorer kept for backward compatibility *)

Section legacy_scorer.
Import ConversationRetrievalProcessor.

Implicit Types (d : list (string * value)) (search_results : list doc)
  (k_values : list Z).

(** What [score_label_ndcg] does to a label that is an object. *)
Lemma score_label_ndcg_dict search_results k_values d :
  score_label_ndcg search_results k_values (VDict d)
  = match PyDict.get "evidence" d with
    | None => ret (VDict d)
    | Some gold_evidence =>
        match k_values with
        | [] => ret (VDict d)
        | _ =>
            match gold_of_value gold_evidence with
            | None => raise
            | Some gold =>
                ret (VDict
                       (add_metrics
                          (RetrievalEvaluator.calculate_ndcg_multiple_k
                             search_results gold k_values) d))
            end
        end
    end.
Proof.
  unfold score_label_ndcg. simpl py_contains. unfold PyDict.contains.
  simpl py_getitem. destruct (PyDict.get "evidence" d) as [ev|]; [|reflexivity].
  rewrite bind_lift_Some. simpl negb. cbv iota. rewrite bind_lift_Some.
  destruct k_values as [|k ks].
  - by rewrite bind_ret.
  - destruct (gold_of_value ev) as [gold|]; [|reflexivity].
    rewrite bind_lift_Some, bind_ret. apply write_metrics_loop.
Qed.

(** X16: The scorer kept for backward compatibility writes the nDCG fields
    and nothing else: when [_calculate_ndcg_for_labels] returns for a list
    of labels, the list has the same length; a label without [evidence] is
    unchanged; and in a label that is an object with a well-formed
    [evidence] list, "ndcg@{k}" holds the nDCG at k for every k of
    [k_values], and every other field, the precision and recall fields
    among them, holds the value it had. *)
Theorem ndcg_scored_labels
  (l : list value) search_results k_values (labels' : value) :
  result_of (_calculate_ndcg_for_labels (VList l) search_results k_values)
  = Some labels' ->
  exists l',
    labels' = VList l'
    /\ length l' = length l
    /\ forall (i : nat) (label : value),
         l !! i = Some label ->
         (py_contains "evidence" label = Some false -> l' !! i = Some label)
         /\ (forall d gold_evidence gold,
               label = VDict d ->
               PyDict.get "evidence" d = Some gold_evidence ->
               gold_of_value gold_evidence = Some gold ->
               exists d',
                 l' !! i = Some (VDict d')
                 /\ (forall k, k ∈ k_values ->
                       PyDict.get (RetrievalEvaluator.metric_key "ndcg" k) d'
                       = Some (VFloat
                                 (RetrievalEvaluator.calculate_ndcg
                                    search_results gold (Some k))))
                 /\ (forall key,
                       (forall k, k ∈ k_values ->
                          key <> RetrievalEvaluator.metric_key "ndcg" k) ->
                       PyDict.get key d' = PyDict.get key d)).
Proof.
  intros H. unfold _calculate_ndcg_for_labels in H. simpl py_iter in H.
  rewrite bind_lift_Some in H.
  apply result_of_bind_Some in H as (l' & Hl' & H). injection H as <-.
  apply for_each_Forall2 in Hl'.
  exists l'. split; [done|]. split; [symmetry; by eapply Forall2_length|].
  intros i label Hi.
  destruct (Forall2_lookup_l _ _ _ _ _ Hl' Hi) as (label' & Hi' & Hlabel).
  split.
  - intros Hno. unfold score_label_ndcg in Hlabel.
    rewrite Hno, bind_lift_Some in Hlabel. simpl in Hlabel. congruence.
  - intros d ev gold -> Hev Hgold.
    rewrite score_label_ndcg_dict, Hev, Hgold in Hlabel.
    exists (add_metrics
              (RetrievalEvaluator.calculate_ndcg_multiple_k
                 search_results gold k_values) d).
    assert (Hnd : NoDup (PyDict.keys
                           (RetrievalEvaluator.calculate_ndcg_multiple_k
                              search_results gold k_values))).
    { apply store_metric_NoDup, NoDup_nil_2. }
    split; [|split].
    + destruct k_values; simpl in Hlabel; injection Hlabel as <-; exact Hi'.
    + intros k Hk. rewrite add_metrics_get by done.
      assert (Hget : PyDict.get (RetrievalEvaluator.metric_key "ndcg" k)
                       (RetrievalEvaluator.calculate_ndcg_multiple_k
                          search_results gold k_values)
                     = Some (RetrievalEvaluator.calculate_ndcg
                               search_results gold (Some k))).
      { apply store_metric_get. left. by exists k. }
      by rewrite Hget.
    + intros key Hkey. rewrite add_metrics_get by done.
      destruct (PyDict.get key _) as [v|] eqn:Hget; [|done].
      apply store_metric_get in Hget as [(k & Hk & -> & _)|[_ Hget]]; [|done].
      by destruct (Hkey k Hk).
Qed.

End legacy_scorer.

Section legacy_scorer_witness.
Import ConversationRetrievalProcessor.

Lemma ndcg_scored_labels_witness :
  exists labels' l',
    result_of (_calculate_ndcg_for_labels
                 (VList [VDict [("evidence", VList [VStr "B"])];
                         VDict [("responseType", VStr "clarification")]])
                 Examples.retrieved_ABC [1; 3]%Z)
    = Some labels'
    /\ labels' = VList l' /\ length l' = 2%nat.
Proof.
  assert (H : exists labels',
    result_of (_calculate_ndcg_for_labels
                 (VList [VDict [("evidence", VList [VStr "B"])];
                         VDict [("responseType", VStr "clarification")]])
                 Examples.retrieved_ABC [1; 3]%Z)
    = Some labels').
  { vm_compute. eexists. reflexivity. }
  destruct H as [labels' H].
  destruct (ndcg_scored_labels _ Examples.retrieved_ABC [1; 3]%Z labels' H)
    as (l' & Hl & Hlen & _).
  exists labels', l'. split; [exact H|]. split; [exact Hl|exact Hlen].
Defined.

End legacy_scorer_witness.

(** ** The aggregator *)

Section collector_facts.
Import ConversationRetrievalProcessor.

Lemma fold_opt_app {S A : Type} (f : S -> A -> option S) (l1 l2 : list A) (s : S) :
  fold_opt f (l1 ++ l2) s = fold_opt f l1 s ≫= fold_opt f l2.
Proof.
  revert s. induction l1 as [|a l1 IH]; intros s; simpl; [done|].
  destruct (f s a) as [s'|]; simpl; [apply IH|done].
Qed.

(** A traversal is a loop over the labels it visits. *)
Lemma collect_turn_by_labels {S : Type} (collect : S -> value -> option S)
  (acc : S) (turn : value) :
  collect_turn_by collect acc turn
  = turn_labels turn ≫= fun labels => fold_opt collect labels acc.
Proof.
  unfold collect_turn_by, turn_labels.
  destruct (py_contains "labels" turn) as [[|]|]; simpl; try done.
  destruct (py_getitem turn "labels") as [labels|]; simpl; [|done].
  by destruct (py_iter labels).
Qed.

Lemma fold_collect_turns {S : Type} (collect : S -> value -> option S)
  (turns : list value) (acc : S) :
  fold_opt (collect_turn_by collect) turns acc
  = mapM turn_labels turns ≫= fun lss => fold_opt collect (concat lss) acc.
Proof.
  revert acc. induction turns as [|turn turns IH]; intros acc; [done|].
  change (mapM turn_labels (turn :: turns))
    with (x ← turn_labels turn; k ← mapM turn_labels turns; mret (x :: k)).
  cbn [fold_opt]. rewrite collect_turn_by_labels.
  destruct (turn_labels turn) as [labels|]; cbn -[mapM fold_opt]; [|done].
  destruct (fold_opt collect labels acc) as [acc'|] eqn:Hfold;
    cbn -[mapM fold_opt].
  - rewrite IH. destruct (mapM _ turns) as [lss|]; cbn -[fold_opt]; [|done].
    by rewrite fold_opt_app, Hfold.
  - destruct (mapM _ turns) as [lss|]; cbn -[fold_opt]; [|done].
    by rewrite fold_opt_app, Hfold.
Qed.

Lemma collect_dialogue_by_labels {S : Type} (collect : S -> value -> option S)
  (acc : S) (target_data : value) :
  collect_dialogue_by collect acc target_data
  = dialogue_labels target_data ≫= fun labels => fold_opt collect labels acc.
Proof.
  unfold collect_dialogue_by, dialogue_labels.
  destruct (py_contains "turns" target_data) as [[|]|]; simpl; try done.
  destruct (py_getitem target_data "turns") as [turns|]; simpl; [|done].
  destruct (py_iter turns) as [l|]; simpl; [|done].
  rewrite fold_collect_turns. by destruct (mapM turn_labels l).
Qed.

Lemma fold_collect_dialogues {S : Type} (collect : S -> value -> option S)
  (dialogues : list value) (acc : S) :
  fold_opt (collect_dialogue_by collect) dialogues acc
  = mapM dialogue_labels dialogues
      ≫= fun lss => fold_opt collect (concat lss) acc.
Proof.
  revert acc. induction dialogues as [|td tds IH]; intros acc; [done|].
  change (mapM dialogue_labels (td :: tds))
    with (x ← dialogue_labels td; k ← mapM dialogue_labels tds; mret (x :: k)).
  cbn [fold_opt]. rewrite collect_dialogue_by_labels.
  destruct (dialogue_labels td) as [labels|]; cbn -[mapM fold_opt]; [|done].
  destruct (fold_opt collect labels acc) as [acc'|] eqn:Hfold;
    cbn -[mapM fold_opt].
  - rewrite IH. destruct (mapM _ tds) as [lss|]; cbn -[fold_opt]; [|done].
    by rewrite fold_opt_app, Hfold.
  - destruct (mapM _ tds) as [lss|]; cbn -[fold_opt]; [|done].
    by rewrite fold_opt_app, Hfold.
Qed.

(** The collectors of the overall metrics are this traversal. *)
Lemma collect_turn_is_by acc turn :
  collect_turn acc turn = collect_turn_by collect_label acc turn.
Proof. done. Qed.

Lemma collect_dialogue_is_by acc target_data :
  collect_dialogue acc target_data
  = collect_dialogue_by collect_label acc target_data.
Proof.
  unfold collect_dialogue, collect_dialogue_by.
  destruct (py_contains "turns" target_data) as [[|]|]; simpl; try done.
Qed.

Lemma fold_opt_ext {S A : Type} (f g : S -> A -> option S) (l : list A) (s : S) :
  (forall s a, f s a = g s a) -> fold_opt f l s = fold_opt g l s.
Proof.
  intros Hfg. revert s. induction l as [|a l IH]; intros s; simpl; [done|].
  rewrite Hfg. destruct (g s a); simpl; [apply IH|done].
Qed.

Lemma collect_metrics_scores_labels (d : list (string * value)) (k_values : list Z) :
  _collect_metrics_scores (VDict d) k_values
  = dataset_labels (VDict d)
      ≫= fun labels => fold_opt collect_label labels (empty_metrics k_values).
Proof.
  unfold _collect_metrics_scores, dataset_labels. fold (empty_metrics k_values).
  rewrite (fold_opt_ext _ (collect_dialogue_by collect_label))
    by apply collect_dialogue_is_by.
  rewrite fold_collect_dialogues.
  by destruct (mapM dialogue_labels (map snd d)).
Qed.

End collector_facts.

Section score_lists.
Import ConversationRetrievalProcessor.

Implicit Types (d : list (string * value)) (acc pre post : list (string * list value))
  (key : string).

Lemma dict_get_app {V : Type} key (d1 d2 : list (string * V)) :
  PyDict.get key (d1 ++ d2)
  = match PyDict.get key d1 with
    | Some v => Some v
    | None => PyDict.get key d2
    end.
Proof.
  induction d1 as [|[k v] d1 IH]; simpl; [done|].
  by destruct (String.eqb k key).
Qed.

Lemma dict_set_app_absent {V : Type} key (v : V) (d1 d2 : list (string * V)) :
  key ∉ PyDict.keys d1 ->
  PyDict.set key v (d1 ++ d2) = d1 ++ PyDict.set key v d2.
Proof.
  induction d1 as [|[k w] d1 IH]; simpl; [done|].
  rewrite not_elem_of_cons. intros [Hne Hnot].
  destruct (String.eqb k key) eqn:E.
  - apply String.eqb_eq in E. congruence.
  - by rewrite IH.
Qed.

Lemma keys_app {V : Type} (d1 d2 : list (string * V)) :
  PyDict.keys (d1 ++ d2) = PyDict.keys d1 ++ PyDict.keys d2.
Proof. unfold PyDict.keys. apply map_app. Qed.

(** One label that is an object: every score list grows by the value
    that the label has under its key, and the lists of the keys that the
    label lacks stay as they are. *)
Lemma collect_label_loop d pre post :
  NoDup (PyDict.keys (pre ++ post)) ->
  fold_opt
    (fun acc metric_name =>
       has ← py_contains metric_name (VDict d);
       if has : bool then
         x ← py_getitem (VDict d) metric_name; append_score metric_name x acc
       else Some acc)
    (PyDict.keys post) (pre ++ post)
  = Some (pre ++ append_scores d post).
Proof.
  revert pre. induction post as [|[k l] post IH]; intros pre Hnd; [done|].
  assert (Hk : k ∉ PyDict.keys pre).
  { rewrite keys_app in Hnd. apply NoDup_app in Hnd as (_ & Hdisj & _).
    intros Hin. apply (Hdisj k Hin). by left. }
  assert (Hstep :
    (has ← py_contains k (VDict d);
     if has : bool then
       x ← py_getitem (VDict d) k; append_score k x (pre ++ (k, l) :: post)
     else Some (pre ++ (k, l) :: post))
    = Some ((pre ++ [(k, l ++ option_list (PyDict.get k d))]) ++ post)).
  { simpl py_contains. simpl py_getitem. unfold PyDict.contains.
    destruct (PyDict.get k d) as [x|]; simpl.
    - unfold append_score. rewrite dict_get_app.
      apply dict_get_None_keys in Hk. rewrite Hk. simpl.
      rewrite String.eqb_refl. simpl.
      rewrite dict_set_app_absent by (by apply dict_get_None_keys).
      simpl. rewrite String.eqb_refl, <- app_assoc. reflexivity.
    - rewrite app_nil_r, <- app_assoc. reflexivity. }
  cbn [PyDict.keys map fst fold_opt]. rewrite Hstep.
  cbn [mbind option_bind]. fold (PyDict.keys post). rewrite IH.
  - rewrite <- app_assoc. reflexivity.
  - rewrite !keys_app in *. simpl in *. by rewrite <- app_assoc.
Qed.

Lemma collect_label_dict d acc :
  NoDup (PyDict.keys acc) ->
  collect_label acc (VDict d) = Some (append_scores d acc).
Proof. intros Hnd. apply (collect_label_loop d [] acc Hnd). Qed.

Lemma append_scores_keys d acc :
  PyDict.keys (append_scores d acc) = PyDict.keys acc.
Proof.
  unfold append_scores, PyDict.keys. rewrite map_map.
  apply map_ext. by intros [k l].
Qed.

Lemma append_scores_get d acc key :
  PyDict.get key (append_scores d acc)
  = (fun l => l ++ option_list (PyDict.get key d)) <$> PyDict.get key acc.
Proof.
  induction acc as [|[k l] acc IH]; simpl; [done|].
  destruct (String.eqb k key) eqn:E; [|done].
  apply String.eqb_eq in E. by subst.
Qed.

Lemma collect_labels_dicts (dicts : list (list (string * value))) acc :
  NoDup (PyDict.keys acc) ->
  fold_opt collect_label (map VDict dicts) acc
  = Some (fold_left (fun acc d => append_scores d acc) dicts acc).
Proof.
  revert acc. induction dicts as [|d dicts IH]; intros acc Hnd; [done|].
  simpl. rewrite collect_label_dict by done. simpl.
  apply IH. by rewrite append_scores_keys.
Qed.

Lemma omap_cons_option_list {A B : Type} (f : A -> option B) (a : A) (l : list A) :
  omap f (a :: l) = option_list (f a) ++ omap f l.
Proof. simpl. by destruct (f a). Qed.

Lemma fold_append_scores_get (dicts : list (list (string * value))) acc key :
  PyDict.get key (fold_left (fun acc d => append_scores d acc) dicts acc)
  = (fun l => l ++ omap (PyDict.get key) dicts) <$> PyDict.get key acc.
Proof.
  revert acc. induction dicts as [|d dicts IH]; intros acc.
  - simpl. destruct (PyDict.get key acc); simpl; [|done]. by rewrite app_nil_r.
  - cbn [fold_left]. rewrite IH, append_scores_get, omap_cons_option_list.
    destruct (PyDict.get key acc); simpl; [|done]. by rewrite <- app_assoc.
Qed.

Lemma fold_append_scores_keys (dicts : list (list (string * value))) acc :
  PyDict.keys (fold_left (fun acc d => append_scores d acc) dicts acc)
  = PyDict.keys acc.
Proof.
  revert acc. induction dicts as [|d dicts IH]; intros acc; [done|].
  cbn [fold_left]. by rewrite IH, append_scores_keys.
Qed.

(** *** The empty score lists *)

Lemma set_empty_lists_get (keys : list string) acc key :
  PyDict.get key (fold_left (fun acc k => PyDict.set k [] acc) keys acc)
  = if decide (key ∈ keys) then Some [] else PyDict.get key acc.
Proof.
  revert acc. induction keys as [|k keys IH]; intros acc; [done|].
  cbn [fold_left]. rewrite IH.
  destruct (decide (key ∈ keys)) as [Hin|Hnin].
  - rewrite decide_True; [done|by right].
  - rewrite dict_get_set. destruct (decide (k = key)) as [->|Hne].
    + rewrite decide_True; [done|by left].
    + rewrite decide_False; [done|].
      intros [->|?]%elem_of_cons; done.
Qed.

Lemma set_empty_lists_NoDup (keys : list string) acc :
  NoDup (PyDict.keys acc) ->
  NoDup (PyDict.keys (fold_left (fun acc k => PyDict.set k [] acc) keys acc)).
Proof.
  revert acc. induction keys as [|k keys IH]; intros acc Hnd; [done|].
  cbn [fold_left]. by apply IH, dict_NoDup_keys_set.
Qed.

Lemma fold_left_over_map {A B C : Type} (f : A -> C -> A) (g : B -> C)
  (l : list B) (a : A) :
  fold_left f (map g l) a = fold_left (fun a x => f a (g x)) l a.
Proof. revert a. induction l as [|x l IH]; intros a; simpl; [done|apply IH]. Qed.

Lemma empty_metrics_flat (k_values : list Z) :
  empty_metrics k_values
  = fold_left (fun acc k => PyDict.set k [] acc) (all_metric_keys k_values) [].
Proof.
  unfold empty_metrics, all_metric_keys, metric_types. simpl.
  rewrite app_nil_r, !fold_left_app, !fold_left_over_map. done.
Qed.

Lemma empty_metrics_get (k_values : list Z) key :
  PyDict.get key (empty_metrics k_values)
  = if decide (key ∈ all_metric_keys k_values) then Some [] else None.
Proof. rewrite empty_metrics_flat. apply set_empty_lists_get. Qed.

Lemma empty_metrics_NoDup (k_values : list Z) :
  NoDup (PyDict.keys (empty_metrics k_values)).
Proof.
  rewrite empty_metrics_flat. apply set_empty_lists_NoDup, NoDup_nil_2.
Qed.

Lemma collect_metrics_scores_dicts
  (json_data : value) (k_values : list Z) (dicts : list (list (string * value))) :
  dataset_labels json_data = Some (map VDict dicts) ->
  _collect_metrics_scores json_data k_values
  = Some (fold_left (fun acc d => append_scores d acc) dicts
            (empty_metrics k_values)).
Proof.
  intros Hlabels. destruct json_data as [| | | | | |d]; try done.
  rewrite collect_metrics_scores_labels, Hlabels. simpl.
  by rewrite collect_labels_dicts by apply empty_metrics_NoDup.
Qed.

(** X24: [_collect_metrics_scores] flattens the dataset: when the labels of the
    dataset are objects, the list collected under a key "{metric}@{k}"
    holds the values that the labels have under this key, in the order of
    the dataset; a label without the key contributes nothing; and no other
    key is collected. *)
Theorem collect_metrics_scores_flattens
  (json_data : value) (k_values : list Z) (dicts : list (list (string * value))) :
  dataset_labels json_data = Some (map VDict dicts) ->
  exists scores,
    _collect_metrics_scores json_data k_values = Some scores
    /\ forall key,
         PyDict.get key scores
         = if decide (key ∈ all_metric_keys k_values)
           then Some (omap (PyDict.get key) dicts)
           else None.
Proof.
  intros Hlabels. rewrite (collect_metrics_scores_dicts _ _ _ Hlabels).
  eexists. split; [done|]. intros key.
  rewrite fold_append_scores_get, empty_metrics_get.
  by destruct (decide _).
Qed.

End score_lists.

Section overall_metrics.
Import ConversationRetrievalProcessor.

Implicit Types (scores : list (string * list value)) (key name : string).

(** *** Writing entries into a dict *)

Lemma write_all_get_absent {V : Type} (entries : list (string * V))
  (d : list (string * V)) key :
  key ∉ map fst entries -> PyDict.get key (write_all entries d) = PyDict.get key d.
Proof.
  revert d. induction entries as [|[k v] entries IH]; intros d Hkey; [done|].
  simpl in Hkey. apply not_elem_of_cons in Hkey as [Hne Hkey].
  change (write_all ((k, v) :: entries) d)
    with (write_all entries (PyDict.set k v d)).
  rewrite IH by done. by apply dict_get_set_ne.
Qed.

Lemma write_all_get {V : Type} (entries : list (string * V))
  (d : list (string * V)) key (v : V) :
  (forall k v1 v2, (k, v1) ∈ entries -> (k, v2) ∈ entries -> v1 = v2) ->
  (key, v) ∈ entries ->
  PyDict.get key (write_all entries d) = Some v.
Proof.
  revert d. induction entries as [|[k v0] entries IH]; intros d Hfun Hin.
  - by apply elem_of_nil in Hin.
  - change (write_all ((k, v0) :: entries) d)
      with (write_all entries (PyDict.set k v0 d)).
    destruct (decide (key ∈ map fst entries)) as [Hlater|Hlast].
    + apply list_elem_of_fmap in Hlater as ([k' v'] & -> & Hin').
      simpl in *. apply IH.
      * intros k1 v1 v2 H1 H2. apply (Hfun k1); by right.
      * rewrite (Hfun k' v v'); [done|done|by right].
    + rewrite write_all_get_absent by done.
      apply elem_of_cons in Hin as [[= -> ->]|Hin].
      * apply dict_get_set_eq.
      * exfalso. apply Hlast. apply list_elem_of_fmap. by exists (key, v).
Qed.

(** *** The statistics of the overall metrics *)

Lemma mapM_as_float_length (l : list value) (xs : list R) :
  mapM as_float l = Some xs -> length xs = length l.
Proof. intros H. symmetry. by eapply length_mapM. Qed.

Lemma np_mean_avg_of (l : list value) (xs : list R) :
  l <> [] -> mapM as_float l = Some xs -> np_mean l = Some (avg_of l).
Proof.
  intros Hne Hxs. unfold np_mean, avg_of. rewrite Hxs. simpl.
  by destruct l.
Qed.

Lemma np_max_max_of (l : list value) (xs : list R) :
  l <> [] -> mapM as_float l = Some xs -> np_max l = Some (max_of l).
Proof.
  intros Hne Hxs. unfold np_max, max_of. rewrite Hxs. simpl.
  destruct xs as [|x xs]; [|done].
  apply mapM_as_float_length in Hxs. by destruct l.
Qed.

(** The entries that the loop of [calculate_overall_metrics] writes for
    one metric. *)
Lemma overall_step scores overall name (l : list value) :
  PyDict.get name scores = Some l ->
  is_Some (mapM as_float l) ->
  (scores0 ← PyDict.get name scores;
   match scores0 with
   | [] =>
       Some (PyDict.set ("max_" +:+ name) (VFloat 0)
               (PyDict.set ("avg_" +:+ name) (VFloat 0) overall))
   | _ =>
       avg ← np_mean scores0;
       max ← np_max scores0;
       Some (PyDict.set ("max_" +:+ name) (VFloat max)
               (PyDict.set ("avg_" +:+ name) (VFloat avg) overall))
   end)
  = Some (write_all [("avg_" +:+ name, VFloat (avg_of l));
                     ("max_" +:+ name, VFloat (max_of l))] overall).
Proof.
  intros Hget [xs Hxs]. rewrite Hget. cbn [mbind option_bind].
  destruct l as [|v l]; [done|].
  rewrite (np_mean_avg_of (v :: l) xs), (np_max_max_of (v :: l) xs) by done.
  done.
Qed.

Lemma write_all_app {V : Type} (e1 e2 : list (string * V)) (d : list (string * V)) :
  write_all (e1 ++ e2) d = write_all e2 (write_all e1 d).
Proof. apply fold_left_app. Qed.

Lemma overall_loop scores (names : list string) overall :
  (forall name, name ∈ names ->
     exists l, PyDict.get name scores = Some l /\ is_Some (mapM as_float l)) ->
  fold_opt
    (fun overall_metrics metric_name =>
       scores0 ← PyDict.get metric_name scores;
       match scores0 with
       | [] =>
           Some (PyDict.set ("max_" +:+ metric_name) (VFloat 0)
                   (PyDict.set ("avg_" +:+ metric_name) (VFloat 0)
                      overall_metrics))
       | _ =>
           avg ← np_mean scores0;
           max ← np_max scores0;
           Some (PyDict.set ("max_" +:+ metric_name) (VFloat max)
                   (PyDict.set ("avg_" +:+ metric_name) (VFloat avg)
                      overall_metrics))
       end)
    names overall
  = Some (write_all (overall_entries scores names) overall).
Proof.
  revert overall. induction names as [|name names IH]; intros overall Hnames.
  - done.
  - destruct (Hnames name) as (l & Hget & Hnum); [by left|].
    cbn [fold_opt]. rewrite (overall_step scores overall name l Hget Hnum).
    cbn [mbind option_bind]. rewrite IH by (intros n Hn; apply Hnames; by right).
    unfold overall_entries. cbn [map concat].
    rewrite write_all_app, Hget. done.
Qed.

Lemma overall_entries_elem scores (names : list string) key (v : value) :
  (key, v) ∈ overall_entries scores names
  <-> exists name,
        name ∈ names
        /\ let l := default [] (PyDict.get name scores) in
           (key = "avg_" +:+ name /\ v = VFloat (avg_of l))
           \/ (key = "max_" +:+ name /\ v = VFloat (max_of l)).
Proof.
  unfold overall_entries. induction names as [|name names IH].
  - simpl. split; [intros H; by apply elem_of_nil in H|].
    intros (name & H & _). by apply elem_of_nil in H.
  - cbn [map concat]. rewrite elem_of_app, IH. split.
    + intros [Hin|(n & Hn & H)].
      * exists name. split; [by left|]. cbv zeta.
        apply elem_of_cons in Hin as [[= -> ->]|Hin]; [by left|].
        apply elem_of_cons in Hin as [[= -> ->]|Hin]; [by right|].
        by apply elem_of_nil in Hin.
      * exists n. split; [by right|done].
    + intros (n & [->|Hn]%elem_of_cons & H).
      * left. cbv zeta in H. destruct H as [[-> ->]|[-> ->]].
        -- by left.
        -- right. by left.
      * right. by exists n.
Qed.

Lemma overall_entries_functional scores (names : list string) key (v1 v2 : value) :
  (key, v1) ∈ overall_entries scores names ->
  (key, v2) ∈ overall_entries scores names ->
  v1 = v2.
Proof.
  rewrite !overall_entries_elem. cbv zeta.
  intros (n1 & _ & [[-> ->]|[-> ->]]) (n2 & _ & [[Heq ->]|[Heq ->]]).
  - apply (inj (String.app "avg_")) in Heq. by subst.
  - simpl in Heq. discriminate.
  - simpl in Heq. discriminate.
  - apply (inj (String.app "max_")) in Heq. by subst.
Qed.

Lemma total_queries_length scores (total : Z) :
  fold_left (fun total '(_, l) => (total + Z.of_nat (length l))%Z) scores total
  = (total + Z.of_nat (length (concat (map snd scores))))%Z.
Proof.
  revert total. induction scores as [|[k l] scores IH]; intros total; simpl.
  - lia.
  - rewrite IH, length_app. lia.
Qed.

Lemma collect_metrics_scores_dict (json_data : value) (k_values : list Z) scores :
  _collect_metrics_scores json_data k_values = Some scores ->
  exists d, json_data = VDict d.
Proof. destruct json_data; try done. by eexists. Qed.

Lemma overall_metrics_statistics_aux
  (json_data : value) (k_values : list Z) scores :
  _collect_metrics_scores json_data k_values = Some scores ->
  (forall key l, PyDict.get key scores = Some l -> is_Some (mapM as_float l)) ->
  exists overall,
    calculate_overall_metrics json_data k_values = Some overall
    /\ PyDict.get "num_queries" overall
       = Some (VInt (Z.of_nat (length (concat (map snd scores)))))
    /\ forall key l,
         PyDict.get key scores = Some l ->
         PyDict.get ("avg_" +:+ key) overall = Some (VFloat (avg_of l))
         /\ PyDict.get ("max_" +:+ key) overall = Some (VFloat (max_of l)).
Proof.
  intros Hscores Hnum.
  destruct (collect_metrics_scores_dict _ _ _ Hscores) as [d ->].
  unfold calculate_overall_metrics. rewrite Hscores. cbn [mbind option_bind].
  rewrite overall_loop.
  - cbn [mbind option_bind]. eexists. split; [done|]. split.
    + rewrite dict_get_set_eq, total_queries_length. done.
    + intros key l Hget.
      assert (Hkey : key ∈ PyDict.keys scores).
      { apply dict_contains_keys. unfold PyDict.contains. by rewrite Hget. }
      rewrite !dict_get_set_ne by (simpl; discriminate).
      split; apply write_all_get;
        try (intros k v1 v2; apply overall_entries_functional);
        apply overall_entries_elem; exists key; (split; [done|]);
        cbv zeta; rewrite Hget; simpl; auto.
  - intros name Hname. apply dict_contains_keys in Hname.
    unfold PyDict.contains in Hname.
    destruct (PyDict.get name scores) as [l|] eqn:Hget; [|done].
    exists l. split; [done|]. by eapply Hnum.
Qed.

(** X25: The overall metrics are the statistics of the collected lists: when
    the collected scores are numbers, [calculate_overall_metrics] returns;
    for every collected key it reports under "avg_" the mean of the list
    and under "max_" its maximum, and 0.0 for both when the list is empty;
    and [num_queries] is the total number of collected values. *)
Theorem overall_metrics_statistics
  (json_data : value) (k_values : list Z) scores :
  _collect_metrics_scores json_data k_values = Some scores ->
  (forall key l, PyDict.get key scores = Some l -> is_Some (mapM as_float l)) ->
  exists overall,
    calculate_overall_metrics json_data k_values = Some overall
    /\ PyDict.get "num_queries" overall
       = Some (VInt (Z.of_nat (length (concat (map snd scores)))))
    /\ forall key l,
         PyDict.get key scores = Some l ->
         PyDict.get ("avg_" +:+ key) overall = Some (VFloat (avg_of l))
         /\ PyDict.get ("max_" +:+ key) overall = Some (VFloat (max_of l)).
Proof. apply overall_metrics_statistics_aux. Qed.

End overall_metrics.

Section overall_metrics2.
Import ConversationRetrievalProcessor.

Implicit Types (scores acc : list (string * list value)) (key name : string).

(** *** Counting the collected values *)

Lemma all_metric_keys_NoDup (k_values : list Z) :
  NoDup k_values -> NoDup (all_metric_keys k_values).
Proof.
  intros Hnd. unfold all_metric_keys, metric_types. simpl. rewrite app_nil_r.
  assert (Hm : forall metric, NoDup (map (RetrievalEvaluator.metric_key metric) k_values)).
  { intros metric. apply (NoDup_fmap_2 _). done. }
  apply NoDup_app. split; [apply Hm|]. split.
  - intros key (k & -> & _)%list_elem_of_fmap.
    rewrite elem_of_app.
    intros [(k' & Heq & _)%list_elem_of_fmap|(k' & Heq & _)%list_elem_of_fmap];
      unfold RetrievalEvaluator.metric_key in Heq; simpl in Heq; discriminate.
  - apply NoDup_app. split; [apply Hm|]. split; [|apply Hm].
    intros key (k & -> & _)%list_elem_of_fmap (k' & Heq & _)%list_elem_of_fmap.
    unfold RetrievalEvaluator.metric_key in Heq. simpl in Heq. discriminate.
Qed.

Lemma set_empty_lists_keys (keys : list string) acc :
  NoDup (PyDict.keys acc ++ keys) ->
  PyDict.keys (fold_left (fun acc k => PyDict.set k [] acc) keys acc)
  = PyDict.keys acc ++ keys.
Proof.
  revert acc. induction keys as [|k keys IH]; intros acc Hnd.
  - simpl. by rewrite app_nil_r.
  - cbn [fold_left].
    assert (Hk : PyDict.contains k acc = false).
    { apply not_true_is_false. rewrite dict_contains_keys.
      apply NoDup_app in Hnd as (_ & Hdisj & _). intros Hin.
      apply (Hdisj k Hin). by left. }
    rewrite IH; rewrite dict_keys_set_absent by done.
    + by rewrite <- app_assoc.
    + by rewrite <- app_assoc.
Qed.

Lemma set_empty_lists_empty (keys : list string) acc :
  Forall (fun entry => snd entry = []) acc ->
  Forall (fun entry => snd entry = [])
    (fold_left (fun acc k => PyDict.set k ([] : list value) acc) keys acc).
Proof.
  revert acc. induction keys as [|k keys IH]; intros acc Hacc; [done|].
  cbn [fold_left]. apply IH.
  induction Hacc as [|[k' l] acc Hl Hacc IHacc]; simpl.
  - by repeat constructor.
  - destruct (String.eqb k' k); by constructor.
Qed.

Lemma concat_all_empty {A : Type} (ls : list (list A)) :
  Forall (fun l => l = []) ls -> concat ls = [].
Proof. induction 1 as [|l ls -> _ IH]; simpl; done. Qed.

Lemma append_scores_length (d : list (string * value)) acc :
  Forall (fun key => is_Some (PyDict.get key d)) (PyDict.keys acc) ->
  length (concat (map snd (append_scores d acc)))
  = (length (concat (map snd acc)) + length acc)%nat.
Proof.
  unfold append_scores. induction acc as [|[k l] acc IH]; [done|].
  cbn [PyDict.keys map concat fst snd].
  intros [[v Hv] Hacc]%Forall_cons.
  rewrite !length_app, IH by done.
  rewrite Hv. simpl. lia.
Qed.

Lemma fold_append_scores_length (dicts : list (list (string * value))) acc :
  Forall (fun d => Forall (fun key => is_Some (PyDict.get key d)) (PyDict.keys acc))
    dicts ->
  length (concat (map snd (fold_left (fun acc d => append_scores d acc) dicts acc)))
  = (length (concat (map snd acc)) + length dicts * length acc)%nat.
Proof.
  revert acc. induction dicts as [|d dicts IH]; intros acc Hall.
  - simpl. lia.
  - apply Forall_cons in Hall as [Hd Hall]. cbn [fold_left].
    rewrite IH.
    + rewrite append_scores_length by done.
      unfold append_scores. rewrite length_map. simpl. lia.
    + by rewrite append_scores_keys.
Qed.

(** For k values without repetition and labels that carry every metric
    field as a number, [num_queries] is the number of labels times the
    number of metric fields, 3 times the number of k values. *)
Theorem num_queries_of_scored_labels
  (json_data : value) (k_values : list Z) (dicts : list (list (string * value))) :
  NoDup k_values ->
  dataset_labels json_data = Some (map VDict dicts) ->
  Forall (fun d =>
            forall key, key ∈ all_metric_keys k_values ->
                        exists x, PyDict.get key d = Some (VFloat x))
    dicts ->
  exists overall,
    calculate_overall_metrics json_data k_values = Some overall
    /\ PyDict.get "num_queries" overall
       = Some (VInt (3 * Z.of_nat (length k_values) * Z.of_nat (length dicts))).
Proof.
  intros Hnd Hlabels Hscored.
  pose proof (collect_metrics_scores_dicts _ k_values _ Hlabels) as Hscores.
  set (scores := fold_left _ dicts _) in Hscores.
  assert (Hkeys : PyDict.keys (empty_metrics k_values) = all_metric_keys k_values).
  { rewrite empty_metrics_flat, set_empty_lists_keys; [done|].
    simpl. by apply all_metric_keys_NoDup. }
  destruct (overall_metrics_statistics_aux json_data k_values scores Hscores)
    as (overall & Hoverall & Hnum & _).
  - intros key l Hget. unfold scores in Hget.
    rewrite fold_append_scores_get, empty_metrics_get in Hget.
    destruct (decide (key ∈ all_metric_keys k_values)) as [Hkey|]; [|done].
    simpl in Hget. injection Hget as <-.
    apply mapM_is_Some, Forall_forall. intros v Hv.
    apply list_elem_of_omap in Hv as (d & Hd & Hv).
    rewrite Forall_forall in Hscored.
    destruct (Hscored d Hd key Hkey) as [x Hx]. rewrite Hx in Hv.
    injection Hv as <-. by eexists.
  - exists overall. split; [done|]. rewrite Hnum. do 2 f_equal.
    unfold scores. rewrite fold_append_scores_length.
    + rewrite concat_all_empty.
      * rewrite <- (length_map fst). fold (PyDict.keys (empty_metrics k_values)).
        rewrite Hkeys. unfold all_metric_keys, metric_types. simpl.
        rewrite !length_app, !length_map. simpl. lia.
      * apply Forall_fmap. rewrite empty_metrics_flat.
        apply set_empty_lists_empty. constructor.
    + rewrite Hkeys. eapply Forall_impl; [exact Hscored|].
      intros d Hd. apply Forall_forall. intros key Hkey.
      destruct (Hd key Hkey) as [x Hx]. by eexists.
Qed.

End overall_metrics2.

Section overall_bounds.
Import ConversationRetrievalProcessor.
Local Open Scope R_scope.

Implicit Types (xs : list R) (x lo hi : R).

Lemma largest_ge_first x xs : x <= largest x xs.
Proof.
  unfold largest. revert x. induction xs as [|y xs IH]; intros x; simpl; [lra|].
  etrans; [|apply IH]. apply Rmax_l.
Qed.

Lemma largest_ge x xs y : y ∈ x :: xs -> y <= largest x xs.
Proof.
  unfold largest. revert x. induction xs as [|z xs IH]; intros x Hy.
  - apply list_elem_of_singleton in Hy as ->. simpl. lra.
  - simpl. apply elem_of_cons in Hy as [->|Hy].
    + etrans; [apply (Rmax_l _ z)|]. apply largest_ge_first.
    + apply elem_of_cons in Hy as [->|Hy].
      * etrans; [apply (Rmax_r x)|]. apply largest_ge_first.
      * apply IH. by right.
Qed.

Lemma largest_le x xs hi :
  Forall (fun y => y <= hi) (x :: xs) -> largest x xs <= hi.
Proof.
  unfold largest. revert x. induction xs as [|z xs IH]; intros x Hall; simpl.
  - by apply Forall_cons in Hall as [? _].
  - apply Forall_cons in Hall as [Hx Hall]. apply Forall_cons in Hall as [Hz Hall].
    apply IH. constructor; [|done]. by apply Rmax_lub.
Qed.

Lemma sum_bounds xs lo hi :
  Forall (fun y => lo <= y <= hi) xs ->
  lo * INR (length xs) <= fold_right Rplus 0 xs <= hi * INR (length xs).
Proof.
  induction 1 as [|y xs Hy _ IH]; [simpl; lra|].
  cbn [fold_right length]. rewrite S_INR. lra.
Qed.

Lemma mean_bounds xs lo hi :
  xs <> [] -> Forall (fun y => lo <= y <= hi) xs -> lo <= mean xs <= hi.
Proof.
  intros Hne Hall. unfold mean.
  assert (Hn : 0 < INR (length xs)).
  { apply lt_0_INR. destruct xs; [done|simpl; lia]. }
  pose proof (sum_bounds xs lo hi Hall) as [Hlo Hhi].
  split.
  - apply Rmult_le_reg_r with (INR (length xs)); [done|].
    replace (fold_right Rplus 0 xs / INR (length xs) * INR (length xs))
      with (fold_right Rplus 0 xs) by (field; lra). done.
  - apply Rmult_le_reg_r with (INR (length xs)); [done|].
    replace (fold_right Rplus 0 xs / INR (length xs) * INR (length xs))
      with (fold_right Rplus 0 xs) by (field; lra). done.
Qed.

Lemma floats_in_range (l : list value) xs lo hi :
  Forall (fun v => exists x, v = VFloat x /\ lo <= x <= hi) l ->
  mapM as_float l = Some xs ->
  Forall (fun x => lo <= x <= hi) xs.
Proof.
  intros Hl Hxs. apply mapM_Some in Hxs.
  induction Hxs as [|v x l xs Hv _ IH]; [constructor|].
  apply Forall_cons in Hl as [(x' & -> & Hx) Hl].
  injection Hv as <-. constructor; [done|by apply IH].
Qed.

(** X26: The overall statistics of metric values in [0, 1] are in [0, 1]:
    when every collected score is a float between 0 and 1, for every
    collected key the reported "avg_" value a and "max_" value m satisfy
    0 <= a <= 1 and 0 <= m <= 1. *)
Theorem overall_metrics_bounds
  (json_data : value) (k_values : list Z)
  (scores : list (string * list value)) :
  _collect_metrics_scores json_data k_values = Some scores ->
  (forall key l v,
     PyDict.get key scores = Some l -> v ∈ l ->
     exists x, v = VFloat x /\ 0 <= x <= 1) ->
  exists overall,
    calculate_overall_metrics json_data k_values = Some overall
    /\ forall key l,
         PyDict.get key scores = Some l ->
         exists a m,
           PyDict.get ("avg_" +:+ key) overall = Some (VFloat a)
           /\ PyDict.get ("max_" +:+ key) overall = Some (VFloat m)
           /\ 0 <= a <= 1 /\ 0 <= m <= 1.
Proof.
  intros Hscores Hrange.
  assert (Hnum : forall key l,
    PyDict.get key scores = Some l -> is_Some (mapM as_float l)).
  { intros key l Hget. apply mapM_is_Some, Forall_forall. intros v Hv.
    destruct (Hrange key l v Hget Hv) as (x & -> & _). by eexists. }
  destruct (overall_metrics_statistics_aux _ _ _ Hscores Hnum)
    as (overall & Hoverall & _ & Hstats).
  exists overall. split; [done|]. intros key l Hget.
  destruct (Hstats key l Hget) as [Havg Hmax].
  exists (avg_of l), (max_of l). split; [done|]. split; [done|].
  destruct (Hnum key l Hget) as [xs Hxs].
  assert (Hall : Forall (fun x => 0 <= x <= 1) xs).
  { eapply floats_in_range; [|exact Hxs].
    apply Forall_forall. intros v Hv. by eapply Hrange. }
  unfold avg_of, max_of. rewrite Hxs.
  destruct l as [|v l].
  - injection Hxs as <-. lra.
  - destruct xs as [|x xs]; [by apply length_mapM in Hxs|].
    pose proof (mean_bounds (x :: xs) 0 1 ltac:(done) Hall) as Hmean.
    assert (largest x xs <= 1).
    { apply largest_le. eapply Forall_impl; [exact Hall|]. intros y. simpl. lra. }
    assert (0 <= largest x xs).
    { apply Forall_cons in Hall as [Hx _].
      pose proof (largest_ge_first x xs). lra. }
    lra.
Qed.

End overall_bounds.

Section aggregator_witnesses.
Import ConversationRetrievalProcessor.

Lemma collect_metrics_scores_flattens_witness :
  exists scores,
    _collect_metrics_scores Examples.scored_dataset [1%Z] = Some scores
    /\ PyDict.get "precision@1" scores = Some [VFloat 0]
    /\ PyDict.get "evidence" scores = None.
Proof.
  destruct (collect_metrics_scores_flattens Examples.scored_dataset [1%Z]
              [[("evidence", VList [VStr "p1"]);
                ("ndcg@1", VFloat 0);
                ("precision@1", VFloat 0);
                ("recall@1", VFloat 0)]])
    as (scores & Hscores & Hget).
  - reflexivity.
  - exists scores. split; [exact Hscores|]. split.
    + rewrite (Hget "precision@1"). reflexivity.
    + rewrite (Hget "evidence"). reflexivity.
Defined.

Lemma example_scores_numbers (key : string) (l : list value) :
  PyDict.get key
    [("ndcg@1", [VFloat 0]); ("precision@1", [VFloat 0]);
     ("recall@1", [VFloat 0])] = Some l ->
  l = [VFloat 0].
Proof.
  cbn [PyDict.get]. intros H.
  repeat (destruct (String.eqb _ key); [by injection H|]). discriminate.
Qed.

Lemma overall_metrics_statistics_witness :
  exists overall,
    calculate_overall_metrics Examples.scored_dataset [1%Z] = Some overall
    /\ PyDict.get "num_queries" overall = Some (VInt 3)
    /\ PyDict.get "avg_recall@1" overall
       = Some (VFloat (avg_of [VFloat 0])).
Proof.
  destruct (overall_metrics_statistics Examples.scored_dataset [1%Z]
              [("ndcg@1", [VFloat 0]); ("precision@1", [VFloat 0]);
               ("recall@1", [VFloat 0])])
    as (overall & Hoverall & Hnum & Hstats).
  - reflexivity.
  - intros key l Hget. apply example_scores_numbers in Hget as ->.
    eexists. reflexivity.
  - exists overall. split; [exact Hoverall|]. split; [exact Hnum|].
    destruct (Hstats "recall@1" [VFloat 0]) as [Havg _]; [reflexivity|].
    exact Havg.
Defined.

Lemma num_queries_of_scored_labels_witness :
  exists overall,
    calculate_overall_metrics Examples.scored_dataset [1%Z] = Some overall
    /\ PyDict.get "num_queries" overall = Some (VInt 3).
Proof.
  destruct (num_queries_of_scored_labels Examples.scored_dataset [1%Z]
              [[("evidence", VList [VStr "p1"]);
                ("ndcg@1", VFloat 0);
                ("precision@1", VFloat 0);
                ("recall@1", VFloat 0)]])
    as (overall & Hoverall & Hnum).
  - apply (bool_decide_unpack _). vm_compute. exact I.
  - reflexivity.
  - constructor; [|constructor]. intros key Hkey.
    assert (Hkeys : key ∈ ["ndcg@1"; "precision@1"; "recall@1"]) by exact Hkey.
    exists 0%R.
    repeat (apply elem_of_cons in Hkeys as [->|Hkeys]; [reflexivity|]).
    by apply elem_of_nil in Hkeys.
  - exists overall. split; [exact Hoverall|exact Hnum].
Defined.

Lemma overall_metrics_bounds_witness :
  exists overall a m,
    calculate_overall_metrics Examples.scored_dataset [1%Z] = Some overall
    /\ PyDict.get "avg_ndcg@1" overall = Some (VFloat a)
    /\ PyDict.get "max_ndcg@1" overall = Some (VFloat m)
    /\ (0 <= a <= 1)%R /\ (0 <= m <= 1)%R.
Proof.
  destruct (overall_metrics_bounds Examples.scored_dataset [1%Z]
              [("ndcg@1", [VFloat 0]); ("precision@1", [VFloat 0]);
               ("recall@1", [VFloat 0])])
    as (overall & Hoverall & Hstats).
  - reflexivity.
  - intros key l v Hget Hv. apply example_scores_numbers in Hget as ->.
    apply list_elem_of_singleton in Hv as ->. exists 0%R. split; [reflexivity|lra].
  - destruct (Hstats "ndcg@1" [VFloat 0]) as (a & m & Ha & Hm & Hle & Hone);
      [reflexivity|].
    exists overall, a, m. repeat split; try assumption; first [apply Hle|apply Hone].
Defined.

End aggregator_witnesses.

Section repeated_collection.
Import ConversationRetrievalProcessor.

Implicit Types (d : list (string * value)) (acc m : list (string * list value))
  (key : string) (names : list string).

Lemma extended_by_refl m : extended_by (fun _ => []) m m.
Proof.
  split; [done|]. intros key. destruct (PyDict.get key m); simpl; [|done].
  by rewrite app_nil_r.
Qed.

Lemma extended_by_trans ext1 ext2 m1 m2 m3 :
  extended_by ext1 m1 m2 -> extended_by ext2 m2 m3 ->
  extended_by (fun key => ext1 key ++ ext2 key) m1 m3.
Proof.
  intros [Hk1 Hg1] [Hk2 Hg2]. split; [congruence|].
  intros key. rewrite Hg2, Hg1. destruct (PyDict.get key m1); simpl; [|done].
  by rewrite app_assoc.
Qed.

Lemma extended_by_ext ext1 ext2 m m' :
  (forall key, ext1 key = ext2 key) -> extended_by ext1 m m' -> extended_by ext2 m m'.
Proof.
  intros Hext [Hk Hg]. split; [done|]. intros key. by rewrite Hg, Hext.
Qed.

Lemma repeated_scores_nil d key : repeated_scores [] d key = [].
Proof. unfold repeated_scores. by destruct (PyDict.get key d). Qed.

Lemma repeated_scores_cons name names d key :
  repeated_scores (name :: names) d key
  = (if decide (name = key) then option_list (PyDict.get key d) else [])
    ++ repeated_scores names d key.
Proof.
  unfold repeated_scores. simpl.
  destruct (PyDict.get key d) as [x|]; [|by destruct (decide _)].
  destruct (string_dec name key) as [->|Hne].
  - by rewrite decide_True.
  - by rewrite decide_False.
Qed.

Lemma repeated_scores_app names1 names2 d key :
  repeated_scores (names1 ++ names2) d key
  = repeated_scores names1 d key ++ repeated_scores names2 d key.
Proof.
  induction names1 as [|name names1 IH]; simpl.
  - by rewrite repeated_scores_nil.
  - by rewrite !repeated_scores_cons, IH, app_assoc.
Qed.

Lemma repeated_scores_absent names d key :
  key ∉ names -> repeated_scores names d key = [].
Proof.
  intros Hnot. unfold repeated_scores. destruct (PyDict.get key d); [|done].
  assert (Hc : count_occ string_dec names key = 0%nat).
  { apply count_occ_not_In. by rewrite <- list_elem_of_In. }
  by rewrite Hc.
Qed.

Lemma repeated_scores_once names d key :
  NoDup names -> key ∈ names ->
  repeated_scores names d key = option_list (PyDict.get key d).
Proof.
  intros Hnd Hin. unfold repeated_scores. destruct (PyDict.get key d); [|done].
  assert (Hc : count_occ string_dec names key = 1%nat).
  { apply NoDup_ListNoDup in Hnd.
    pose proof (proj1 (NoDup_count_occ string_dec names) Hnd key) as Hle.
    apply list_elem_of_In in Hin.
    apply (count_occ_In string_dec) in Hin. lia. }
  by rewrite Hc.
Qed.

(** One step of a collecting loop: the value of the label under [name]
    goes to the end of the list of [name]. *)
Lemma append_step name d m :
  name ∈ PyDict.keys m ->
  exists m',
    (has ← py_contains name (VDict d);
     if has : bool then
       x ← py_getitem (VDict d) name; append_score name x m
     else Some m) = Some m'
    /\ extended_by (repeated_scores [name] d) m m'.
Proof.
  intros Hin. simpl py_contains. simpl py_getitem. unfold PyDict.contains.
  assert (Hext : forall key,
    repeated_scores [name] d key
    = if decide (name = key) then option_list (PyDict.get key d) else []).
  { intros key. rewrite repeated_scores_cons, repeated_scores_nil.
    by rewrite app_nil_r. }
  destruct (PyDict.get name d) as [x|] eqn:Hx; simpl.
  - unfold append_score.
    destruct (PyDict.get name m) as [l|] eqn:Hl.
    2:{ apply dict_get_None_keys in Hl. by destruct Hl. }
    simpl. eexists. split; [done|]. split.
    + apply dict_keys_set_present. by apply dict_contains_keys.
    + intros key. rewrite Hext, dict_get_set.
      destruct (decide (name = key)) as [<-|Hne].
      * rewrite Hl, Hx. done.
      * destruct (PyDict.get key m); simpl; [|done]. by rewrite app_nil_r.
  - exists m. split; [done|]. split; [done|].
    intros key. rewrite Hext. destruct (decide (name = key)) as [<-|Hne].
    + rewrite Hx. simpl. destruct (PyDict.get name m); simpl; [|done].
      by rewrite app_nil_r.
    + destruct (PyDict.get key m); simpl; [|done]. by rewrite app_nil_r.
Qed.

(** A collecting loop over [names] for one label. *)
Lemma append_loop names d m :
  (forall name, name ∈ names -> name ∈ PyDict.keys m) ->
  exists m',
    fold_opt
      (fun acc name =>
         has ← py_contains name (VDict d);
         if has : bool then
           x ← py_getitem (VDict d) name; append_score name x acc
         else Some acc)
      names m = Some m'
    /\ extended_by (repeated_scores names d) m m'.
Proof.
  revert m. induction names as [|name names IH]; intros m Hin.
  - exists m. split; [done|].
    eapply extended_by_ext; [|apply extended_by_refl].
    intros key. by rewrite repeated_scores_nil.
  - destruct (append_step name d m) as (m1 & Hstep & Hext1).
    { apply Hin. by left. }
    destruct (IH m1) as (m' & Hloop & Hext2).
    { intros name' Hname'. rewrite (proj1 Hext1). apply Hin. by right. }
    exists m'. split.
    + cbn [fold_opt]. rewrite Hstep. exact Hloop.
    + eapply extended_by_ext; [|eapply extended_by_trans; eassumption].
      intros key. cbv beta.
      by rewrite (repeated_scores_app [name] names).
Qed.

Lemma fold_opt_map {S A B : Type} (f : S -> B -> option S) (g : A -> B)
  (l : list A) (s : S) :
  fold_opt f (map g l) s = fold_opt (fun s a => f s (g a)) l s.
Proof.
  revert s. induction l as [|a l IH]; intros s; simpl; [done|].
  destruct (f s (g a)); simpl; [apply IH|done].
Qed.

Lemma collect_label_ndcg_loop (k_values : list Z) d m :
  (forall name, name ∈ ndcg_keys k_values -> name ∈ PyDict.keys m) ->
  exists m',
    collect_label_ndcg k_values m (VDict d) = Some m'
    /\ extended_by (repeated_scores (ndcg_keys k_values) d) m m'.
Proof.
  intros Hin. unfold collect_label_ndcg.
  destruct (append_loop (ndcg_keys k_values) d m Hin) as (m' & Hloop & Hext).
  exists m'. split; [|done].
  unfold ndcg_keys in Hloop. rewrite fold_opt_map in Hloop. exact Hloop.
Qed.

(** The values collected under [key] from the labels [dicts] by a loop
    over [names]. *)
Lemma collect_labels_loop (collect : list (string * list value) -> value -> option (list (string * list value)))
  names (dicts : list (list (string * value))) m :
  (forall d m, (forall name, name ∈ names -> name ∈ PyDict.keys m) ->
     exists m', collect m (VDict d) = Some m'
                /\ extended_by (repeated_scores names d) m m') ->
  (forall name, name ∈ names -> name ∈ PyDict.keys m) ->
  exists m',
    fold_opt collect (map VDict dicts) m = Some m'
    /\ extended_by
         (fun key => concat (map (fun d => repeated_scores names d key) dicts))
         m m'.
Proof.
  intros Hcollect. revert m. induction dicts as [|d dicts IH]; intros m Hin.
  - exists m. split; [done|]. apply extended_by_refl.
  - destruct (Hcollect d m Hin) as (m1 & Hstep & Hext1).
    destruct (IH m1) as (m' & Hloop & Hext2).
    { intros name Hname. rewrite (proj1 Hext1). by apply Hin. }
    exists m'. split.
    + cbn [map fold_opt]. rewrite Hstep. exact Hloop.
    + eapply extended_by_ext; [|eapply extended_by_trans; eassumption].
      done.
Qed.

Lemma ndcg_scores_start (k_values : list Z) :
  fold_left
    (fun acc k => PyDict.set (RetrievalEvaluator.metric_key "ndcg" k) [] acc)
    k_values []
  = fold_left (fun acc k => PyDict.set k [] acc) (ndcg_keys k_values)
      ([] : list (string * list value)).
Proof. unfold ndcg_keys. by rewrite fold_left_over_map. Qed.

Lemma set_empty_lists_present names acc name :
  name ∈ names ->
  name ∈ PyDict.keys (fold_left (fun acc k => PyDict.set k [] acc) names acc).
Proof.
  intros Hin.
  destruct (decide (name ∈ PyDict.keys
              (fold_left (fun acc k => PyDict.set k [] acc) names acc)))
    as [|Hnot]; [done|].
  apply dict_get_None_keys in Hnot.
  rewrite set_empty_lists_get, decide_True in Hnot by done. done.
Qed.

Lemma collect_ndcg_scores_loop
  (json_data : value) (k_values : list Z) (dicts : list (list (string * value))) :
  dataset_labels json_data = Some (map VDict dicts) ->
  exists scores,
    _collect_ndcg_scores json_data k_values = Some scores
    /\ extended_by
         (fun key =>
            concat (map (fun d => repeated_scores (ndcg_keys k_values) d key) dicts))
         (fold_left (fun acc k => PyDict.set k [] acc) (ndcg_keys k_values) [])
         scores.
Proof.
  intros Hlabels. destruct json_data as [| | | | | |data]; try done.
  unfold _collect_ndcg_scores. rewrite fold_collect_dialogues.
  unfold dataset_labels in Hlabels.
  destruct (mapM dialogue_labels (map snd data)) as [lss|]; [|done].
  simpl in Hlabels. injection Hlabels as Hlabels. cbn [mbind option_bind].
  rewrite Hlabels, ndcg_scores_start.
  apply (collect_labels_loop (collect_label_ndcg k_values)).
  - intros d m. apply collect_label_ndcg_loop.
  - intros name. apply set_empty_lists_present.
Qed.

(** X27: [_collect_ndcg_scores] loops over [k_values] for every label: the list
    collected under "ndcg@{k}" holds the value of every label that has the
    key, in the order of the dataset, once for every occurrence of [k] in
    [k_values]; no other key is collected. *)
Theorem collect_ndcg_scores_flattens
  (json_data : value) (k_values : list Z) (dicts : list (list (string * value))) :
  dataset_labels json_data = Some (map VDict dicts) ->
  exists scores,
    _collect_ndcg_scores json_data k_values = Some scores
    /\ forall key,
         PyDict.get key scores
         = if decide (key ∈ ndcg_keys k_values)
           then Some (concat
                        (map (fun d => repeated_scores (ndcg_keys k_values) d key)
                           dicts))
           else None.
Proof.
  intros Hlabels.
  destruct (collect_ndcg_scores_loop _ k_values _ Hlabels)
    as (scores & Hscores & _ & Hget).
  exists scores. split; [done|]. intros key.
  rewrite Hget, set_empty_lists_get. by destruct (decide _).
Qed.

Lemma concat_option_lists {A B : Type} (f : A -> option B) (l : list A) :
  concat (map (fun a => option_list (f a)) l) = omap f l.
Proof.
  induction l as [|a l IH]; [done|].
  rewrite omap_cons_option_list, <- IH. done.
Qed.

Lemma ndcg_key_among_all (k_values : list Z) (k : Z) :
  k ∈ k_values ->
  RetrievalEvaluator.metric_key "ndcg" k ∈ all_metric_keys k_values.
Proof.
  intros Hk. unfold all_metric_keys, metric_types. simpl.
  apply elem_of_app. left. by apply list_elem_of_fmap_2.
Qed.

(** On a list of distinct [k_values], the collector kept for backward
    compatibility returns, key by key and in the order of [k_values], the
    nDCG lists of [_collect_metrics_scores]. *)
Theorem collect_ndcg_scores_agrees
  (json_data : value) (k_values : list Z) (dicts : list (list (string * value))) :
  NoDup k_values ->
  dataset_labels json_data = Some (map VDict dicts) ->
  exists ndcg_scores scores,
    _collect_ndcg_scores json_data k_values = Some ndcg_scores
    /\ _collect_metrics_scores json_data k_values = Some scores
    /\ PyDict.keys ndcg_scores = ndcg_keys k_values
    /\ forall k, k ∈ k_values ->
         PyDict.get (RetrievalEvaluator.metric_key "ndcg" k) ndcg_scores
         = PyDict.get (RetrievalEvaluator.metric_key "ndcg" k) scores.
Proof.
  intros Hnd Hlabels.
  assert (Hkeys : NoDup (ndcg_keys k_values)).
  { apply NoDup_fmap_2; [apply metric_key_inj|done]. }
  destruct (collect_ndcg_scores_loop _ k_values _ Hlabels)
    as (ndcg_scores & Hndcg & Hk & Hget).
  eexists ndcg_scores, _. split; [done|].
  split; [by apply collect_metrics_scores_dicts|].
  split.
  - rewrite Hk. by apply set_empty_lists_keys.
  - intros k Hin.
    assert (Hname : RetrievalEvaluator.metric_key "ndcg" k ∈ ndcg_keys k_values)
      by (by apply list_elem_of_fmap_2).
    rewrite Hget, set_empty_lists_get, decide_True by done.
    rewrite fold_append_scores_get, empty_metrics_get.
    rewrite decide_True by (by apply ndcg_key_among_all).
    simpl. f_equal. rewrite <- concat_option_lists. f_equal.
    apply map_ext. intros d. by apply repeated_scores_once.
Qed.

End repeated_collection.

Section by_response_type.
Import ConversationRetrievalProcessor.

Implicit Types (d : list (string * value)) (m : list (string * list value))
  (acc : list (hashable * list (string * list value)))
  (key : string) (t : hashable) (names : list string) (k_values : list Z).

Lemma fold_opt_concat_map {S A B C : Type} (g : S -> C -> option S)
  (h : A -> B -> C) (outer : list A) (inner : list B) (s : S) :
  fold_opt (fun s a => fold_opt (fun s b => g s (h a b)) inner s) outer s
  = fold_opt g (concat (map (fun a => map (h a) inner) outer)) s.
Proof.
  revert s. induction outer as [|a outer IH]; intros s; [done|].
  cbn [map concat fold_opt]. rewrite fold_opt_app, fold_opt_map.
  destruct (fold_opt _ inner s) as [s'|]; simpl; [apply IH|done].
Qed.

Lemma collect_label_by_type_flat k_values acc d t :
  response_type_of (VDict d) = Some t ->
  collect_label_by_type k_values acc (VDict d)
  = fold_opt (collect_metric_by_type t (VDict d)) (all_metric_keys k_values)
      (if PyMap.contains t acc then acc
       else PyMap.set t (empty_metrics k_values) acc).
Proof.
  intros Ht. unfold collect_label_by_type. rewrite Ht. cbn [mbind option_bind].
  unfold all_metric_keys.
  rewrite <- (fold_opt_concat_map (collect_metric_by_type t (VDict d))
                RetrievalEvaluator.metric_key metric_types k_values).
  reflexivity.
Qed.

Lemma append_score_extends name (x : value) m :
  name ∈ PyDict.keys m ->
  exists m',
    append_score name x m = Some m'
    /\ extended_by (fun key => if decide (name = key) then [x] else []) m m'.
Proof.
  intros Hin. unfold append_score.
  destruct (PyDict.get name m) as [l|] eqn:Hl.
  2:{ apply dict_get_None_keys in Hl. by destruct Hl. }
  simpl. eexists. split; [done|]. split.
  - apply dict_keys_set_present. by apply dict_contains_keys.
  - intros key. rewrite dict_get_set.
    destruct (decide (name = key)) as [<-|Hne].
    + by rewrite Hl.
    + destruct (PyDict.get key m); simpl; [|done]. by rewrite app_nil_r.
Qed.

(** The loop over the metric names for one label of type [t]: the score
    lists of [t] grow, those of the other types are not touched. *)
Lemma collect_metrics_by_type_loop names t d acc m :
  PyMap.get t acc = Some m ->
  (forall name, name ∈ names -> name ∈ PyDict.keys m) ->
  exists acc' m',
    fold_opt (collect_metric_by_type t (VDict d)) names acc = Some acc'
    /\ (forall t', t' <> t -> PyMap.get t' acc' = PyMap.get t' acc)
    /\ PyMap.get t acc' = Some m'
    /\ extended_by (repeated_scores names d) m m'.
Proof.
  revert acc m. induction names as [|name names IH]; intros acc m Hm Hin.
  - exists acc, m. split; [done|]. split; [done|]. split; [done|].
    eapply extended_by_ext; [|apply extended_by_refl].
    intros key. by rewrite repeated_scores_nil.
  - assert (Hstep : exists acc1 m1,
      collect_metric_by_type t (VDict d) acc name = Some acc1
      /\ (forall t', t' <> t -> PyMap.get t' acc1 = PyMap.get t' acc)
      /\ PyMap.get t acc1 = Some m1
      /\ extended_by (repeated_scores [name] d) m m1).
    { unfold collect_metric_by_type. simpl py_contains. simpl py_getitem.
      unfold PyDict.contains.
      assert (Hext : forall key,
        repeated_scores [name] d key
        = if decide (name = key) then option_list (PyDict.get key d) else []).
      { intros key. rewrite repeated_scores_cons, repeated_scores_nil.
        by rewrite app_nil_r. }
      destruct (PyDict.get name d) as [x|] eqn:Hx; cbn [mbind option_bind].
      - rewrite Hm. cbn [mbind option_bind].
        destruct (append_score_extends name x m) as (m1 & Happ & Hext1).
        { apply Hin. by left. }
        rewrite Happ. cbn [mbind option_bind].
        eexists _, m1. split; [done|]. split.
        { intros t' Hne. by apply map_get_set_ne. }
        split; [apply map_get_set_eq|].
        eapply extended_by_ext; [|exact Hext1].
        intros key. rewrite Hext. cbv beta.
        destruct (decide (name = key)) as [<-|]; [|done]. by rewrite Hx.
      - exists acc, m. split; [done|]. split; [done|]. split; [done|].
        eapply extended_by_ext; [|apply extended_by_refl].
        intros key. rewrite Hext. cbv beta.
        destruct (decide (name = key)) as [<-|]; [|done]. by rewrite Hx. }
    destruct Hstep as (acc1 & m1 & Hstep & Hother1 & Hm1 & Hext1).
    destruct (IH acc1 m1 Hm1) as (acc' & m' & Hloop & Hother & Hm' & Hext2).
    { intros name' Hname'. rewrite (proj1 Hext1). apply Hin. by right. }
    exists acc', m'. split; [cbn [fold_opt]; by rewrite Hstep|].
    split; [intros t' Hne; rewrite Hother by done; by apply Hother1|].
    split; [done|].
    eapply extended_by_ext; [|eapply extended_by_trans; eassumption].
    intros key. cbv beta. by rewrite (repeated_scores_app [name] names).
Qed.

Lemma empty_metrics_present k_values name :
  name ∈ all_metric_keys k_values -> name ∈ PyDict.keys (empty_metrics k_values).
Proof. rewrite empty_metrics_flat. apply set_empty_lists_present. Qed.

(** One label of type [t]. *)
Lemma collect_label_by_type_dict k_values acc d t :
  scores_by_type_ok k_values acc ->
  response_type_of (VDict d) = Some t ->
  exists acc' m',
    collect_label_by_type k_values acc (VDict d) = Some acc'
    /\ scores_by_type_ok k_values acc'
    /\ (forall t', t' <> t -> PyMap.get t' acc' = PyMap.get t' acc)
    /\ PyMap.get t acc' = Some m'
    /\ extended_by (repeated_scores (all_metric_keys k_values) d)
         (default (empty_metrics k_values) (PyMap.get t acc)) m'.
Proof.
  intros Hok Ht. rewrite (collect_label_by_type_flat _ _ _ t Ht).
  set (start := if PyMap.contains t acc then acc
                else PyMap.set t (empty_metrics k_values) acc).
  assert (Hstart :
    PyMap.get t start = Some (default (empty_metrics k_values) (PyMap.get t acc))
    /\ forall t', t' <> t -> PyMap.get t' start = PyMap.get t' acc).
  { unfold start, PyMap.contains.
    destruct (PyMap.get t acc) as [m|] eqn:Hm; simpl.
    - done.
    - split; [apply map_get_set_eq|]. intros t' Hne. by apply map_get_set_ne. }
  destruct Hstart as [Hstart Hother0].
  destruct (collect_metrics_by_type_loop (all_metric_keys k_values) t d start _ Hstart)
    as (acc' & m' & Hloop & Hother & Hm' & Hext).
  { destruct (PyMap.get t acc) as [m|] eqn:Hm; simpl.
    - by apply (Hok t).
    - apply empty_metrics_present. }
  exists acc', m'. split; [done|]. split; [|split; [|done]].
  - intros t' m Hget name Hname. destruct (decide (t' = t)) as [->|Hne].
    + rewrite Hm' in Hget. injection Hget as <-. rewrite (proj1 Hext).
      destruct (PyMap.get t acc) as [m|] eqn:Hm; simpl.
      * by apply (Hok t).
      * by apply empty_metrics_present.
    + rewrite Hother, Hother0 in Hget by done. by apply (Hok t').
  - intros t' Hne. rewrite Hother by done. by apply Hother0.
Qed.

Lemma labels_of_type_cons_eq t d dicts :
  response_type_of (VDict d) = Some t ->
  labels_of_type t (d :: dicts) = d :: labels_of_type t dicts.
Proof. intros Ht. unfold labels_of_type. by rewrite filter_cons_True. Qed.

Lemma labels_of_type_cons_ne t t' d dicts :
  response_type_of (VDict d) = Some t -> t' <> t ->
  labels_of_type t' (d :: dicts) = labels_of_type t' dicts.
Proof.
  intros Ht Hne. unfold labels_of_type. rewrite filter_cons_False; [done|].
  rewrite Ht. congruence.
Qed.

Lemma collect_labels_by_type k_values (dicts : list (list (string * value))) acc :
  scores_by_type_ok k_values acc ->
  Forall (fun d => is_Some (response_type_of (VDict d))) dicts ->
  exists acc',
    fold_opt (collect_label_by_type k_values) (map VDict dicts) acc = Some acc'
    /\ forall t,
         match PyMap.get t acc' with
         | Some m' =>
             (is_Some (PyMap.get t acc) \/ labels_of_type t dicts <> [])
             /\ extended_by (collected k_values (labels_of_type t dicts))
                  (default (empty_metrics k_values) (PyMap.get t acc)) m'
         | None => PyMap.get t acc = None /\ labels_of_type t dicts = []
         end.
Proof.
  intros Hok Hall. revert acc Hok.
  induction Hall as [|d dicts [t0 Ht0] _ IH]; intros acc Hok.
  - exists acc. split; [done|]. intros t.
    destruct (PyMap.get t acc) as [m|] eqn:Hm; [|done].
    split; [by left|]. apply extended_by_refl.
  - destruct (collect_label_by_type_dict k_values acc d t0 Hok Ht0)
      as (acc1 & m1 & Hstep & Hok1 & Hother & Hm1 & Hext1).
    destruct (IH acc1 Hok1) as (acc' & Hloop & Hres).
    exists acc'. split; [cbn [map fold_opt]; by rewrite Hstep|].
    intros t. specialize (Hres t).
    destruct (decide (t = t0)) as [->|Hne].
    + rewrite Hm1 in Hres. rewrite (labels_of_type_cons_eq t0) by done.
      destruct (PyMap.get t0 acc') as [m'|]; [|by destruct Hres].
      destruct Hres as [_ Hext2]. split; [by right|].
      simpl in Hext2.
      eapply extended_by_ext; [|eapply extended_by_trans; eassumption].
      done.
    + rewrite (Hother t) in Hres by done.
      by rewrite (labels_of_type_cons_ne t0 t) by done.
Qed.

Lemma labels_of_type_nonempty t (dicts : list (list (string * value))) :
  labels_of_type t dicts <> []
  <-> exists d, d ∈ dicts /\ response_type_of (VDict d) = Some t.
Proof.
  unfold labels_of_type. split.
  - intros Hne. destruct (filter _ dicts) as [|d l] eqn:E; [done|].
    assert (Hin : d ∈ filter (fun d => response_type_of (VDict d) = Some t) dicts)
      by (rewrite E; by left).
    apply list_elem_of_filter in Hin as [Ht Hd]. by exists d.
  - intros (d & Hd & Ht) E.
    assert (Hin : d ∈ filter (fun d => response_type_of (VDict d) = Some t) dicts)
      by (by apply list_elem_of_filter).
    rewrite E in Hin. by apply elem_of_nil in Hin.
Qed.

Lemma collect_metrics_by_response_type_aux
  (json_data : value) k_values (dicts : list (list (string * value))) :
  dataset_labels json_data = Some (map VDict dicts) ->
  Forall (fun d => is_Some (response_type_of (VDict d))) dicts ->
  exists by_type,
    _collect_metrics_by_response_type json_data k_values = Some by_type
    /\ forall t,
         match PyMap.get t by_type with
         | Some m' =>
             labels_of_type t dicts <> []
             /\ extended_by (collected k_values (labels_of_type t dicts))
                  (empty_metrics k_values) m'
         | None => labels_of_type t dicts = []
         end.
Proof.
  intros Hlabels Htypes. destruct json_data as [| | | | | |data]; try done.
  unfold _collect_metrics_by_response_type. rewrite fold_collect_dialogues.
  unfold dataset_labels in Hlabels.
  destruct (mapM dialogue_labels (map snd data)) as [lss|]; [|done].
  simpl in Hlabels. injection Hlabels as Hlabels. cbn [mbind option_bind].
  rewrite Hlabels.
  destruct (collect_labels_by_type k_values dicts []) as (by_type & Hfold & Hres);
    [done|done|].
  exists by_type. split; [done|]. intros t. specialize (Hres t).
  destruct (PyMap.get t by_type) as [m'|].
  - destruct Hres as [[[? [=]]|Hne] Hext]. done.
  - by destruct Hres.
Qed.

(** X28: [_collect_metrics_by_response_type] partitions the scores by the
    [responseType] of the label, a label without the field counting as
    "unknown": when the labels of the dataset are objects whose response
    type is hashable (a string, a number, a bool or null, that is anything
    but a list or an object), the result has an entry for exactly the
    response types
    that occur, and the list of "{metric}@{k}" in the entry of a type holds
    the values of the labels of that type, in the order of the dataset,
    once for every occurrence of [k] in [k_values]. *)
Theorem collect_metrics_by_response_type_partitions
  (json_data : value) k_values (dicts : list (list (string * value))) :
  dataset_labels json_data = Some (map VDict dicts) ->
  Forall (fun d => is_Some (response_type_of (VDict d))) dicts ->
  exists by_type,
    _collect_metrics_by_response_type json_data k_values = Some by_type
    /\ (forall t,
          is_Some (PyMap.get t by_type)
          <-> exists d, d ∈ dicts /\ response_type_of (VDict d) = Some t)
    /\ forall t metrics key,
         PyMap.get t by_type = Some metrics ->
         PyDict.get key metrics
         = if decide (key ∈ all_metric_keys k_values)
           then Some (concat
                        (map (fun d =>
                                repeated_scores (all_metric_keys k_values) d key)
                           (labels_of_type t dicts)))
           else None.
Proof.
  intros Hlabels Htypes.
  destruct (collect_metrics_by_response_type_aux _ k_values _ Hlabels Htypes)
    as (by_type & Hby & Hres).
  exists by_type. split; [done|]. split.
  - intros t. specialize (Hres t). rewrite <- labels_of_type_nonempty.
    destruct (PyMap.get t by_type) as [m'|].
    + split; [by intros _; apply Hres|by eexists].
    + split; [by intros [? [=]]|done].
  - intros t metrics key Hget. specialize (Hres t). rewrite Hget in Hres.
    destruct Hres as [_ [_ Hext]]. rewrite Hext, empty_metrics_get.
    by destruct (decide _).
Qed.

End by_response_type.

Section by_type_statistics.
Import ConversationRetrievalProcessor.

Implicit Types (m : list (string * list value))
  (acc by_type : list (hashable * list (string * list value)))
  (key name : string) (t : hashable) (k_values : list Z).

Lemma fold_opt_invariant {S A : Type} (P : S -> Prop) (f : S -> A -> option S)
  (l : list A) (s s' : S) :
  (forall s a s', P s -> f s a = Some s' -> P s') ->
  P s -> fold_opt f l s = Some s' -> P s'.
Proof.
  intros Hf. revert s. induction l as [|a l IH]; intros s Hs H.
  - by injection H as <-.
  - cbn [fold_opt] in H. destruct (f s a) as [s1|] eqn:E; [|done].
    apply (IH s1); [by eapply Hf|done].
Qed.

Lemma well_keyed_set t m acc :
  well_keyed acc -> NoDup (PyDict.keys m) -> well_keyed (PyMap.set t m acc).
Proof.
  intros [Hnd Hin] Hm. split; [by apply map_NoDup_keys_set|].
  intros t' m'. rewrite map_get_set. destruct (decide (t = t')).
  - by intros [= <-].
  - apply Hin.
Qed.

Lemma collect_metric_by_type_well_keyed t (label : value) acc name acc' :
  well_keyed acc ->
  collect_metric_by_type t label acc name = Some acc' -> well_keyed acc'.
Proof.
  intros Hacc. unfold collect_metric_by_type.
  destruct (py_contains name label) as [[|]|]; cbn [mbind option_bind];
    [|by intros [= <-]|done].
  destruct (py_getitem label name) as [x|]; cbn [mbind option_bind]; [|done].
  destruct (PyMap.get t acc) as [m|] eqn:Hm; cbn [mbind option_bind]; [|done].
  unfold append_score.
  destruct (PyDict.get name m) as [l|]; cbn [mbind option_bind]; [|done].
  intros [= <-]. apply well_keyed_set; [done|].
  apply dict_NoDup_keys_set. by apply (proj2 Hacc t).
Qed.

Lemma collect_label_by_type_well_keyed k_values acc (label : value) acc' :
  well_keyed acc ->
  collect_label_by_type k_values acc label = Some acc' -> well_keyed acc'.
Proof.
  intros Hacc. unfold collect_label_by_type.
  destruct (response_type_of label) as [t|]; cbn [mbind option_bind]; [|done].
  apply (fold_opt_invariant well_keyed).
  - intros s metric_type s' Hs.
    apply (fold_opt_invariant well_keyed); [|done].
    intros s1 k s2 Hs1. apply (collect_metric_by_type_well_keyed t label s1).
    done.
  - destruct (PyMap.contains t acc); [done|].
    apply well_keyed_set; [done|apply empty_metrics_NoDup].
Qed.

Lemma collect_metrics_by_response_type_well_keyed
  (json_data : value) k_values by_type :
  _collect_metrics_by_response_type json_data k_values = Some by_type ->
  well_keyed by_type.
Proof.
  destruct json_data as [| | | | | |data]; try done.
  unfold _collect_metrics_by_response_type. rewrite fold_collect_dialogues.
  destruct (mapM dialogue_labels (map snd data)) as [lss|]; [|done].
  cbn [mbind option_bind].
  apply (fold_opt_invariant well_keyed).
  - intros s label s'. apply collect_label_by_type_well_keyed.
  - split; [apply NoDup_nil_2|done].
Qed.

(** *** The statistics of one metric *)

Lemma np_min_min_of (l : list value) (xs : list R) :
  l <> [] -> mapM as_float l = Some xs -> np_min l = Some (min_of l).
Proof.
  intros Hne Hxs. unfold np_min, min_of. rewrite Hxs. simpl.
  destruct xs as [|x xs]; [|done].
  apply mapM_as_float_length in Hxs. by destruct l.
Qed.

Lemma np_std_std_of (l : list value) (xs : list R) :
  l <> [] -> mapM as_float l = Some xs -> np_std l = Some (std_of l).
Proof.
  intros Hne Hxs. unfold np_std, std_of. rewrite Hxs. simpl.
  by destruct l.
Qed.

Lemma metric_statistics_entries name (l : list value)
  (stats : list (string * value)) :
  is_Some (mapM as_float l) ->
  metric_statistics name l stats
  = Some (write_all (statistics_entries name l) stats).
Proof.
  intros [xs Hxs]. unfold metric_statistics.
  destruct l as [|v l]; [done|].
  rewrite (np_mean_avg_of (v :: l) xs), (np_max_max_of (v :: l) xs),
    (np_min_min_of (v :: l) xs), (np_std_std_of (v :: l) xs) by done.
  done.
Qed.

Lemma statistics_loop (metrics : list (string * list value))
  (stats : list (string * value)) :
  Forall (fun entry => is_Some (mapM as_float (snd entry))) metrics ->
  fold_opt
    (fun stats '(metric_name, scores) =>
       metric_statistics metric_name scores stats)
    metrics stats
  = Some (write_all
            (concat (map (fun '(name, l) => statistics_entries name l) metrics))
            stats).
Proof.
  intros Hall. revert stats.
  induction Hall as [|[name l] metrics Hl _ IH]; intros stats; [done|].
  cbn [fold_opt]. rewrite metric_statistics_entries by done.
  cbn [mbind option_bind map concat]. rewrite IH, write_all_app. done.
Qed.

Lemma dict_elem_of_get {V : Type} key (v : V) (d : list (string * V)) :
  NoDup (PyDict.keys d) -> (key, v) ∈ d -> PyDict.get key d = Some v.
Proof.
  induction d as [|[k w] d IH]; intros Hnd Hin; [by apply elem_of_nil in Hin|].
  simpl in Hnd. apply NoDup_cons in Hnd as [Hk Hnd]. simpl.
  apply elem_of_cons in Hin as [[= <- <-]|Hin].
  - by rewrite String.eqb_refl.
  - destruct (String.eqb k key) eqn:E; [|by apply IH].
    apply String.eqb_eq in E. subst k. destruct Hk.
    apply list_elem_of_fmap. by exists (key, v).
Qed.

Lemma dict_get_elem_of {V : Type} key (v : V) (d : list (string * V)) :
  PyDict.get key d = Some v -> (key, v) ∈ d.
Proof.
  induction d as [|[k w] d IH]; simpl; [done|].
  destruct (String.eqb k key) eqn:E.
  - apply String.eqb_eq in E. intros [= ->]. subst. by left.
  - intros H. right. by apply IH.
Qed.

Lemma statistics_entries_elem (metrics : list (string * list value))
  key (v : value) :
  (key, v) ∈ concat (map (fun '(name, l) => statistics_entries name l) metrics)
  <-> exists name l,
        (name, l) ∈ metrics /\ (key, v) ∈ statistics_entries name l.
Proof.
  induction metrics as [|[name l] metrics IH].
  - simpl. split; [intros H; by apply elem_of_nil in H|].
    intros (name & l & H & _). by apply elem_of_nil in H.
  - cbn [map concat]. rewrite elem_of_app, IH. split.
    + intros [Hin|(n & l' & Hn & H)].
      * exists name, l. split; [by left|done].
      * exists n, l'. split; [by right|done].
    + intros (n & l' & [[= -> ->]|Hn]%elem_of_cons & H).
      * by left.
      * right. by exists n, l'.
Qed.

Lemma statistics_entries_name name1 name2 (l1 l2 : list value) key (v1 v2 : value) :
  (key, v1) ∈ statistics_entries name1 l1 ->
  (key, v2) ∈ statistics_entries name2 l2 ->
  name1 = name2.
Proof.
  unfold statistics_entries. intros H1 H2.
  repeat (apply elem_of_cons in H1 as [H1|H1]);
    [..|by apply elem_of_nil in H1];
    repeat (apply elem_of_cons in H2 as [H2|H2]);
    try (by apply elem_of_nil in H2);
    cbv [String.append] in H1, H2; congruence.
Qed.

Lemma statistics_entries_functional name (l : list value) key (v1 v2 : value) :
  (key, v1) ∈ statistics_entries name l ->
  (key, v2) ∈ statistics_entries name l ->
  v1 = v2.
Proof.
  unfold statistics_entries. intros H1 H2.
  repeat (apply elem_of_cons in H1 as [H1|H1]);
    [..|by apply elem_of_nil in H1];
    repeat (apply elem_of_cons in H2 as [H2|H2]);
    try (by apply elem_of_nil in H2);
    cbv [String.append] in H1, H2; congruence.
Qed.

(** The statistics of the score lists of one response type. *)
Lemma statistics_of_type (metrics : list (string * list value)) :
  NoDup (PyDict.keys metrics) ->
  Forall (fun entry => is_Some (mapM as_float (snd entry))) metrics ->
  exists stats,
    fold_opt
      (fun stats '(metric_name, scores) =>
         metric_statistics metric_name scores stats)
      metrics [] = Some stats
    /\ forall key l entry_key (v : value),
         PyDict.get key metrics = Some l ->
         (entry_key, v) ∈ statistics_entries key l ->
         PyDict.get entry_key stats = Some v.
Proof.
  intros Hnd Hnum. rewrite statistics_loop by done.
  eexists. split; [done|]. intros key l entry_key v Hget Hin.
  apply write_all_get.
  - intros k v1 v2 H1 H2.
    apply statistics_entries_elem in H1 as (n1 & l1 & Hn1 & H1).
    apply statistics_entries_elem in H2 as (n2 & l2 & Hn2 & H2).
    pose proof (statistics_entries_name _ _ _ _ _ _ _ H1 H2) as ->.
    apply (dict_elem_of_get _ _ _ Hnd) in Hn1, Hn2.
    assert (l1 = l2) as -> by congruence.
    by eapply statistics_entries_functional.
  - apply statistics_entries_elem. exists key, l. split; [|done].
    by apply dict_get_elem_of.
Qed.

(** The loop over the response types. *)
Lemma statistics_by_type_loop by_type
  (results : list (hashable * list (string * value))) :
  NoDup (PyMap.keys by_type) ->
  Forall (fun entry =>
            NoDup (PyDict.keys (snd entry))
            /\ Forall (fun e => is_Some (mapM as_float (snd e))) (snd entry))
    by_type ->
  exists results',
    fold_opt
      (fun results '(response_type, metrics) =>
         stats ←
           fold_opt
             (fun stats '(metric_name, scores) =>
                metric_statistics metric_name scores stats)
             metrics [];
         Some (PyMap.set response_type stats results))
      by_type results = Some results'
    /\ (forall t, t ∉ PyMap.keys by_type ->
          PyMap.get t results' = PyMap.get t results)
    /\ forall t metrics,
         PyMap.get t by_type = Some metrics ->
         exists stats,
           PyMap.get t results' = Some stats
           /\ forall key l entry_key (v : value),
                PyDict.get key metrics = Some l ->
                (entry_key, v) ∈ statistics_entries key l ->
                PyDict.get entry_key stats = Some v.
Proof.
  intros Hnd Hall. revert results.
  induction Hall as [|[t0 metrics0] by_type [Hnd0 Hnum0] _ IH]; intros results.
  - exists results. split; [done|]. split; [done|]. intros t metrics [=].
  - simpl in Hnd. apply NoDup_cons in Hnd as [Ht0 Hnd].
    destruct (statistics_of_type metrics0 Hnd0 Hnum0) as (stats0 & Hstats0 & Hentries0).
    destruct (IH Hnd (PyMap.set t0 stats0 results))
      as (results' & Hloop & Habsent & Hpresent).
    exists results'. split; [cbn [fold_opt]; by rewrite Hstats0|]. split.
    + intros t Ht. simpl in Ht. apply not_elem_of_cons in Ht as [Hne Ht].
      rewrite Habsent by done. by apply map_get_set_ne.
    + intros t metrics. simpl. destruct (decide (t0 = t)) as [E|E].
      * subst t0. intros [= <-].
        exists stats0. split; [|done].
        rewrite Habsent by done. apply map_get_set_eq.
      * apply Hpresent.
Qed.

Lemma well_keyed_entries by_type :
  well_keyed by_type ->
  (forall t metrics key l,
     PyMap.get t by_type = Some metrics ->
     PyDict.get key metrics = Some l -> is_Some (mapM as_float l)) ->
  Forall (fun entry =>
            NoDup (PyDict.keys (snd entry))
            /\ Forall (fun e => is_Some (mapM as_float (snd e))) (snd entry))
    by_type.
Proof.
  intros [Hnd Hin] Hnum. apply Forall_forall. intros [t metrics] Hentry.
  apply (map_elem_of_get _ _ _ Hnd) in Hentry. simpl. split.
  - by apply (Hin t).
  - apply Forall_forall. intros [key l] He. simpl.
    apply (Hnum t metrics key l Hentry).
    apply dict_elem_of_get; [by apply (Hin t)|done].
Qed.

Lemma metrics_by_response_type_entries
  (json_data : value) k_values by_type :
  _collect_metrics_by_response_type json_data k_values = Some by_type ->
  (forall t metrics key l,
     PyMap.get t by_type = Some metrics ->
     PyDict.get key metrics = Some l -> is_Some (mapM as_float l)) ->
  exists results,
    calculate_metrics_by_response_type json_data k_values = Some results
    /\ (forall t, PyMap.get t by_type = None -> PyMap.get t results = None)
    /\ forall t metrics,
         PyMap.get t by_type = Some metrics ->
         exists stats,
           PyMap.get t results = Some stats
           /\ forall key l entry_key (v : value),
                PyDict.get key metrics = Some l ->
                (entry_key, v) ∈ statistics_entries key l ->
                PyDict.get entry_key stats = Some v.
Proof.
  intros Hby Hnum.
  pose proof (collect_metrics_by_response_type_well_keyed _ _ _ Hby) as Hwk.
  destruct json_data as [| | | | | |data]; try done.
  unfold calculate_metrics_by_response_type. rewrite Hby.
  cbn [mbind option_bind].
  destruct (statistics_by_type_loop by_type [] (proj1 Hwk)
              (well_keyed_entries by_type Hwk Hnum))
    as (results & Hloop & Habsent & Hpresent).
  exists results. split; [done|]. split; [|done].
  intros t Ht. rewrite Habsent; [done|]. by apply map_get_None_keys.
Qed.

End by_type_statistics.

Section by_type_statistics_result.
Import ConversationRetrievalProcessor.

(** X29: [calculate_metrics_by_response_type] reports, for every response type
    and every metric that was collected, the statistics of the collected
    list: when the collected scores are numbers it returns, has an entry
    for exactly the collected response types, and the entry holds under
    "count_" the number of scores and under "avg_", "max_", "min_" and
    "std_" their mean, maximum, minimum and standard deviation, which are
    0.0 when no score was collected. *)
Theorem metrics_by_response_type_statistics
  (json_data : value) (k_values : list Z)
  (by_type : list (hashable * list (string * list value))) :
  _collect_metrics_by_response_type json_data k_values = Some by_type ->
  (forall t metrics key l,
     PyMap.get t by_type = Some metrics ->
     PyDict.get key metrics = Some l -> is_Some (mapM as_float l)) ->
  exists results,
    calculate_metrics_by_response_type json_data k_values = Some results
    /\ (forall t, PyMap.get t by_type = None -> PyMap.get t results = None)
    /\ forall t metrics,
         PyMap.get t by_type = Some metrics ->
         exists stats,
           PyMap.get t results = Some stats
           /\ forall key l,
                PyDict.get key metrics = Some l ->
                PyDict.get ("count_" +:+ key) stats
                = Some (VInt (Z.of_nat (length l)))
                /\ PyDict.get ("avg_" +:+ key) stats = Some (VFloat (avg_of l))
                /\ PyDict.get ("max_" +:+ key) stats = Some (VFloat (max_of l))
                /\ PyDict.get ("min_" +:+ key) stats = Some (VFloat (min_of l))
                /\ PyDict.get ("std_" +:+ key) stats = Some (VFloat (std_of l))
                /\ (l = [] ->
                    avg_of l = 0%R /\ max_of l = 0%R
                    /\ min_of l = 0%R /\ std_of l = 0%R).
Proof.
  intros Hby Hnum.
  destruct (metrics_by_response_type_entries _ _ _ Hby Hnum)
    as (results & Hres & Habsent & Hpresent).
  exists results. split; [done|]. split; [done|].
  intros t metrics Ht. destruct (Hpresent t metrics Ht) as (stats & Hstats & Hentries).
  exists stats. split; [done|]. intros key l Hget.
  assert (Hentry : forall entry_key (v : value),
    (entry_key, v) ∈ statistics_entries key l ->
    PyDict.get entry_key stats = Some v) by (intros ? ?; by apply Hentries).
  split; [apply Hentry; unfold statistics_entries; do 4 right; by left|].
  split; [apply Hentry; by left|].
  split; [apply Hentry; right; by left|].
  split; [apply Hentry; do 2 right; by left|].
  split; [apply Hentry; do 3 right; by left|].
  by intros ->.
Qed.

End by_type_statistics_result.

Section counts_by_type.
Import ConversationRetrievalProcessor.

Implicit Types (d : list (string * value)) (key : string) (t : hashable) (k_values : list Z).

Lemma collected_once k_values (dicts : list (list (string * value))) key :
  NoDup k_values -> key ∈ all_metric_keys k_values ->
  collected k_values dicts key = omap (PyDict.get key) dicts.
Proof.
  intros Hnd Hkey. unfold collected. rewrite <- concat_option_lists. f_equal.
  apply map_ext. intros d. apply repeated_scores_once; [|done].
  by apply all_metric_keys_NoDup.
Qed.

Lemma omap_numbers (dicts : list (list (string * value))) key :
  Forall (fun d => forall x, PyDict.get key d = Some x -> is_Some (as_float x))
    dicts ->
  is_Some (mapM as_float (omap (PyDict.get key) dicts)).
Proof.
  intros Hall. apply mapM_is_Some, Forall_forall. intros x Hx.
  apply list_elem_of_omap in Hx as (d & Hd & Hget).
  rewrite Forall_forall in Hall. by apply (Hall d).
Qed.

(** X30: The counts by response type: on distinct [k_values], when the labels
    are objects whose response type is hashable and whose metric fields are
    numbers, [calculate_metrics_by_response_type] returns; a response type
    that no label has gets no entry; and for a response type that occurs,
    "count_{metric}@{k}" is the number of labels of that type that have the
    field "{metric}@{k}". *)
Theorem response_type_counts
  (json_data : value) k_values (dicts : list (list (string * value))) :
  NoDup k_values ->
  dataset_labels json_data = Some (map VDict dicts) ->
  Forall (fun d => is_Some (response_type_of (VDict d))) dicts ->
  Forall (fun d => forall key x,
            key ∈ all_metric_keys k_values ->
            PyDict.get key d = Some x -> is_Some (as_float x)) dicts ->
  exists results,
    calculate_metrics_by_response_type json_data k_values = Some results
    /\ forall t,
         match PyMap.get t results with
         | None => labels_of_type t dicts = []
         | Some stats =>
             labels_of_type t dicts <> []
             /\ forall key, key ∈ all_metric_keys k_values ->
                  PyDict.get ("count_" +:+ key) stats
                  = Some (VInt (Z.of_nat
                                  (length (omap (PyDict.get key)
                                             (labels_of_type t dicts)))))
         end.
Proof.
  intros Hnd Hlabels Htypes Hnumbers.
  destruct (collect_metrics_by_response_type_aux _ k_values _ Hlabels Htypes)
    as (by_type & Hby & Hparts).
  assert (Hlists : forall t metrics key l,
    PyMap.get t by_type = Some metrics ->
    PyDict.get key metrics = Some l ->
    key ∈ all_metric_keys k_values
    /\ l = omap (PyDict.get key) (labels_of_type t dicts)).
  { intros t metrics key l Ht Hget. specialize (Hparts t).
    rewrite Ht in Hparts. destruct Hparts as [_ [_ Hext]].
    rewrite Hext, empty_metrics_get in Hget.
    destruct (decide (key ∈ all_metric_keys k_values)) as [Hkey|]; [|done].
    split; [done|]. simpl in Hget. injection Hget as <-.
    by apply collected_once. }
  destruct (metrics_by_response_type_entries _ _ _ Hby)
    as (results & Hres & Habsent & Hpresent).
  { intros t metrics key l Ht Hget.
    destruct (Hlists t metrics key l Ht Hget) as [Hkey ->].
    apply omap_numbers. unfold labels_of_type.
    apply Forall_forall. intros d [_ Hd]%list_elem_of_filter x.
    rewrite Forall_forall in Hnumbers. by apply Hnumbers. }
  exists results. split; [done|]. intros t. specialize (Hparts t).
  destruct (PyMap.get t by_type) as [metrics|] eqn:Ht.
  - destruct (Hpresent t metrics Ht) as (stats & -> & Hentries).
    destruct Hparts as [Hne [_ Hext]]. split; [done|]. intros key Hkey.
    assert (Hget : PyDict.get key metrics
                   = Some (omap (PyDict.get key) (labels_of_type t dicts))).
    { rewrite Hext, empty_metrics_get, decide_True by done. simpl.
      by rewrite collected_once. }
    apply (Hentries key _ _ _ Hget). unfold statistics_entries.
    do 4 right. by left.
  - by rewrite Habsent.
Qed.

End counts_by_type.

Section by_type_witnesses.
Import ConversationRetrievalProcessor.

Lemma collect_ndcg_scores_flattens_witness :
  exists scores,
    _collect_ndcg_scores Examples.scored_dataset [1; 1]%Z = Some scores
    /\ PyDict.get "ndcg@1" scores = Some [VFloat 0; VFloat 0]
    /\ PyDict.get "precision@1" scores = None.
Proof.
  destruct (collect_ndcg_scores_flattens Examples.scored_dataset [1; 1]%Z
              [[("evidence", VList [VStr "p1"]);
                ("ndcg@1", VFloat 0);
                ("precision@1", VFloat 0);
                ("recall@1", VFloat 0)]])
    as (scores & Hscores & Hget).
  - reflexivity.
  - exists scores. split; [exact Hscores|]. split.
    + rewrite (Hget "ndcg@1"). reflexivity.
    + rewrite (Hget "precision@1"). reflexivity.
Defined.

Lemma collect_ndcg_scores_agrees_witness :
  exists ndcg_scores scores,
    _collect_ndcg_scores Examples.scored_dataset [1]%Z = Some ndcg_scores
    /\ _collect_metrics_scores Examples.scored_dataset [1]%Z = Some scores
    /\ PyDict.get "ndcg@1" ndcg_scores = PyDict.get "ndcg@1" scores.
Proof.
  destruct (collect_ndcg_scores_agrees Examples.scored_dataset [1]%Z
              [[("evidence", VList [VStr "p1"]);
                ("ndcg@1", VFloat 0);
                ("precision@1", VFloat 0);
                ("recall@1", VFloat 0)]])
    as (ndcg_scores & scores & Hndcg & Hscores & _ & Hget).
  - apply (bool_decide_unpack _). vm_compute. exact I.
  - reflexivity.
  - exists ndcg_scores, scores. split; [exact Hndcg|]. split; [exact Hscores|].
    apply (Hget 1%Z). by left.
Defined.

Lemma collect_metrics_by_response_type_partitions_witness :
  exists by_type,
    _collect_metrics_by_response_type Examples.typed_dataset [1]%Z = Some by_type
    /\ is_Some (PyMap.get HNone by_type)
    /\ is_Some (PyMap.get (HStr "unknown") by_type).
Proof.
  destruct (collect_metrics_by_response_type_partitions
              Examples.typed_dataset [1]%Z
              [[("responseType", VNone); ("ndcg@1", VFloat 1)];
               [("ndcg@1", VFloat 0)]])
    as (by_type & Hby & Htypes & _).
  - reflexivity.
  - constructor; [|constructor; [|constructor]]; eexists; reflexivity.
  - exists by_type. split; [exact Hby|]. split; apply Htypes.
    + eexists. split; [by left|reflexivity].
    + eexists. split; [right; by left|reflexivity].
Defined.

Lemma example_by_type_numbers (t : hashable)
  (metrics : list (string * list value)) (key : string) (l : list value) :
  PyMap.get t
    [(HStr "unknown",
      [("ndcg@1", [VFloat 0]); ("precision@1", [VFloat 0]);
       ("recall@1", [VFloat 0])])] = Some metrics ->
  PyDict.get key metrics = Some l ->
  is_Some (mapM as_float l).
Proof.
  cbn [PyMap.get]. intros Ht.
  destruct (decide (_ = t)); [|discriminate]. injection Ht as <-.
  intros Hget. apply example_scores_numbers in Hget as ->.
  eexists. reflexivity.
Qed.

Lemma metrics_by_response_type_statistics_witness :
  exists results stats,
    calculate_metrics_by_response_type Examples.scored_dataset [1]%Z
    = Some results
    /\ PyMap.get (HStr "unknown") results = Some stats
    /\ PyDict.get "count_ndcg@1" stats = Some (VInt 1).
Proof.
  destruct (metrics_by_response_type_statistics Examples.scored_dataset [1]%Z
              [(HStr "unknown",
                [("ndcg@1", [VFloat 0]); ("precision@1", [VFloat 0]);
                 ("recall@1", [VFloat 0])])])
    as (results & Hresults & _ & Hstats).
  - reflexivity.
  - apply example_by_type_numbers.
  - destruct (Hstats (HStr "unknown")
                [("ndcg@1", [VFloat 0]); ("precision@1", [VFloat 0]);
                 ("recall@1", [VFloat 0])])
      as (stats & Hget & Hentries); [reflexivity|].
    exists results, stats. split; [exact Hresults|]. split; [exact Hget|].
    destruct (Hentries "ndcg@1" [VFloat 0]) as [Hcount _]; [reflexivity|].
    exact Hcount.
Defined.

Lemma response_type_counts_witness :
  exists results,
    calculate_metrics_by_response_type Examples.scored_dataset [1]%Z
    = Some results
    /\ match PyMap.get (HStr "unknown") results with
       | Some stats => PyDict.get "count_precision@1" stats = Some (VInt 1)
       | None => False
       end.
Proof.
  destruct (response_type_counts Examples.scored_dataset [1]%Z
              [[("evidence", VList [VStr "p1"]);
                ("ndcg@1", VFloat 0);
                ("precision@1", VFloat 0);
                ("recall@1", VFloat 0)]])
    as (results & Hresults & Hcounts).
  - apply (bool_decide_unpack _). vm_compute. exact I.
  - reflexivity.
  - constructor; [|constructor]. eexists. reflexivity.
  - constructor; [|constructor]. intros key x Hkey.
    assert (Hkeys : key ∈ ["ndcg@1"; "precision@1"; "recall@1"]) by exact Hkey.
    repeat (apply elem_of_cons in Hkeys as [->|Hkeys];
            [intros [= <-]; eexists; reflexivity|]).
    by apply elem_of_nil in Hkeys.
  - exists results. split; [exact Hresults|].
    specialize (Hcounts (HStr "unknown")).
    destruct (PyMap.get (HStr "unknown") results) as [stats|].
    + destruct Hcounts as [_ Hcount].
      apply (Hcount "precision@1"). right. by left.
    + discriminate Hcounts.
Defined.

End by_type_witnesses.
